(** * The coordination-and-learning layer of the email agent framework

    A shallow embedding of three Python modules:
    - [src/memory/persistent_memory.py]   (event store, preference store,
      learning rules)                      -> [Module Memory]
    - [src/monitoring/performance_monitor.py] (metric ring buffer, per-agent
      counters, threshold alerts)          -> [Module Monitor]
    - [src/agent/base.py] and [src/agent/email_master_agent.py]
      (perceive / think / act cycle, analysis pipeline, planning,
      execution)                           -> [Module Agent]

    Python [float] is IEEE binary64, which is Rocq's primitive [float];
    Python [int] is [Z]; [dict] with string keys is [gmap string _];
    [list] and [deque] are [list]. *)

Set Warnings "-inexact-float".
From Stdlib Require Import ZArith List String Floats Lia.
From stdpp Require Import base option gmap strings pretty list.
Import ListNotations.

Open Scope string_scope.
Open Scope list_scope.

(** ** Python values, builtins and exceptions *)

Module Py.

(** An exception instance: its class name and [str(e)]. *)
Inductive exn : Type :=
| Exception (type_name : string) (message : string).

Definition str (e : exn) : string :=
  match e with Exception _ message => message end.

(** [d[k]] on a missing key: [str(KeyError('k'))] is the quoted key. *)
Definition KeyError (k : string) : exn :=
  Exception "KeyError" ("'" +:+ k +:+ "'").

Definition IntegrityError (column : string) : exn :=
  Exception "IntegrityError" ("UNIQUE constraint failed: " +:+ column).

Definition AttributeError (message : string) : exn :=
  Exception "AttributeError" message.

Definition TypeError (message : string) : exn :=
  Exception "TypeError" message.

(** The outcome of a call: a value, or a raised exception. *)
Inductive raises (A : Type) : Type :=
| Return (a : A)
| Raise (e : exn).
Arguments Return {A} a.
Arguments Raise {A} e.

(** [min(a, b)] and [max(a, b)] keep the first argument unless the second
    compares strictly smaller (resp. greater). *)
Definition min (a b : float) : float := if (b <? a)%float then b else a.
Definition max (a b : float) : float := if (a <? b)%float then b else a.

(** [a > b] on floats. *)
Definition gt (a b : float) : bool := (b <? a)%float.

(** Truth value of a [str]. *)
Definition truthy (s : string) : bool := negb (String.eqb s "").

(** Truth value of [d.get(k)] when the value, if present, is a [str]. *)
Definition truthy_opt (o : option string) : bool :=
  match o with Some s => truthy s | None => false end.

(** [d.get(k, dflt)]: an absent key is [None] in the typed view of a dict. *)
Definition get {A : Type} (o : option A) (dflt : A) : A := default dflt o.

(** [d[k]]. *)
Definition item {A : Type} (k : string) (o : option A) : raises A :=
  match o with Some a => Return a | None => Raise (KeyError k) end.

(** [a / b] on non-negative ints below 2^53, where the quotient of the two
    conversions is the correctly rounded quotient Python computes. *)
Definition truediv (a b : Z) : float :=
  (PrimFloat.of_uint63 (Uint63.of_Z a) / PrimFloat.of_uint63 (Uint63.of_Z b))%float.

(** [collections.deque(maxlen=n).append(x)]: the item is appended on the
    right and, if that exceeds [maxlen], one item is dropped on the left. *)
Definition deque_append {A : Type} (maxlen : nat) (x : A) (d : list A) : list A :=
  let d' := d ++ [x] in
  if (maxlen <? length d')%nat then tail d' else d'.

(** [l[-n:]] for [n > 0]: the last [n] items. *)
Definition last_n {A : Type} (n : nat) (l : list A) : list A :=
  skipn (length l - n) l.

End Py.

Export Py (raises, Return, Raise).

(** A naive [datetime], written in the ['%Y%m%d_%H%M%S_%f'] layout that
    event and feedback ids embed; the layout has microsecond resolution, so
    it determines the value. *)
Definition datetime : Type := string.

(** ** Stateful code: one object, the wall clock, exceptions

    [Run St A] is a method of an object with state [St] that may read
    [datetime.now()], may raise, and returns an [A]. A raised exception
    keeps the mutations made before it (nothing is rolled back). *)

Record Clock : Type := mkClock {
  reading : nat -> datetime;   (* the n-th value datetime.now() returns *)
  ticks : nat                  (* how many readings were taken so far *)
}.

Definition Run (St A : Type) : Type := St -> Clock -> raises A * St * Clock.

Definition ret {St A : Type} (a : A) : Run St A :=
  fun s c => (Return a, s, c).

Definition bind {St A B : Type} (m : Run St A) (k : A -> Run St B) : Run St B :=
  fun s c =>
    match m s c with
    | (Return a, s', c') => k a s' c'
    | (Raise e, s', c') => (Raise e, s', c')
    end.

Definition raise {St A : Type} (e : Py.exn) : Run St A :=
  fun s c => (Raise e, s, c).

(** [try: m  except Exception as e: h e]. *)
Definition try_except {St A : Type} (m : Run St A) (h : Py.exn -> Run St A) : Run St A :=
  fun s c =>
    match m s c with
    | (Return a, s', c') => (Return a, s', c')
    | (Raise e, s', c') => h e s' c'
    end.

Definition get_state {St : Type} : Run St St :=
  fun s c => (Return s, s, c).

Definition modify {St : Type} (f : St -> St) : Run St unit :=
  fun s c => (Return tt, f s, c).

Definition datetime_now {St : Type} : Run St datetime :=
  fun s c => (Return (reading c (ticks c)), s, mkClock (reading c) (S (ticks c))).

(** A value that may raise, used inside a method. *)
Definition lift_raises {St A : Type} (r : raises A) : Run St A :=
  fun s c => (r, s, c).

(** A method of a component [T] of the object [St]. *)
Definition zoom {St T A : Type} (proj : St -> T) (put : T -> St -> St)
    (m : Run T A) : Run St A :=
  fun s c =>
    match m (proj s) c with
    | (r, t', c') => (r, put t' s, c')
    end.

Declare Scope run_scope.
Delimit Scope run_scope with run.
Notation "x <- m ;; k" := (bind m (fun x => k))
  (at level 100, m at next level, right associativity) : run_scope.
Notation "m ;; k" := (bind m (fun _ => k))
  (at level 100, right associativity) : run_scope.
Open Scope run_scope.

(** [for x in l: body x]. *)
Fixpoint for_each {St A : Type} (l : list A) (body : A -> Run St unit) : Run St unit :=
  match l with
  | [] => ret tt
  | x :: l' => body x ;; for_each l' body
  end.

Definition result_of {St A : Type} (out : raises A * St * Clock) : raises A := fst (fst out).
Definition state_of {St A : Type} (out : raises A * St * Clock) : St := snd (fst out).
Definition clock_of {St A : Type} (out : raises A * St * Clock) : Clock := snd out.

(** ** Email tools (src/tools/email_tools.py) *)

Module Tools.

Record EmailMessage : Type := {
  id : string;
  subject : string;
  sender : string;
  recipients : list string;
  body : string;
  html_body : option string;
  date : datetime;
  labels : list string;
  is_read : bool;
  is_important : bool;
  attachments : list string
}.

(** The interface the master agent's executor calls. *)
Class EmailTools : Type := {
  add_label : string -> string -> raises bool;
  archive_email : string -> raises bool
}.

(** [EmailTools.add_label] and [EmailTools.archive_email] as the source has
    them: both only log what they would do and return [True]. *)
Definition email_tools : EmailTools := {|
  add_label := fun _ _ => Return true;
  archive_email := fun _ => Return true
|}.

End Tools.

(** ** Data the master agent's tools exchange (email_master_agent.py)

    Each dict is given as a typed view: a key read with [d.get(k, ...)] or
    [d[k]] is an optional field ([None] when the key is absent). Keys that
    no modelled function reads (priority, sentiment) are left out. *)

Module Classification.
Record t : Type := mk {
  email_id : option string;
  category : option string;
  confidence : option float
}.
End Classification.

Module Suggestion.
Record t : Type := mk {
  action : option string;
  target : option string;
  value : option string;
  confidence : option float
}.
End Suggestion.

Module Response.
Record t : Type := mk {
  email_id : option string;
  response_text : option string;
  intent : option string;
  confidence : option float
}.
End Response.

(** One section of the analysis results: a list of entry dicts, or (in
    sequential mode, where the branch's return value is stored as it is)
    the one-key dict [{key: entries}] a branch returns. *)
Inductive entries (A : Type) : Type :=
| items (l : list A)
| keyed (key : string) (l : list A).
Arguments items {A} l.
Arguments keyed {A} key l.

Record AnalysisResults : Type := {
  total_emails : nat;
  classification_results : entries Classification.t;
  organization_suggestions : entries Suggestion.t;
  response_candidates : entries Response.t
}.

(** The action dicts [coordinate_workflow_execution] builds, by their
    ["type"]; the arguments are the other keys, in the order written. *)
Inductive Action : Type :=
| apply_classification (email_id category : string) (confidence : float)
| review_classification (email_id suggested_category : string) (confidence : float)
| apply_organization (action target : string) (confidence : float)
| send_response (email_id response_text : string)
| review_response (email_id response_text : string) (confidence : float).

Record ExecutionPlan : Type := {
  immediate_actions : list Action;
  user_approval_needed : list Action;
  scheduled_actions : list Action;
  completed_actions : list Action
}.

Record ActionDetail : Type := {
  detail_action : Action;      (* "action" *)
  detail_result : string;      (* "result" *)
  detail_timestamp : datetime  (* "timestamp" *)
}.

Record ExecutionResults : Type := {
  successful_actions : Z;
  failed_actions : Z;
  action_details : list ActionDetail
}.

(** The report of [monitor_agent_performance], carried as its JSON text. *)
Definition PerformanceReport : Type := string.

(** The [workflow_result] dict of [EmailMasterAgent.act]; an optional field
    is a key that is set only when its step succeeded. *)
Record WorkflowResult : Type := {
  workflow_type : string;
  emails_processed : nat;
  start_time : datetime;
  analysis_results : option AnalysisResults;
  execution_plan : option ExecutionPlan;
  execution_results : option ExecutionResults;
  performance_report : option PerformanceReport;
  end_time : option datetime
}.

(** ** Persistent memory (src/memory/persistent_memory.py)

    Event payloads and feedback values are typed views of the JSON
    dictionaries: each key the learning rules read is an optional field of
    the type the rules expect. The SQLite tables are finite maps from their
    primary key to the row; a plain [INSERT] on a present key raises
    [IntegrityError], [INSERT OR REPLACE] overwrites. Calls to [logger] are
    not part of this model. *)

Module Memory.

Record EventData : Type := {
  classification_result : option string;
  email_sender : option string;
  email_keywords : option (list string);
  response_style : option string;
  intent : option string;
  calculated_priority : option Z;
  (* the payload [EmailMasterAgent.act] stores, for a workflow event *)
  workflow_result : option WorkflowResult
}.

Record MemoryEvent : Type := {
  id : string;
  timestamp : datetime;
  event_type : string;
  data : EventData;
  importance : float;
  tags : list string
}.

(** The values the learning rules store under ["preference_value"]. *)
Inductive PreferenceValue : Type :=
| str_value (s : string)
| int_value (z : Z)
| style_value (style : string) (approved : bool).  (* {"style": .., "approved": ..} *)

Record UserPreference : Type := {
  category : string;
  preference_key : string;
  preference_value : PreferenceValue;
  confidence : float;
  learned_from : list string;
  last_updated : datetime
}.

Record FeedbackValue : Type := {
  correct_category : option string;
  approved : option bool;
  action : option string;
  correct_priority : option Z
}.

Module FeedbackRow.
Record t : Type := mk {
  feedback_id : string;
  event_id : string;
  feedback_type : string;
  feedback_value : FeedbackValue;
  timestamp : datetime
}.
End FeedbackRow.

(** The three tables the code writes, keyed by primary key. *)
Module Db.
Record t : Type := mk {
  memory_events : gmap string MemoryEvent;
  user_preferences : gmap (string * string) UserPreference;
  user_feedback : gmap string FeedbackRow.t
}.
End Db.

Record PersistentMemory : Type := {
  connection : Db.t;
  recent_events : list MemoryEvent;
  user_preferences : gmap string UserPreference
}.

(** A memory over a new, empty database. *)
Definition empty_memory : PersistentMemory := {|
  connection := Db.mk ∅ ∅ ∅;
  recent_events := [];
  user_preferences := ∅
|}.

Definition with_connection (f : Db.t -> Db.t) (self : PersistentMemory) : PersistentMemory :=
  {| connection := f (connection self);
     recent_events := recent_events self;
     user_preferences := user_preferences self |}.

(** [INSERT INTO memory_events ...]; [id] is the primary key. *)
Definition insert_event (event : MemoryEvent) : Run PersistentMemory unit :=
  self <- get_state ;;
  match Db.memory_events (connection self) !! id event with
  | Some _ => raise (Py.IntegrityError "memory_events.id")
  | None =>
      modify (with_connection (fun db =>
        Db.mk (<[id event := event]> (Db.memory_events db))
              (Db.user_preferences db) (Db.user_feedback db)))
  end.

(** [INSERT INTO user_feedback ...]; [feedback_id] is the primary key. *)
Definition insert_feedback (row : FeedbackRow.t) : Run PersistentMemory unit :=
  self <- get_state ;;
  match Db.user_feedback (connection self) !! FeedbackRow.feedback_id row with
  | Some _ => raise (Py.IntegrityError "user_feedback.feedback_id")
  | None =>
      modify (with_connection (fun db =>
        Db.mk (Db.memory_events db) (Db.user_preferences db)
              (<[FeedbackRow.feedback_id row := row]> (Db.user_feedback db))))
  end.

(** [INSERT OR REPLACE INTO user_preferences ...]; the primary key is
    [(category, preference_key)]. *)
Definition replace_preference (row : UserPreference) : Run PersistentMemory unit :=
  modify (with_connection (fun db =>
    Db.mk (Db.memory_events db)
          (<[(category row, preference_key row) := row]> (Db.user_preferences db))
          (Db.user_feedback db))).

Definition add_event (event_type : string) (data : EventData)
    (importance : float) (tags : list string) : Run PersistentMemory string :=
  stamp <- datetime_now ;;
  let event_id := event_type +:+ "_" +:+ stamp in
  timestamp <- datetime_now ;;
  let event := {| id := event_id; timestamp := timestamp; event_type := event_type;
                  data := data; importance := importance; tags := tags |} in
  (* add to the in-memory cache, keeping only the last 1000 events *)
  modify (fun self =>
    let appended := recent_events self ++ [event] in
    {| connection := connection self;
       recent_events := if (1000 <? length appended)%nat
                        then Py.last_n 1000 appended else appended;
       user_preferences := user_preferences self |}) ;;
  (* store in the database *)
  insert_event event ;;
  ret event_id.

(** [get_event]: the in-memory cache first, then the database. *)
Definition get_event (event_id : string) (self : PersistentMemory) : option MemoryEvent :=
  match find (fun event => String.eqb (id event) event_id) (recent_events self) with
  | Some event => Some event
  | None => Db.memory_events (connection self) !! event_id
  end.

Definition get_preference (category preference_key : string)
    (dflt : option PreferenceValue) (self : PersistentMemory)
    : option PreferenceValue * float :=
  let full_key := category +:+ "." +:+ preference_key in
  match user_preferences self !! full_key with
  | Some pref => (Some (preference_value pref), confidence pref)
  | None => (dflt, 0.0%float)
  end.

(** The existing object after the four assignments of the update branch. *)
Definition updated (pref : UserPreference) (value : PreferenceValue)
    (event : string) (boost : float) (now : datetime) : UserPreference :=
  {| category := category pref;
     preference_key := preference_key pref;
     preference_value := value;
     confidence := Py.min 1.0 (confidence pref + boost);
     learned_from := learned_from pref ++ [event];
     last_updated := now |}.

Definition _update_preference (category preference_key : string)
    (preference_value : PreferenceValue) (event_id : string)
    (confidence_boost : float) : Run PersistentMemory unit :=
  let full_key := category +:+ "." +:+ preference_key in
  self <- get_state ;;
  now <- datetime_now ;;
  let pref :=
    match user_preferences self !! full_key with
    | Some pref =>
        (* update existing preference *)
        updated pref preference_value event_id confidence_boost now
    | None =>
        (* create new preference *)
        {| category := category;
           preference_key := preference_key;
           preference_value := preference_value;
           confidence := Py.max 0.0 (0.5 + confidence_boost);
           learned_from := [event_id];
           last_updated := now |}
    end in
  modify (fun self =>
    {| connection := connection self;
       recent_events := recent_events self;
       user_preferences := <[full_key := pref]> (user_preferences self) |}) ;;
  (* save to database *)
  replace_preference
    {| category := category;
       preference_key := preference_key;
       preference_value := preference_value;
       confidence := confidence pref;
       learned_from := learned_from pref;
       last_updated := last_updated pref |}.

Definition _update_classification_preference (event : MemoryEvent)
    (correction : FeedbackValue) : Run PersistentMemory unit :=
  let original_classification := classification_result (data event) in
  let corrected_classification := correct_category correction in
  match corrected_classification with
  | Some corrected =>
      if Py.truthy_opt original_classification && Py.truthy corrected then
        (* learn sender-based preferences *)
        let sender := Py.get (email_sender (data event)) "" in
        (if Py.truthy sender then
           _update_preference "classification" ("sender_category_" +:+ sender)
             (str_value corrected) (id event) 0.3
         else ret tt) ;;
        (* learn keyword-based preferences *)
        let keywords := Py.get (email_keywords (data event)) [] in
        for_each keywords (fun keyword =>
          _update_preference "classification" ("keyword_category_" +:+ keyword)
            (str_value corrected) (id event) 0.2)
      else ret tt
  | None => ret tt
  end.

Definition _update_response_preference (event : MemoryEvent)
    (approval : FeedbackValue) : Run PersistentMemory unit :=
  let approved := Py.get (approved approval) false in
  let response_style := Py.get (response_style (data event)) "" in
  let intent := Py.get (intent (data event)) "" in
  if Py.truthy intent && Py.truthy response_style then
    let preference_value := style_value response_style approved in
    _update_preference "response" ("intent_style_" +:+ intent)
      preference_value (id event)
      (if approved then 0.4 else -0.2)
  else ret tt.

Definition _update_organization_preference (event : MemoryEvent)
    (preference : FeedbackValue) : Run PersistentMemory unit :=
  let org_action := action preference in
  let sender := Py.get (email_sender (data event)) "" in
  match org_action with
  | Some org_action =>
      if Py.truthy org_action && Py.truthy sender then
        _update_preference "organization" ("sender_action_" +:+ sender)
          (str_value org_action) (id event) 0.3
      else ret tt
  | None => ret tt
  end.

Definition _update_priority_preference (event : MemoryEvent)
    (priority_adjustment : FeedbackValue) : Run PersistentMemory unit :=
  let original_priority := Py.get (calculated_priority (data event)) 0%Z in
  let adjusted_priority := Py.get (correct_priority priority_adjustment) 0%Z in
  (* learn sender priority patterns *)
  let sender := Py.get (email_sender (data event)) "" in
  if Py.truthy sender && (1 <? Z.abs (original_priority - adjusted_priority))%Z then
    _update_preference "priority" ("sender_priority_" +:+ sender)
      (int_value adjusted_priority) (id event) 0.4
  else ret tt.

Definition _learn_from_feedback (event_id feedback_type : string)
    (feedback_value : FeedbackValue) : Run PersistentMemory unit :=
  (* find the original event *)
  self <- get_state ;;
  match get_event event_id self with
  | None => ret tt
  | Some event =>
      if String.eqb feedback_type "classification_correction" then
        _update_classification_preference event feedback_value
      else if String.eqb feedback_type "response_approval" then
        _update_response_preference event feedback_value
      else if String.eqb feedback_type "organization_preference" then
        _update_organization_preference event feedback_value
      else if String.eqb feedback_type "priority_adjustment" then
        _update_priority_preference event feedback_value
      else ret tt
  end.

Definition add_user_feedback (event_id feedback_type : string)
    (feedback_value : FeedbackValue) : Run PersistentMemory unit :=
  stamp <- datetime_now ;;
  let feedback_id := "feedback_" +:+ stamp in
  timestamp <- datetime_now ;;
  insert_feedback (FeedbackRow.mk feedback_id event_id feedback_type
                     feedback_value timestamp) ;;
  (* trigger learning from feedback *)
  _learn_from_feedback event_id feedback_type feedback_value.

(** The confidence stored for a key of the in-memory preference dict. *)
Definition stored_confidence (full_key : string) (self : PersistentMemory) : option float :=
  confidence <$> user_preferences self !! full_key.

(** [_group_preferences_by_category]: how many preferences each category
    holds. *)
Definition _group_preferences_by_category (self : PersistentMemory) : gmap string Z :=
  map_fold
    (fun _ pref categories =>
       <[category pref := (Py.get (categories !! category pref) 0 + 1)%Z]> categories)
    ∅ (user_preferences self).

End Memory.

(** ** Performance monitor (src/monitoring/performance_monitor.py)

    The two clocks are read by the caller: a method takes the value of
    [time.time()] or [datetime.now()] it reads as an argument. A method
    returns the monitor after the call and the log records it emitted. *)

Module Monitor.

Inductive Level : Type := DEBUG | INFO | WARNING | ERROR.

(** The messages of the module, with the values their f-strings format. *)
Inductive Message : Type :=
| started_tracking (operation_id agent_name : string)
| operation_not_found (operation_id : string)
| completed_operation (operation_id : string) (execution_time : float) (success : bool)
| high_memory_usage (agent_name : string) (total_memory : Z)
| slow_operation (agent_name : string) (execution_time : float)
| low_success_rate (agent_name : string) (success_rate : float).

Record LogRecord : Type := { level : Level; message : Message }.

Definition is_warning (r : LogRecord) : bool :=
  match level r with WARNING => true | _ => false end.

(** A JSON object whose values the monitor never inspects. *)
Definition Json : Type := list (string * string).

(** A Python number: [PerformanceMetric.value] holds a float for execution
    times and an int for memory totals. *)
Inductive number : Type :=
| float_number (f : float)
| int_number (z : Z).

Inductive MetricContext : Type :=
| operation_context (operation_type : string) (success : bool)
    (result_data : Json) (error_info : option string)
| tool_context (tool_name : string) (success : bool)
| memory_context (memory_stats : gmap string Z).

Record PerformanceMetric : Type := {
  metric_name : string;
  value : number;
  timestamp : datetime;
  agent_name : string;
  context : MetricContext
}.

Record AgentPerformanceSnapshot : Type := {
  snapshot_agent_name : string;          (* agent_name *)
  snapshot_timestamp : datetime;         (* timestamp *)
  metrics : gmap string number;
  memory_usage : gmap string Z;
  tool_usage_stats : gmap string Z;
  error_count : Z;
  success_rate : float
}.

(** An entry of [active_operations]. *)
Module Operation.
Record t : Type := mk {
  agent_name : string;
  operation_type : string;
  start_time : float;
  context : Json
}.
End Operation.

(** An entry of [agent_stats]. *)
Record AgentStats : Type := {
  total_operations : Z;
  successful_operations : Z;
  failed_operations : Z;
  total_execution_time : float;
  tool_usage : gmap string Z;
  error_types : gmap string Z
}.

(** The value the [defaultdict] creates for a new agent. *)
Definition new_stats : AgentStats := {|
  total_operations := 0;
  successful_operations := 0;
  failed_operations := 0;
  total_execution_time := 0.0;
  tool_usage := ∅;
  error_types := ∅
|}.

Record Thresholds : Type := {
  max_execution_time : float;
  min_success_rate : float;
  max_memory_usage : Z;
  max_error_rate : float
}.

Record PerformanceMonitor : Type := {
  buffer_size : nat;
  metrics_buffer : list PerformanceMetric;         (* deque(maxlen=buffer_size) *)
  snapshots_buffer : list AgentPerformanceSnapshot; (* deque(maxlen=buffer_size) *)
  active_operations : gmap string Operation.t;
  agent_stats : gmap string AgentStats;            (* defaultdict *)
  thresholds : Thresholds
}.

(** [PerformanceMonitor.__init__(buffer_size)]. *)
Definition init (buffer_size : nat) : PerformanceMonitor := {|
  buffer_size := buffer_size;
  metrics_buffer := [];
  snapshots_buffer := [];
  active_operations := ∅;
  agent_stats := ∅;
  thresholds := {| max_execution_time := 30.0; min_success_rate := 0.85;
                   max_memory_usage := 100; max_error_rate := 0.15 |}
|}.

(** [PerformanceMonitor()]: the default [buffer_size] is 1000. *)
Definition default_monitor : PerformanceMonitor := init 1000.

Definition set_metrics_buffer (b : list PerformanceMetric)
    (self : PerformanceMonitor) : PerformanceMonitor :=
  {| buffer_size := buffer_size self; metrics_buffer := b;
     snapshots_buffer := snapshots_buffer self;
     active_operations := active_operations self;
     agent_stats := agent_stats self; thresholds := thresholds self |}.

Definition set_snapshots_buffer (b : list AgentPerformanceSnapshot)
    (self : PerformanceMonitor) : PerformanceMonitor :=
  {| buffer_size := buffer_size self; metrics_buffer := metrics_buffer self;
     snapshots_buffer := b;
     active_operations := active_operations self;
     agent_stats := agent_stats self; thresholds := thresholds self |}.

Definition set_active_operations (a : gmap string Operation.t)
    (self : PerformanceMonitor) : PerformanceMonitor :=
  {| buffer_size := buffer_size self; metrics_buffer := metrics_buffer self;
     snapshots_buffer := snapshots_buffer self;
     active_operations := a;
     agent_stats := agent_stats self; thresholds := thresholds self |}.

Definition set_agent_stats (a : gmap string AgentStats)
    (self : PerformanceMonitor) : PerformanceMonitor :=
  {| buffer_size := buffer_size self; metrics_buffer := metrics_buffer self;
     snapshots_buffer := snapshots_buffer self;
     active_operations := active_operations self;
     agent_stats := a; thresholds := thresholds self |}.

(** [self.metrics_buffer.append(metric)]. *)
Definition append_metric (metric : PerformanceMetric)
    (self : PerformanceMonitor) : PerformanceMonitor :=
  set_metrics_buffer
    (Py.deque_append (buffer_size self) metric (metrics_buffer self)) self.

(** [self.agent_stats[agent_name]]: a missing key is first set to the
    default value. *)
Definition stats_of (agent_name : string) (self : PerformanceMonitor)
    : AgentStats * PerformanceMonitor :=
  match agent_stats self !! agent_name with
  | Some stats => (stats, self)
  | None => (new_stats, set_agent_stats (<[agent_name := new_stats]> (agent_stats self)) self)
  end.

(** [counts[key] += 1] on a [defaultdict(int)]. *)
Definition increment (key : string) (counts : gmap string Z) : gmap string Z :=
  <[key := (default 0 (counts !! key) + 1)%Z]> counts.

Definition start_operation (operation_id agent_name operation_type : string)
    (context : option Json) (now_time : float) (self : PerformanceMonitor)
    : PerformanceMonitor * list LogRecord :=
  (set_active_operations
     (<[operation_id := Operation.mk agent_name operation_type now_time
                           (default [] context)]> (active_operations self)) self,
   [ {| level := DEBUG; message := started_tracking operation_id agent_name |} ]).

Definition _check_performance_thresholds (agent_name : string)
    (execution_time : float) (success : bool) (self : PerformanceMonitor)
    : PerformanceMonitor * list LogRecord :=
  (* check execution time *)
  let slow :=
    if Py.gt execution_time (max_execution_time (thresholds self))
    then [ {| level := WARNING; message := slow_operation agent_name execution_time |} ]
    else [] in
  (* check success rate *)
  let '(stats, self) := stats_of agent_name self in
  let total_ops := total_operations stats in
  let low :=
    if (10 <=? total_ops)%Z then  (* only check after sufficient operations *)
      let success_rate := Py.truediv (successful_operations stats) total_ops in
      if (success_rate <? min_success_rate (thresholds self))%float
      then [ {| level := WARNING; message := low_success_rate agent_name success_rate |} ]
      else []
    else [] in
  (self, slow ++ low).

Definition end_operation (operation_id : string) (success : bool)
    (result_data : option Json) (error_info : option string)
    (now_time : float) (now : datetime) (self : PerformanceMonitor)
    : PerformanceMonitor * list LogRecord :=
  match active_operations self !! operation_id with
  | None =>
      (self, [ {| level := WARNING; message := operation_not_found operation_id |} ])
  | Some operation =>
      let self := set_active_operations (delete operation_id (active_operations self)) self in
      let end_time := now_time in
      let execution_time := (end_time - Operation.start_time operation)%float in
      let agent_name := Operation.agent_name operation in
      let operation_type := Operation.operation_type operation in
      (* update agent statistics *)
      let '(stats, self) := stats_of agent_name self in
      let stats :=
        {| total_operations := total_operations stats + 1;
           successful_operations :=
             if success then successful_operations stats + 1
             else successful_operations stats;
           failed_operations :=
             if success then failed_operations stats
             else failed_operations stats + 1;
           total_execution_time := (total_execution_time stats + execution_time)%float;
           tool_usage := tool_usage stats;
           error_types :=
             if success then error_types stats
             else match error_info with
                  | Some info =>
                      if Py.truthy info then increment info (error_types stats)
                      else error_types stats
                  | None => error_types stats
                  end |} in
      let self := set_agent_stats (<[agent_name := stats]> (agent_stats self)) self in
      (* record performance metric *)
      let metric :=
        {| metric_name := "operation_execution_time";
           value := float_number execution_time;
           timestamp := now;
           agent_name := agent_name;
           context := operation_context operation_type success
                        (default [] result_data) error_info |} in
      let self := append_metric metric self in
      (* check for performance issues *)
      let '(self, alerts) :=
        _check_performance_thresholds agent_name execution_time success self in
      (self, alerts ++
             [ {| level := DEBUG;
                  message := completed_operation operation_id execution_time success |} ])
  end.

Definition record_tool_usage (agent_name tool_name : string)
    (execution_time : float) (success : bool) (now : datetime)
    (self : PerformanceMonitor) : PerformanceMonitor * list LogRecord :=
  let '(stats, self) := stats_of agent_name self in
  let stats :=
    {| total_operations := total_operations stats;
       successful_operations := successful_operations stats;
       failed_operations := failed_operations stats;
       total_execution_time := total_execution_time stats;
       tool_usage := increment tool_name (tool_usage stats);
       error_types := error_types stats |} in
  let self := set_agent_stats (<[agent_name := stats]> (agent_stats self)) self in
  (* record tool-specific metric *)
  let metric :=
    {| metric_name := "tool_execution_time";
       value := float_number execution_time;
       timestamp := now;
       agent_name := agent_name;
       context := tool_context tool_name success |} in
  (append_metric metric self, []).

Definition record_memory_usage (agent_name : string) (memory_stats : gmap string Z)
    (now : datetime) (self : PerformanceMonitor)
    : PerformanceMonitor * list LogRecord :=
  let total_memory := map_fold (fun _ v acc => (v + acc)%Z) 0%Z memory_stats in
  let metric :=
    {| metric_name := "memory_usage";
       value := int_number total_memory;
       timestamp := now;
       agent_name := agent_name;
       context := memory_context memory_stats |} in
  let self := append_metric metric self in
  (* check memory threshold *)
  (self,
   if (max_memory_usage (thresholds self) <? total_memory)%Z
   then [ {| level := WARNING; message := high_memory_usage agent_name total_memory |} ]
   else []).

(** A call of one of the methods that write to the monitor. (The snapshot
    and report methods read [metrics_buffer] and [agent_stats] only and are
    not modelled.) *)
Inductive Call : Type :=
| call_start_operation (operation_id agent_name operation_type : string)
    (context : option Json) (now_time : float)
| call_end_operation (operation_id : string) (success : bool)
    (result_data : option Json) (error_info : option string)
    (now_time : float) (now : datetime)
| call_record_tool_usage (agent_name tool_name : string)
    (execution_time : float) (success : bool) (now : datetime)
| call_record_memory_usage (agent_name : string) (memory_stats : gmap string Z)
    (now : datetime).

Definition call (c : Call) (self : PerformanceMonitor)
    : PerformanceMonitor * list LogRecord :=
  match c with
  | call_start_operation operation_id agent_name operation_type context now_time =>
      start_operation operation_id agent_name operation_type context now_time self
  | call_end_operation operation_id success result_data error_info now_time now =>
      end_operation operation_id success result_data error_info now_time now self
  | call_record_tool_usage agent_name tool_name execution_time success now =>
      record_tool_usage agent_name tool_name execution_time success now self
  | call_record_memory_usage agent_name memory_stats now =>
      record_memory_usage agent_name memory_stats now self
  end.

(** A sequence of calls, with the log records in the order emitted. *)
Fixpoint calls (cs : list Call) (self : PerformanceMonitor)
    : PerformanceMonitor * list LogRecord :=
  match cs with
  | [] => (self, [])
  | c :: cs' =>
      let '(self, log) := call c self in
      let '(self, log') := calls cs' self in
      (self, log ++ log')
  end.

(** One tracked operation from start to end. *)
Record Tracked : Type := {
  tracked_id : string;
  tracked_agent : string;
  tracked_type : string;
  tracked_context : option Json;
  tracked_start : float;
  tracked_success : bool;
  tracked_result : option Json;
  tracked_error : option string;
  tracked_end : float;
  tracked_now : datetime
}.

Definition track (t : Tracked) : list Call :=
  [ call_start_operation (tracked_id t) (tracked_agent t) (tracked_type t)
      (tracked_context t) (tracked_start t);
    call_end_operation (tracked_id t) (tracked_success t) (tracked_result t)
      (tracked_error t) (tracked_end t) (tracked_now t) ].

(** The metric [end_operation] records for a tracked operation. *)
Definition metric_of (t : Tracked) : PerformanceMetric :=
  {| metric_name := "operation_execution_time";
     value := float_number (tracked_end t - tracked_start t)%float;
     timestamp := tracked_now t;
     agent_name := tracked_agent t;
     context := operation_context (tracked_type t) (tracked_success t)
                  (default [] (tracked_result t)) (tracked_error t) |}.

(** [_get_recent_memory_usage]: the context of the newest memory metric of
    the agent in the buffer, [{"total": 0}] when it holds none. *)
Definition _get_recent_memory_usage (agent_name : string) (self : PerformanceMonitor)
    : MetricContext :=
  let recent_memory_metrics :=
    List.filter
      (fun metric =>
         String.eqb (Monitor.agent_name metric) agent_name
         && String.eqb (metric_name metric) "memory_usage")
      (rev (metrics_buffer self)) in
  match recent_memory_metrics with
  | metric :: _ => context metric
  | [] => memory_context {[ "total" := 0%Z ]}
  end.

(** The dict [get_real_time_stats] returns. *)
Module RealTimeStats.
Record t : Type := mk {
  active_operations : nat;
  total_metrics_collected : nat;
  agents_monitored : nat;
  recent_operations : gmap string Z
}.
End RealTimeStats.

Definition get_real_time_stats (self : PerformanceMonitor) : RealTimeStats.t :=
  RealTimeStats.mk
    (size (active_operations self))
    (length (metrics_buffer self))
    (size (agent_stats self))
    (total_operations <$> agent_stats self).

End Monitor.

(** ** The agent cycle (src/agent/base.py, src/agent/email_master_agent.py)

    The sub-agents, the mailbox and the thread pool are collaborators of
    the master agent: their behaviour is an [Environment], and every
    statement below holds for all of them. Calls to [logger] are not part
    of this model. *)

Module Agent.

Record ToolResult (A : Type) : Type := {
  success : bool;
  result : option A;
  error : option string;
  metadata : list (string * string)
}.
Arguments success {A} t.
Arguments result {A} t.
Arguments error {A} t.
Arguments metadata {A} t.

Record WorkflowSettings : Type := {
  auto_classify : bool;
  auto_organize : bool;
  auto_generate_responses : bool;
  auto_send_responses : bool;
  parallel_processing : bool;
  batch_size : Z
}.

(** The settings [EmailMasterAgent.__init__] installs. *)
Definition default_settings : WorkflowSettings := {|
  auto_classify := true;
  auto_organize := true;
  auto_generate_responses := true;
  auto_send_responses := false;  (* requires user approval *)
  parallel_processing := true;
  batch_size := 20
|}.

Module Metrics.
Record t : Type := mk {
  emails_processed : Z;
  classifications_made : Z;
  responses_generated : Z;
  organization_actions : Z;
  user_feedback_received : Z
}.
End Metrics.

(** An entry of [AgentMemory.short_term]: its ["type"], the tool it names
    (if any) and its ["timestamp"]. *)
Record ShortTermEvent : Type := {
  short_type : string;
  short_tool : option string;
  short_timestamp : datetime
}.

Record EmailMasterAgent : Type := {
  name : string;
  workflow_settings : WorkflowSettings;
  performance_metrics : Metrics.t;
  short_term : list ShortTermEvent
}.

(** What a cycle can touch: the agent and the module-level [memory]. *)
Record World : Type := {
  agent : EmailMasterAgent;
  memory : Memory.PersistentMemory
}.

Definition with_memory (m : Memory.PersistentMemory) (w : World) : World :=
  {| agent := agent w; memory := m |}.

Definition with_agent (a : EmailMasterAgent) (w : World) : World :=
  {| agent := a; memory := memory w |}.

(** A method of [memory] called from the agent. *)
Definition on_memory {A : Type} (m : Run Memory.PersistentMemory A) : Run World A :=
  zoom memory with_memory m.

(** The three analysis branches, and the dict each one returns. *)
Inductive Branch : Type := classification_future | organization_future | response_future.

Inductive BranchResult : Type :=
| classifications (l : list Classification.t)   (* {"classifications": l} *)
| organization (l : list Suggestion.t)          (* {"organization": l} *)
| responses (l : list Response.t).              (* {"responses": l} *)

Class Environment : Type := {
  email_tools :: Tools.EmailTools;
  fetch_recent_emails : Z -> list Tools.EmailMessage;
  _run_classification_batch : list Tools.EmailMessage -> raises (list Classification.t);
  _run_organization_analysis : list Tools.EmailMessage -> raises (list Suggestion.t);
  _run_response_generation : list Tools.EmailMessage -> raises (list Response.t);
  (* the order in which the submitted futures complete *)
  as_completed : list Branch -> list Branch;
  monitor_agent_performance : World -> raises PerformanceReport
}.

Section WithEnvironment.
Context `{env : Environment}.

(** The world once an event stamped [now] is in [short_term], of which
    only the last 100 events are kept. *)
Definition remember (type : string) (tool : option string) (now : datetime)
    (w : World) : World :=
  let a := agent w in
  let appended := short_term a ++
    [ {| short_type := type; short_tool := tool; short_timestamp := now |} ] in
  with_agent
    {| name := name a; workflow_settings := workflow_settings a;
       performance_metrics := performance_metrics a;
       short_term := if (100 <? length appended)%nat
                     then Py.last_n 100 appended else appended |} w.

(** [AgentMemory.add_to_short_term]. *)
Definition add_to_short_term (type : string) (tool : option string) : Run World unit :=
  now <- datetime_now ;;
  modify (remember type tool now).

(** [BaseAgent.use_tool] on a registered tool whose call is [body]. *)
Definition use_tool {A : Type} (tool_name : string) (body : Run World A)
    : Run World (ToolResult A) :=
  try_except
    (result <- body ;;
     (* record tool usage in memory *)
     add_to_short_term "tool_usage" (Some tool_name) ;;
     w <- get_state ;;
     ret {| success := true; result := Some result; error := None;
            metadata := [("tool", tool_name); ("agent", name (agent w))] |})
    (fun e =>
       let error_msg := Py.str e in
       add_to_short_term "tool_error" (Some tool_name) ;;
       ret {| success := false; result := None; error := Some error_msg;
              metadata := [] |}).

(** The result of a future: what its branch returns, or what it raised. *)
Definition future_result (emails : list Tools.EmailMessage) (b : Branch)
    : raises BranchResult :=
  match b with
  | classification_future =>
      match _run_classification_batch emails with
      | Return l => Return (classifications l) | Raise e => Raise e end
  | organization_future =>
      match _run_organization_analysis emails with
      | Return l => Return (organization l) | Raise e => Raise e end
  | response_future =>
      match _run_response_generation emails with
      | Return l => Return (responses l) | Raise e => Raise e end
  end.

(** The body of the [for future in as_completed(...)] loop. *)
Definition collect (emails : list Tools.EmailMessage) (results : AnalysisResults)
    (b : Branch) : AnalysisResults :=
  match future_result emails b with
  | Return (classifications l) =>
      {| total_emails := total_emails results;
         classification_results := items l;
         organization_suggestions := organization_suggestions results;
         response_candidates := response_candidates results |}
  | Return (organization l) =>
      {| total_emails := total_emails results;
         classification_results := classification_results results;
         organization_suggestions := items l;
         response_candidates := response_candidates results |}
  | Return (responses l) =>
      {| total_emails := total_emails results;
         classification_results := classification_results results;
         organization_suggestions := organization_suggestions results;
         response_candidates := items l |}
  | Raise e => results  (* logged: "Sub-agent processing failed" *)
  end.

Definition run_email_analysis_pipeline (settings : WorkflowSettings)
    (emails : list Tools.EmailMessage) : raises AnalysisResults :=
  let results :=
    {| total_emails := length emails;
       classification_results := items [];
       organization_suggestions := items [];
       response_candidates := items [] |} in
  if parallel_processing settings then
    (* run agents in parallel; collect the results as they complete *)
    Return (fold_left (collect emails) 
              (as_completed [classification_future; organization_future; response_future])
              results)
  else
    (* sequential processing: each section is set to the branch's dict *)
    match _run_classification_batch emails with
    | Raise e => Raise e
    | Return c =>
        match _run_organization_analysis emails with
        | Raise e => Raise e
        | Return o =>
            match _run_response_generation emails with
            | Raise e => Raise e
            | Return r =>
                Return {| total_emails := length emails;
                          classification_results := keyed "classifications" c;
                          organization_suggestions := keyed "organization" o;
                          response_candidates := keyed "responses" r |}
            end
        end
    end.

Definition empty_plan : ExecutionPlan := {|
  immediate_actions := [];
  user_approval_needed := [];
  scheduled_actions := [];
  completed_actions := []
|}.

(** [execution_plan["immediate_actions"].append(a)]. *)
Definition append_immediate (a : Action) : Run ExecutionPlan unit :=
  modify (fun plan =>
    {| immediate_actions := immediate_actions plan ++ [a];
       user_approval_needed := user_approval_needed plan;
       scheduled_actions := scheduled_actions plan;
       completed_actions := completed_actions plan |}).

(** [execution_plan["user_approval_needed"].append(a)]. *)
Definition append_approval (a : Action) : Run ExecutionPlan unit :=
  modify (fun plan =>
    {| immediate_actions := immediate_actions plan;
       user_approval_needed := user_approval_needed plan ++ [a];
       scheduled_actions := scheduled_actions plan;
       completed_actions := completed_actions plan |}).

(** [for x in section: body x]; iterating the one-key dict of sequential
    mode yields its key, a [str], on which [on_str] is what the first
    access of the body raises. *)
Definition for_entries {A : Type} (section : entries A) (on_str : Py.exn)
    (body : A -> Run ExecutionPlan unit) : Run ExecutionPlan unit :=
  match section with
  | items l => for_each l body
  | keyed _ _ => raise on_str
  end.

Definition str_has_no_get : Py.exn :=
  Py.AttributeError "'str' object has no attribute 'get'".
Definition str_index : Py.exn :=
  Py.TypeError "string indices must be integers".

(** The body of the loop over the classification results. *)
Definition plan_classification (classification : Classification.t)
    : Run ExecutionPlan unit :=
  if Py.gt (Py.get (Classification.confidence classification) 0%float) 0.7%float then
    email_id <- lift_raises (Py.item "email_id" (Classification.email_id classification)) ;;
    category <- lift_raises (Py.item "category" (Classification.category classification)) ;;
    confidence <- lift_raises (Py.item "confidence" (Classification.confidence classification)) ;;
    append_immediate (apply_classification email_id category confidence)
  else
    email_id <- lift_raises (Py.item "email_id" (Classification.email_id classification)) ;;
    category <- lift_raises (Py.item "category" (Classification.category classification)) ;;
    confidence <- lift_raises (Py.item "confidence" (Classification.confidence classification)) ;;
    append_approval (review_classification email_id category confidence).

(** The body of the loop over the organization suggestions. *)
Definition plan_organization (suggestion : Suggestion.t) : Run ExecutionPlan unit :=
  action <- lift_raises (Py.item "action" (Suggestion.action suggestion)) ;;
  target <- lift_raises (Py.item "target" (Suggestion.target suggestion)) ;;
  append_immediate
    (apply_organization action target (Py.get (Suggestion.confidence suggestion) 0.5%float)).

(** The body of the loop over the response candidates. *)
Definition plan_response (settings : WorkflowSettings) (response : Response.t)
    : Run ExecutionPlan unit :=
  if auto_send_responses settings
     && Py.gt (Py.get (Response.confidence response) 0%float) 0.8%float then
    email_id <- lift_raises (Py.item "email_id" (Response.email_id response)) ;;
    response_text <- lift_raises (Py.item "response_text" (Response.response_text response)) ;;
    append_immediate (send_response email_id response_text)
  else
    email_id <- lift_raises (Py.item "email_id" (Response.email_id response)) ;;
    response_text <- lift_raises (Py.item "response_text" (Response.response_text response)) ;;
    append_approval
      (review_response email_id response_text
         (Py.get (Response.confidence response) 0%float)).

(** The statements of [coordinate_workflow_execution], acting on the
    [execution_plan] dict. *)
Definition coordinate (settings : WorkflowSettings) (analysis_results : AnalysisResults)
    : Run ExecutionPlan unit :=
  (* process classification results *)
  (if auto_classify settings then
     for_entries (classification_results analysis_results) str_has_no_get
       plan_classification
   else ret tt) ;;
  (* process organization suggestions *)
  (if auto_organize settings then
     for_entries (organization_suggestions analysis_results) str_index
       plan_organization
   else ret tt) ;;
  (* process response candidates *)
  for_entries (response_candidates analysis_results) str_has_no_get
    (plan_response settings).

(** A function that builds a local object with [body] and returns it. *)
Definition returning {St T : Type} (init : T) (body : Run T unit) : Run St T :=
  fun s c =>
    match body init c with
    | (Return _, t, c') => (Return t, s, c')
    | (Raise e, _, c') => (Raise e, s, c')
    end.

Definition coordinate_workflow_execution {St : Type} (settings : WorkflowSettings)
    (analysis_results : AnalysisResults) : Run St ExecutionPlan :=
  returning empty_plan (coordinate settings analysis_results).

Definition _execute_single_action (action : Action) : raises bool :=
  match action with
  | apply_classification email_id category _ =>
      (* apply classification to email *)
      Tools.add_label email_id ("category:" +:+ category)
  | apply_organization org_action target _ =>
      (* apply organization action *)
      if String.eqb org_action "apply_label" then
        (* action["value"]: the planned action has no such key *)
        Raise (Py.KeyError "value")
      else if String.eqb org_action "archive" then
        Tools.archive_email target
      else Return false
  | send_response email_id response_text =>
      (* for now, just log the action *)
      Return true
  | review_classification _ _ _ | review_response _ _ _ => Return false
  end.

Definition empty_results : ExecutionResults := {|
  successful_actions := 0;
  failed_actions := 0;
  action_details := []
|}.

(** One more success or failure, with its detail record. *)
Definition tally (ok : bool) (action : Action) (result : string)
    : Run ExecutionResults unit :=
  now <- datetime_now ;;
  modify (fun execution_results =>
    {| successful_actions :=
         if ok then successful_actions execution_results + 1
         else successful_actions execution_results;
       failed_actions :=
         if ok then failed_actions execution_results
         else failed_actions execution_results + 1;
       action_details := action_details execution_results ++
         [ {| detail_action := action; detail_result := result;
              detail_timestamp := now |} ] |}).

(** The body of the loop of [execute_workflow_actions]. *)
Definition execute_action (action : Action) : Run ExecutionResults unit :=
  try_except
    (result <- lift_raises (_execute_single_action action) ;;
     if (result : bool) then tally true action "success"
     else tally false action "failed")
    (fun e => tally false action ("error: " +:+ Py.str e)).

Definition execute_workflow_actions {St : Type} (execution_plan : ExecutionPlan)
    : Run St ExecutionResults :=
  returning empty_results
    (for_each (immediate_actions execution_plan) execute_action).

(** The keys of the perception dict that [think] reads, and its timestamp. *)
Record Perception : Type := {
  new_emails : list Tools.EmailMessage;
  total_new_emails : nat;
  perceived_at : datetime
}.

Definition perceive : Run World Perception :=
  w <- get_state ;;
  (* get fresh emails for processing *)
  let recent_emails :=
    fetch_recent_emails (batch_size (workflow_settings (agent w))) in
  now <- datetime_now ;;
  ret {| new_emails := recent_emails;
         total_new_emails := length recent_emails;
         perceived_at := now |}.

(** An action the master agent plans for itself. *)
Record MasterAction : Type := {
  type : string;
  emails : list Tools.EmailMessage;
  steps : list string
}.

Definition think (perception : Perception) : list MasterAction :=
  let new_emails := new_emails perception in
  let total_emails := total_new_emails perception in
  if (total_emails =? 0)%nat then []
  else
    (* main processing workflow *)
    [ {| type := "comprehensive_email_processing";
         emails := new_emails;
         steps := [ "run_analysis_pipeline"; "coordinate_workflow";
                    "execute_actions"; "monitor_performance" ] |} ].

(** The local variables of the loop over an action's steps. *)
Record Locals : Type := {
  local_workflow_result : WorkflowResult;
  local_pipeline_results : option AnalysisResults;
  local_execution_plan : option ExecutionPlan
}.

Definition set_analysis_results (r : AnalysisResults) (w : WorkflowResult) : WorkflowResult :=
  {| workflow_type := workflow_type w; emails_processed := emails_processed w;
     start_time := start_time w; analysis_results := Some r;
     execution_plan := execution_plan w; execution_results := execution_results w;
     performance_report := performance_report w; end_time := end_time w |}.

Definition set_execution_plan (p : ExecutionPlan) (w : WorkflowResult) : WorkflowResult :=
  {| workflow_type := workflow_type w; emails_processed := emails_processed w;
     start_time := start_time w; analysis_results := analysis_results w;
     execution_plan := Some p; execution_results := execution_results w;
     performance_report := performance_report w; end_time := end_time w |}.

Definition set_execution_results (r : ExecutionResults) (w : WorkflowResult) : WorkflowResult :=
  {| workflow_type := workflow_type w; emails_processed := emails_processed w;
     start_time := start_time w; analysis_results := analysis_results w;
     execution_plan := execution_plan w; execution_results := Some r;
     performance_report := performance_report w; end_time := end_time w |}.

Definition set_performance_report (r : PerformanceReport) (w : WorkflowResult) : WorkflowResult :=
  {| workflow_type := workflow_type w; emails_processed := emails_processed w;
     start_time := start_time w; analysis_results := analysis_results w;
     execution_plan := execution_plan w; execution_results := execution_results w;
     performance_report := Some r; end_time := end_time w |}.

Definition set_end_time (t : datetime) (w : WorkflowResult) : WorkflowResult :=
  {| workflow_type := workflow_type w; emails_processed := emails_processed w;
     start_time := start_time w; analysis_results := analysis_results w;
     execution_plan := execution_plan w; execution_results := execution_results w;
     performance_report := performance_report w; end_time := Some t |}.

(** The body of [for step in action["steps"]]. The pipeline results and the
    execution plan are non-empty dicts, so they are true unless [None]. *)
Definition run_step (emails : list Tools.EmailMessage) (step : string)
    (l : Locals) : Run World Locals :=
  if String.eqb step "run_analysis_pipeline" then
    tool_result <- use_tool step
      (w <- get_state ;;
       lift_raises (run_email_analysis_pipeline (workflow_settings (agent w)) emails)) ;;
    match success tool_result, result tool_result with
    | true, Some pipeline_results =>
        ret {| local_workflow_result :=
                 set_analysis_results pipeline_results (local_workflow_result l);
               local_pipeline_results := Some pipeline_results;
               local_execution_plan := local_execution_plan l |}
    | _, _ => ret l
    end
  else
    match String.eqb step "coordinate_workflow", local_pipeline_results l with
    | true, Some pipeline_results =>
        tool_result <- use_tool step
          (w <- get_state ;;
           coordinate_workflow_execution (workflow_settings (agent w)) pipeline_results) ;;
        match success tool_result, result tool_result with
        | true, Some execution_plan =>
            ret {| local_workflow_result :=
                     set_execution_plan execution_plan (local_workflow_result l);
                   local_pipeline_results := local_pipeline_results l;
                   local_execution_plan := Some execution_plan |}
        | _, _ => ret l
        end
    | _, _ =>
        match String.eqb step "execute_actions", local_execution_plan l with
        | true, Some execution_plan =>
            tool_result <- use_tool step (execute_workflow_actions execution_plan) ;;
            match success tool_result, result tool_result with
            | true, Some execution_results =>
                ret {| local_workflow_result :=
                         set_execution_results execution_results (local_workflow_result l);
                       local_pipeline_results := local_pipeline_results l;
                       local_execution_plan := local_execution_plan l |}
            | _, _ => ret l
            end
        | _, _ =>
            if String.eqb step "monitor_performance" then
              tool_result <- use_tool step
                (w <- get_state ;; lift_raises (monitor_agent_performance w)) ;;
              match success tool_result, result tool_result with
              | true, Some report =>
                  ret {| local_workflow_result :=
                           set_performance_report report (local_workflow_result l);
                         local_pipeline_results := local_pipeline_results l;
                         local_execution_plan := local_execution_plan l |}
              | _, _ => ret l
              end
            else ret l
        end
    end.

Fixpoint run_steps (emails : list Tools.EmailMessage) (steps : list string)
    (l : Locals) : Run World Locals :=
  match steps with
  | [] => ret l
  | step :: steps' => l' <- run_step emails step l ;; run_steps emails steps' l'
  end.

(** [self.performance_metrics["emails_processed"] += n]. *)
Definition add_emails_processed (n : nat) : Run World unit :=
  modify (fun w =>
    let a := agent w in
    let m := performance_metrics a in
    with_agent
      {| name := name a; workflow_settings := workflow_settings a;
         performance_metrics :=
           Metrics.mk (Metrics.emails_processed m + Z.of_nat n)
             (Metrics.classifications_made m) (Metrics.responses_generated m)
             (Metrics.organization_actions m) (Metrics.user_feedback_received m);
         short_term := short_term a |} w).

(** The payload under which a workflow result is stored as an event. *)
Definition workflow_data (w : WorkflowResult) : Memory.EventData := {|
  Memory.classification_result := None;
  Memory.email_sender := None;
  Memory.email_keywords := None;
  Memory.response_style := None;
  Memory.intent := None;
  Memory.calculated_priority := None;
  Memory.workflow_result := Some w
|}.

(** The body of [for action in actions] in [act]; [results] is the list
    built so far. *)
Definition act_on (action : MasterAction)
    (results : list (ToolResult WorkflowResult))
    : Run World (list (ToolResult WorkflowResult)) :=
  if String.eqb (type action) "comprehensive_email_processing" then
    let emails := emails action in
    now <- datetime_now ;;
    let workflow_result :=
      {| workflow_type := "comprehensive_email_processing";
         emails_processed := length emails;
         start_time := now;
         analysis_results := None; execution_plan := None;
         execution_results := None; performance_report := None;
         end_time := None |} in
    (* execute workflow steps *)
    l <- run_steps emails (steps action)
           {| local_workflow_result := workflow_result;
              local_pipeline_results := None;
              local_execution_plan := None |} ;;
    now <- datetime_now ;;
    let workflow_result := set_end_time now (local_workflow_result l) in
    (* record workflow execution in memory *)
    on_memory (Memory.add_event "workflow_execution" (workflow_data workflow_result)
                 0.8 ["workflow"; "email_processing"]) ;;
    (* update performance metrics *)
    add_emails_processed (length emails) ;;
    w <- get_state ;;
    ret (results ++
         [ {| success := true; result := Some workflow_result; error := None;
              metadata := [("agent", name (agent w)); ("workflow", "comprehensive")] |} ])
  else ret results.

Fixpoint act_loop (actions : list MasterAction)
    (results : list (ToolResult WorkflowResult))
    : Run World (list (ToolResult WorkflowResult)) :=
  match actions with
  | [] => ret results
  | action :: actions' =>
      results' <- act_on action results ;; act_loop actions' results'
  end.

Definition act (actions : list MasterAction)
    : Run World (list (ToolResult WorkflowResult)) :=
  act_loop actions [].

(** The dict [run_cycle] returns: the keys of the normal return, or
    ["error"] with [success = False] when the cycle raised. *)
Record CycleResult : Type := {
  cycle_agent : string;                                  (* "agent" *)
  cycle_timestamp : datetime;                            (* "timestamp" *)
  cycle_planned_actions : option (list MasterAction);    (* "planned_actions" *)
  cycle_results : option (list (ToolResult WorkflowResult)); (* "results" *)
  cycle_error : option string;                           (* "error" *)
  cycle_success : bool                                   (* "success" *)
}.

(** [BaseAgent.run_cycle]: one perceive-think-act cycle. *)
Definition run_cycle : Run World CycleResult :=
  try_except
    ((* 1. perceive *)
     perception <- perceive ;;
     add_to_short_term "perception" None ;;
     (* 2. think *)
     let planned_actions := think perception in
     add_to_short_term "planning" None ;;
     (* 3. act *)
     results <- act planned_actions ;;
     w <- get_state ;;
     now <- datetime_now ;;
     ret {| cycle_agent := name (agent w);
            cycle_timestamp := now;
            cycle_planned_actions := Some planned_actions;
            cycle_results := Some results;
            cycle_error := None;
            cycle_success := forallb success results |})
    (fun e =>
       w <- get_state ;;
       let error_msg := "Agent " +:+ name (agent w) +:+ " cycle failed: " +:+ Py.str e in
       now <- datetime_now ;;
       ret {| cycle_agent := name (agent w);
              cycle_timestamp := now;
              cycle_planned_actions := None;
              cycle_results := None;
              cycle_error := Some error_msg;
              cycle_success := false |}).

(** [self.performance_metrics["user_feedback_received"] += 1]. *)
Definition count_user_feedback : Run World unit :=
  modify (fun w =>
    let a := agent w in
    let m := performance_metrics a in
    with_agent
      {| name := name a; workflow_settings := workflow_settings a;
         performance_metrics :=
           Metrics.mk (Metrics.emails_processed m)
             (Metrics.classifications_made m) (Metrics.responses_generated m)
             (Metrics.organization_actions m) (Metrics.user_feedback_received m + 1);
         short_term := short_term a |} w).

(** [EmailMasterAgent.process_user_feedback]. The agent only hands the
    payload on, a [Dict[str, Any]], so its type is left open here;
    [add_user_feedback] is the method of [memory] it calls, which on the
    payloads of [Memory.FeedbackValue] is [Memory.add_user_feedback]. *)
Definition process_user_feedback {Data : Type}
    (add_user_feedback : string -> string -> Data -> Run Memory.PersistentMemory unit)
    (email_id feedback_type : string) (feedback_data : Data) : Run World bool :=
  try_except
    (on_memory (add_user_feedback email_id feedback_type feedback_data) ;;
     count_user_feedback ;;
     ret true)
    (fun e => ret false).

End WithEnvironment.

End Agent.

(** * Terms of the statements, and concrete inputs *)

Section MemoryTerms.
Import Memory.

(** The payload of an event about a generated response: it names an
    intent and a style. *)
Definition question_data : EventData := {|
  classification_result := None; email_sender := None;
  email_keywords := None; response_style := Some "formal";
  intent := Some "question"; calculated_priority := None;
  workflow_result := None
|}.

(** The payload of an event about a classified email, with a sender and no
    keywords. *)
Definition classified_data : EventData := {|
  classification_result := Some "newsletter";
  email_sender := Some "ana@example.org";
  email_keywords := None; response_style := None;
  intent := None; calculated_priority := None;
  workflow_result := None
|}.

(** A correction of the category, and a rejection of a response. *)
Definition correction : FeedbackValue := {|
  correct_category := Some "work"; approved := None;
  action := None; correct_priority := None
|}.

Definition rejection : FeedbackValue := {|
  correct_category := None; approved := Some false;
  action := None; correct_priority := None
|}.

(** A clock whose n-th reading ends in [n]. *)
Definition noon : Clock := mkClock (fun n => "20240101_120000_" +:+ pretty n) 0.

(** An event is recorded (its id is drawn from the first reading of
    [noon]), then the response is rejected three times. *)
Definition three_rejections : Run PersistentMemory unit :=
  add_event "response_generated" question_data 0.5 [] ;;
  add_user_feedback "response_generated_20240101_120000_0" "response_approval" rejection ;;
  add_user_feedback "response_generated_20240101_120000_0" "response_approval" rejection ;;
  add_user_feedback "response_generated_20240101_120000_0" "response_approval" rejection.

End MemoryTerms.

Section DequeTerms.
Context {A : Type}.
Implicit Types (d l : list A) (x : A) (n : nat).

(** Appending a whole list, one [append] at a time. *)
Definition deque_extend n l d : list A :=
  fold_left (fun d x => Py.deque_append n x d) l d.

End DequeTerms.

Section MonitorTerms.
Import Monitor.

(** The buffer never holds more than its capacity. *)
Definition within_capacity (self : PerformanceMonitor) : Prop :=
  length (metrics_buffer self) <= buffer_size self.

(** The warnings among the records a call logged. *)
Definition warnings (log : list LogRecord) : list Message :=
  map message (List.filter is_warning log).

(** A classification run by the agent ["EmailClassifier"]. *)
Definition classify_run (start_time end_time : float) (now : datetime) : Tracked := {|
  tracked_id := "op-1";
  tracked_agent := "EmailClassifier";
  tracked_type := "classify";
  tracked_context := None;
  tracked_start := start_time;
  tracked_success := true;
  tracked_result := None;
  tracked_error := None;
  tracked_end := end_time;
  tracked_now := now
|}.

(** The default monitor with one operation in flight, started at time 100. *)
Definition one_in_flight : PerformanceMonitor :=
  fst (start_operation "op-1" "EmailClassifier" "classify" None 100 default_monitor).

(** A classification run that failed. *)
Definition failed_run : Tracked := {|
  tracked_id := "op-1";
  tracked_agent := "EmailClassifier";
  tracked_type := "classify";
  tracked_context := None;
  tracked_start := 0;
  tracked_success := false;
  tracked_result := None;
  tracked_error := Some "timeout";
  tracked_end := 1;
  tracked_now := "20240101_120000_000000"
|}.

End MonitorTerms.

Section PlanningTerms.
Import Agent.

(** Entries that carry every key the planner indexes with [d[k]]. *)
Definition complete_classification (c : Classification.t) : bool :=
  match Classification.email_id c, Classification.category c,
        Classification.confidence c with
  | Some _, Some _, Some _ => true
  | _, _, _ => false
  end.

Definition complete_suggestion (s : Suggestion.t) : bool :=
  match Suggestion.action s, Suggestion.target s with
  | Some _, Some _ => true
  | _, _ => false
  end.

Definition complete_response (r : Response.t) : bool :=
  match Response.email_id r, Response.response_text r with
  | Some _, Some _ => true
  | _, _ => false
  end.

(** The action an entry contributes to each bucket. *)
Definition classification_immediate (c : Classification.t) : list Action :=
  match c with
  | Classification.mk (Some e) (Some k) (Some x) =>
      if Py.gt x 0.7 then [apply_classification e k x] else []
  | _ => []
  end.

Definition classification_approval (c : Classification.t) : list Action :=
  match c with
  | Classification.mk (Some e) (Some k) (Some x) =>
      if Py.gt x 0.7 then [] else [review_classification e k x]
  | _ => []
  end.

Definition suggestion_immediate (s : Suggestion.t) : list Action :=
  match s with
  | Suggestion.mk (Some a) (Some t) _ x => [apply_organization a t (Py.get x 0.5%float)]
  | _ => []
  end.

Definition response_immediate (settings : WorkflowSettings) (r : Response.t)
    : list Action :=
  match r with
  | Response.mk (Some e) (Some t) _ x =>
      if auto_send_responses settings && Py.gt (Py.get x 0%float) 0.8
      then [send_response e t] else []
  | _ => []
  end.

Definition response_approval (settings : WorkflowSettings) (r : Response.t)
    : list Action :=
  match r with
  | Response.mk (Some e) (Some t) _ x =>
      if auto_send_responses settings && Py.gt (Py.get x 0%float) 0.8
      then [] else [review_response e t (Py.get x 0%float)]
  | _ => []
  end.

(** A plan with more actions at the end of its first two buckets. *)
Definition extend (immediate approval : list Action) (plan : ExecutionPlan)
    : ExecutionPlan :=
  {| immediate_actions := immediate_actions plan ++ immediate;
     user_approval_needed := user_approval_needed plan ++ approval;
     scheduled_actions := scheduled_actions plan;
     completed_actions := completed_actions plan |}.

(** The gate the code applies to an action of the immediate bucket. *)
Definition passed_gate (settings : WorkflowSettings) (a : Action) : Prop :=
  match a with
  | apply_classification _ _ x => Py.gt x 0.7 = true
  | apply_organization _ _ _ => auto_organize settings = true
  | send_response _ _ => auto_send_responses settings = true
  | review_classification _ _ _ | review_response _ _ _ => False
  end.

(** What sends an action to the approval bucket. *)
Definition held_back (settings : WorkflowSettings) (a : Action) : Prop :=
  match a with
  | review_classification _ _ x => Py.gt x 0.7 = false
  | review_response _ _ x =>
      auto_send_responses settings = false \/ Py.gt x 0.8 = false
  | apply_classification _ _ _ | apply_organization _ _ _ | send_response _ _ => False
  end.

(** Three classified records with confidences 0.9, 0.6 and 0.75. *)
Definition three_classified : list Classification.t :=
  [ Classification.mk (Some "A") (Some "work") (Some 0.9%float);
    Classification.mk (Some "B") (Some "personal") (Some 0.6%float);
    Classification.mk (Some "C") (Some "work") (Some 0.75%float) ].

(** Two response candidates with confidences 0.9 and 0.5. *)
Definition two_responses : list Response.t :=
  [ Response.mk (Some "A") (Some "On my way.") (Some "question") (Some 0.9%float);
    Response.mk (Some "B") (Some "Let me check.") (Some "question") (Some 0.5%float) ].

(** The default settings with auto-send switched on. *)
Definition auto_send_settings : WorkflowSettings := {|
  auto_classify := true;
  auto_organize := true;
  auto_generate_responses := true;
  auto_send_responses := true;
  parallel_processing := true;
  batch_size := 20
|}.

End PlanningTerms.

Section ExecutionTerms.
Import Agent.
Context `{env : Environment}.

(** An action counts as successful when the executor returns [True]. *)
Definition succeeded (a : Action) : bool :=
  match _execute_single_action a with Return true => true | _ => false end.

(** The ["result"] text recorded for an action. *)
Definition result_text (a : Action) : string :=
  match _execute_single_action a with
  | Return true => "success"
  | Return false => "failed"
  | Raise e => "error: " +:+ Py.str e
  end.

(** The results dict after one iteration of the loop, read at [now]. *)
Definition tallied (a : Action) (now : datetime) (r : ExecutionResults)
    : ExecutionResults :=
  {| successful_actions :=
       if succeeded a then successful_actions r + 1 else successful_actions r;
     failed_actions :=
       if succeeded a then failed_actions r else failed_actions r + 1;
     action_details := action_details r ++
       [ {| detail_action := a; detail_result := result_text a;
            detail_timestamp := now |} ] |}.

(** [res] is the tally of the immediate actions of [plan]: one detail
    record per action, in order, and the two counters split them. *)
Definition tallies (plan : ExecutionPlan) (res : ExecutionResults) : Prop :=
  map detail_action (action_details res) = immediate_actions plan /\
  map detail_result (action_details res) = map result_text (immediate_actions plan) /\
  successful_actions res
    = Z.of_nat (length (List.filter succeeded (immediate_actions plan))) /\
  failed_actions res
    = Z.of_nat (length (List.filter (fun a => negb (succeeded a)) (immediate_actions plan))) /\
  (successful_actions res + failed_actions res)%Z
    = Z.of_nat (length (immediate_actions plan)).

(** A method that leaves the clock as it found it. *)
Definition clock_free {St A : Type} (m : Run St A) : Prop :=
  forall s c, clock_of (m s c) = c.

(** What a step of the workflow leaves as it was: the persistent memory,
    the agent's name, settings and counters, and the clock's readings. *)
Definition same_setting (w w' : World) (c c' : Clock) : Prop :=
  memory w' = memory w /\
  name (agent w') = name (agent w) /\
  workflow_settings (agent w') = workflow_settings (agent w) /\
  performance_metrics (agent w') = performance_metrics (agent w) /\
  reading c' = reading c.

(** How a step may change the local variables of the loop. *)
Definition stepped (step : string) (l l' : Locals) : Prop :=
  l' = l \/
  (step = "run_analysis_pipeline" /\ exists r,
     l' = {| local_workflow_result := set_analysis_results r (local_workflow_result l);
             local_pipeline_results := Some r;
             local_execution_plan := local_execution_plan l |}) \/
  (step = "coordinate_workflow" /\ exists p,
     l' = {| local_workflow_result := set_execution_plan p (local_workflow_result l);
             local_pipeline_results := local_pipeline_results l;
             local_execution_plan := Some p |}) \/
  (step = "execute_actions" /\ exists p res,
     local_execution_plan l = Some p /\ tallies p res /\
     l' = {| local_workflow_result := set_execution_results res (local_workflow_result l);
             local_pipeline_results := local_pipeline_results l;
             local_execution_plan := local_execution_plan l |}) \/
  (step = "monitor_performance" /\ exists r,
     l' = {| local_workflow_result := set_performance_report r (local_workflow_result l);
             local_pipeline_results := local_pipeline_results l;
             local_execution_plan := local_execution_plan l |}).

(** The tally of a workflow result belongs to its plan. *)
Definition tally_retained (wr : WorkflowResult) : Prop :=
  forall p, execution_plan wr = Some p ->
    exists res, execution_results wr = Some res /\ tallies p res.

(** The workflow result of a batch keeps what was planned and done: when
    the analysis of the batch returns and planning its results returns a
    plan, the workflow result holds these results, that plan, and the
    tally of the plan's immediate actions. *)
Definition plan_retained (settings : WorkflowSettings)
    (emails : list Tools.EmailMessage) (wr : WorkflowResult) : Prop :=
  forall a p,
    run_email_analysis_pipeline settings emails = Return a ->
    (forall c0, coordinate_workflow_execution settings a tt c0 = (Return p, tt, c0)) ->
    analysis_results wr = Some a /\
    execution_plan wr = Some p /\
    exists res, execution_results wr = Some res /\ tallies p res.

(** The memory with [event] appended to the cache of recent events. *)
Definition cached (event : Memory.MemoryEvent) (self : Memory.PersistentMemory)
    : Memory.PersistentMemory :=
  let appended := Memory.recent_events self ++ [event] in
  {| Memory.connection := Memory.connection self;
     Memory.recent_events := if (1000 <? length appended)%nat
                             then Py.last_n 1000 appended else appended;
     Memory.user_preferences := Memory.user_preferences self |}.

(** The memory with [event] cached and inserted in the event table. *)
Definition stored (event : Memory.MemoryEvent) (self : Memory.PersistentMemory)
    : Memory.PersistentMemory :=
  Memory.with_connection
    (fun db =>
       Memory.Db.mk (<[Memory.id event := event]> (Memory.Db.memory_events db))
         (Memory.Db.user_preferences db) (Memory.Db.user_feedback db))
    (cached event self).

(** The action [think] plans for a non-empty batch. *)
Definition comprehensive (emails : list Tools.EmailMessage) : MasterAction :=
  {| type := "comprehensive_email_processing";
     emails := emails;
     steps := [ "run_analysis_pipeline"; "coordinate_workflow";
                "execute_actions"; "monitor_performance" ] |}.

(** The event [act] records for the workflow result [wr], from the two
    clock readings at tick [n] and [n + 1]. *)
Definition workflow_event (wr : WorkflowResult) (c : Clock) (n : nat)
    : Memory.MemoryEvent :=
  {| Memory.id := "workflow_execution" +:+ "_" +:+ reading c n;
     Memory.timestamp := reading c (S n);
     Memory.event_type := "workflow_execution";
     Memory.data := workflow_data wr;
     Memory.importance := 0.8;
     Memory.tags := ["workflow"; "email_processing"] |}.

(** The [ToolResult] [act] appends for the workflow result [wr]. *)
Definition workflow_tool_result (agent_name : string) (wr : WorkflowResult)
    : ToolResult WorkflowResult :=
  {| success := true; result := Some wr; error := None;
     metadata := [("agent", agent_name); ("workflow", "comprehensive")] |}.

End ExecutionTerms.

Section ConcreteInputs.
Import Agent.

(** A mail that asks for something. *)
Definition one_mail : Tools.EmailMessage := {|
  Tools.id := "m1";
  Tools.subject := "Quarterly report";
  Tools.sender := "ana@example.org";
  Tools.recipients := ["me@example.org"];
  Tools.body := "Can you send the report?";
  Tools.html_body := None;
  Tools.date := "20240101_080000_000000";
  Tools.labels := [];
  Tools.is_read := false;
  Tools.is_important := false;
  Tools.attachments := []
|}.

(** What a branch raises when its sub-agent cannot be reached. *)
Definition unreachable (who : string) : Py.exn :=
  Py.Exception "ConnectionError" (who +:+ " unreachable").

(** One mail in the inbox, and every analysis branch raises. *)
Definition all_branches_fail : Environment := {|
  email_tools := Tools.email_tools;
  fetch_recent_emails := fun _ => [one_mail];
  _run_classification_batch := fun _ => Raise (unreachable "classifier");
  _run_organization_analysis := fun _ => Raise (unreachable "organizer");
  _run_response_generation := fun _ => Raise (unreachable "responder");
  as_completed := fun futures => futures;
  monitor_agent_performance := fun _ => Return "{}"
|}.

(** An empty inbox. *)
Definition empty_inbox : Environment := {|
  email_tools := Tools.email_tools;
  fetch_recent_emails := fun _ => [];
  _run_classification_batch := fun _ => Return [];
  _run_organization_analysis := fun _ => Return [];
  _run_response_generation := fun _ => Return [];
  as_completed := fun futures => futures;
  monitor_agent_performance := fun _ => Return "{}"
|}.

(** One mail in the inbox; the classifier is confident about it, the
    organizer suggests a label, nothing needs a response. *)
Definition two_actions : Environment := {|
  email_tools := Tools.email_tools;
  fetch_recent_emails := fun _ => [one_mail];
  _run_classification_batch := fun _ =>
    Return [Classification.mk (Some "m1") (Some "work") (Some 0.9%float)];
  _run_organization_analysis := fun _ =>
    Return [Suggestion.mk (Some "apply_label") (Some "m1") (Some "work")
              (Some 0.7%float)];
  _run_response_generation := fun _ => Return [];
  as_completed := fun futures => futures;
  monitor_agent_performance := fun _ => Return "{}"
|}.

(** The master agent as constructed, over an empty memory. *)
Definition new_world : World := {|
  agent := {| name := "EmailMasterAgent";
              workflow_settings := default_settings;
              performance_metrics := Metrics.mk 0 0 0 0 0;
              short_term := [] |};
  memory := Memory.empty_memory
|}.

(** The same agent over a memory whose event table already holds the id
    ["workflow_execution_20240101_120000_11"]. *)
Definition id_taken_world : World := {|
  agent := agent new_world;
  memory := {|
    Memory.connection :=
      Memory.Db.mk
        {[ "workflow_execution_20240101_120000_11" :=
             {| Memory.id := "workflow_execution_20240101_120000_11";
                Memory.timestamp := "20240101_120000_12";
                Memory.event_type := "workflow_execution";
                Memory.data := question_data;
                Memory.importance := 0.8;
                Memory.tags := ["workflow"; "email_processing"] |} ]}
        ∅ ∅;
    Memory.recent_events := [];
    Memory.user_preferences := ∅
  |}
|}.

End ConcreteInputs.

(** * Terms of further statements *)

Section RunTerms.
Context {St : Type}.

(** A method whose every run relates the state before to the state after,
    also when it raises. *)
Definition keeps {A : Type} (R : St -> St -> Prop) (m : Run St A) : Prop :=
  forall s c, R s (state_of (m s c)).

End RunTerms.

Section LearningTerms.
Import Memory.

(** The entry [_update_preference] leaves under the key, when the clock
    reads [now]. *)
Definition merged (category preference_key : string) (value : PreferenceValue)
    (event : string) (boost : float) (now : datetime) (self : PersistentMemory)
    : UserPreference :=
  match user_preferences self !! (category +:+ "." +:+ preference_key) with
  | Some pref => updated pref value event boost now
  | None =>
      {| category := category; preference_key := preference_key;
         preference_value := value;
         confidence := Py.max 0.0 (0.5 + boost);
         learned_from := [event];
         last_updated := now |}
  end.

(** An entry that kept its category and key and whose provenance was only
    appended to. *)
Definition entry_grows (p p' : UserPreference) : Prop :=
  category p' = category p /\
  preference_key p' = preference_key p /\
  exists more, learned_from p' = learned_from p ++ more.

(** Learning: the events are as they were, and every preference entry is
    still there, grown. *)
Definition only_learns (self self' : PersistentMemory) : Prop :=
  recent_events self' = recent_events self /\
  Db.memory_events (connection self') = Db.memory_events (connection self) /\
  forall k p, user_preferences self !! k = Some p ->
    exists p', user_preferences self' !! k = Some p' /\ entry_grows p p'.

(** Every cached event has its id in the event table. *)
Definition cache_backed (self : PersistentMemory) : Prop :=
  forall e, In e (recent_events self) ->
    is_Some (Db.memory_events (connection self) !! id e).

(** The event [add_event] builds from the clock readings at [ticks c] and
    [ticks c + 1]. *)
Definition new_event (event_type : string) (data : EventData)
    (importance : float) (tags : list string) (c : Clock) : MemoryEvent :=
  {| id := event_type +:+ "_" +:+ reading c (ticks c);
     timestamp := reading c (S (ticks c));
     event_type := event_type; data := data;
     importance := importance; tags := tags |}.

End LearningTerms.

Section FeedbackTerms.
Import Memory.

(** The memory with one more row in the feedback table. *)
Definition recorded (row : FeedbackRow.t) (self : PersistentMemory) : PersistentMemory :=
  with_connection
    (fun db =>
       Db.mk (Db.memory_events db) (Db.user_preferences db)
         (<[FeedbackRow.feedback_id row := row]> (Db.user_feedback db)))
    self.

(** The row [add_user_feedback] builds from the clock readings at
    [ticks c] and [ticks c + 1]. *)
Definition new_feedback (event_id feedback_type : string)
    (feedback_value : FeedbackValue) (c : Clock) : FeedbackRow.t :=
  FeedbackRow.mk ("feedback_" +:+ reading c (ticks c)) event_id feedback_type
    feedback_value (reading c (S (ticks c))).

(** The key holds [value], and [event] is the last id of its provenance. *)
Definition learned (full_key : string) (value : PreferenceValue) (event : string)
    (self : PersistentMemory) : Prop :=
  exists p, user_preferences self !! full_key = Some p /\
    preference_value p = value /\
    exists earlier, learned_from p = earlier ++ [event].

End FeedbackTerms.

Section ReturnTerms.
Context {St : Type}.

(** A method that returns normally from every state. *)
Definition always_returns (m : Run St unit) : Prop :=
  forall s c, result_of (m s c) = Return tt.

End ReturnTerms.

Section LearningInputs.
Import Memory.

(** A classified email with a sender, two keywords and priority 5. *)
Definition invoice_event : MemoryEvent := {|
  id := "e1";
  timestamp := "20240101_090000_000000";
  event_type := "email_classification";
  data := {| classification_result := Some "newsletter";
             email_sender := Some "ana@example.org";
             email_keywords := Some ["invoice"; "payment"];
             response_style := None; intent := None;
             calculated_priority := Some 5%Z;
             workflow_result := None |};
  importance := 0.5;
  tags := []
|}.

(** A memory that holds this event, cached and stored. *)
Definition one_event_memory : PersistentMemory := {|
  connection := Db.mk {[ "e1" := invoice_event ]} ∅ ∅;
  recent_events := [invoice_event];
  user_preferences := ∅
|}.

(** The user says the priority should be 6. *)
Definition priority_six : FeedbackValue := {|
  correct_category := None; approved := None;
  action := None; correct_priority := Some 6%Z
|}.

(** A clock that has stopped: every reading is the same instant. *)
Definition stopped : Clock := mkClock (fun _ => "20240101_120000_000000") 0.

(** A memory whose table holds an event recorded at that instant. *)
Definition noted_memory : PersistentMemory := {|
  connection :=
    Db.mk {[ "email_classification_20240101_120000_000000" := invoice_event ]} ∅ ∅;
  recent_events := [];
  user_preferences := ∅
|}.

End LearningInputs.

Section AccountingTerms.
Import Monitor.

(** The counters of an agent add up. *)
Definition balanced (stats : AgentStats) : Prop :=
  (total_operations stats = successful_operations stats + failed_operations stats)%Z /\
  (0 <= successful_operations stats)%Z /\
  (0 <= failed_operations stats)%Z.

(** The statistics [agent_stats[agent_name]] reads. *)
Definition stats_for (agent_name : string) (self : PerformanceMonitor) : AgentStats :=
  default new_stats (agent_stats self !! agent_name).

(** The tracked operations of one agent. *)
Definition run_by (agent_name : string) (ts : list Tracked) : list Tracked :=
  List.filter (fun t => String.eqb (tracked_agent t) agent_name) ts.

(** Two operations under the same id, the second started while the first
    is in flight, and one end. *)
Definition restarted (first second : Tracked) : list Call :=
  call_start_operation (tracked_id second) (tracked_agent first) (tracked_type first)
    (tracked_context first) (tracked_start first)
  :: track second.

(** A memory reading of the agent ["EmailClassifier"]. *)
Definition classifier_memory : gmap string Z :=
  {[ "short_term" := 12%Z; "long_term" := 30%Z ]}.

End AccountingTerms.

Section PipelineTerms.
Import Agent.

(** What a branch contributes to the results: its list, nothing when it
    raised. *)
Definition or_empty {A : Type} (r : raises (list A)) : list A :=
  match r with Return l => l | Raise _ => [] end.

(** The three futures, in the order they are submitted. *)
Definition submitted : list Branch :=
  [classification_future; organization_future; response_future].

(** The default settings with parallel processing switched off. *)
Definition sequential_settings : WorkflowSettings := {|
  auto_classify := true;
  auto_organize := true;
  auto_generate_responses := true;
  auto_send_responses := false;
  parallel_processing := false;
  batch_size := 20
|}.

(** The analysis results that hold only organization suggestions. *)
Definition only_suggestions (n : nat) (os : list Suggestion.t) : AnalysisResults :=
  {| total_emails := n; classification_results := items [];
     organization_suggestions := items os; response_candidates := items [] |}.

(** A suggestion to label an email, as the organization branch builds it. *)
Definition is_label_suggestion (o : Suggestion.t) : Prop :=
  Suggestion.action o = Some "apply_label" /\ is_Some (Suggestion.target o).

(** The suggestion to label the mail ["m1"] as work. *)
Definition label_m1 : Suggestion.t :=
  Suggestion.mk (Some "apply_label") (Some "m1") (Some "work") (Some 0.7%float).

(** A classification that lost its category. *)
Definition without_category : Classification.t :=
  Classification.mk (Some "m1") None (Some 0.9%float).

(** The world once one more feedback is counted. *)
Definition feedback_counted (w : World) : World :=
  let a := agent w in
  let m := performance_metrics a in
  with_agent
    {| name := name a; workflow_settings := workflow_settings a;
       performance_metrics :=
         Metrics.mk (Metrics.emails_processed m)
           (Metrics.classifications_made m) (Metrics.responses_generated m)
           (Metrics.organization_actions m) (Metrics.user_feedback_received m + 1);
       short_term := short_term a |} w.

End PipelineTerms.

Section SummaryTerms.

(** The sum of the counts of a dict of counts. *)
Definition total (counts : gmap string Z) : Z :=
  map_fold (fun _ n acc => (n + acc)%Z) 0%Z counts.

End SummaryTerms.

(** * Properties *)

(** ** Running a method *)

Ltac run_unfold :=
  unfold bind, ret, raise, modify, get_state, datetime_now, lift_raises,
    try_except, zoom, result_of, state_of, clock_of in *.

(** ** Preference store and learning rules *)

Section MemoryFacts.
Import Memory.

(** What one call of [_update_preference] stores, by case on the key. *)
Lemma update_preference_stored category preference_key value event boost self c :
  let full_key := category +:+ "." +:+ preference_key in
  let out := _update_preference category preference_key value event boost self c in
  result_of out = Return tt /\
  clock_of out = mkClock (reading c) (S (ticks c)) /\
  recent_events (state_of out) = recent_events self /\
  stored_confidence full_key (state_of out) =
    Some match user_preferences self !! full_key with
         | Some pref => Py.min 1.0 (confidence pref + boost)
         | None => Py.max 0.0 (0.5 + boost)
         end.
Proof.
  unfold _update_preference, replace_preference, stored_confidence. run_unfold. simpl.
  repeat split. rewrite lookup_insert_eq. simpl.
  destruct (user_preferences self !! _); reflexivity.
Qed.

(** C1 (fails on the code): starting from an empty store, three
    [response_approval] feedbacks with [approved = False] on the same event
    all return normally and leave the preference
    [response.intent_style_question] with a stored confidence below 0:
    the update branch clamps at 1.0 only and the create branch at 0.0 only,
    so the stored confidence does not stay within 0.0 - 1.0. *)
Theorem C1_confidence_leaves_unit_interval :
  let out := three_rejections empty_memory noon in
  result_of out = Return tt /\
  exists x, stored_confidence "response.intent_style_question" (state_of out) = Some x /\
            (x <? 0)%float = true /\ (0 <=? x)%float = false.
Proof.
  vm_compute. split; [reflexivity|]. eexists. repeat split.
Qed.

Lemma stored_confidence_lookup full_key self x :
  stored_confidence full_key self = Some x ->
  exists pref, user_preferences self !! full_key = Some pref /\ confidence pref = x.
Proof.
  unfold stored_confidence. intros H.
  destruct (user_preferences self !! full_key) as [pref|]; simpl in H; [|discriminate].
  exists pref. split; congruence.
Qed.

(** Two floats that [<?] tells apart are different. *)
Lemma ltb_neq (x y : float) : (x <? y)%float = true -> x <> y.
Proof.
  intros H E. subst y. rewrite ltb_spec in H. unfold SFltb in H.
  destruct (Prim2SF x) as [s|s| |s m e]; simpl in H; try discriminate.
  - destruct s; discriminate.
  - destruct s; rewrite Z.compare_refl, Pos.compare_cont_refl in H; discriminate.
Qed.

(** C5: on a key absent from the preference store, a first update with
    boost +0.3 returns and stores confidence 0.8, and a second one returns
    and stores 1.0, not 1.1; the clamp is applied to the stored value in
    each call: whatever the boost of a third update, it is added to the
    stored 1.0 (and not to 1.1 or to a sum re-derived from the history). *)
Theorem C5_two_boosts_from_a_fresh_key
    (category preference_key : string) (v1 v2 : PreferenceValue)
    (e1 e2 : string) (self : PersistentMemory) (c : Clock) :
  user_preferences self !! (category +:+ "." +:+ preference_key) = None ->
  let full_key := category +:+ "." +:+ preference_key in
  let out1 := _update_preference category preference_key v1 e1 0.3 self c in
  let out2 := _update_preference category preference_key v2 e2 0.3
                (state_of out1) (clock_of out1) in
  result_of out1 = Return tt /\
  stored_confidence full_key (state_of out1) = Some 0.8%float /\
  result_of out2 = Return tt /\
  stored_confidence full_key (state_of out2) = Some 1.0%float /\
  stored_confidence full_key (state_of out2) <> Some 1.1%float /\
  forall (v3 : PreferenceValue) (e3 : string) (boost : float),
    stored_confidence full_key
      (state_of (_update_preference category preference_key v3 e3 boost
                   (state_of out2) (clock_of out2)))
    = Some (Py.min 1.0 (1.0 + boost)).
Proof.
  intros Hfresh full_key out1 out2.
  pose proof (update_preference_stored category preference_key v1 e1 0.3 self c)
    as (R1 & _ & _ & S1).
  pose proof (update_preference_stored category preference_key v2 e2 0.3
                (state_of out1) (clock_of out1)) as (R2 & _ & _ & S2).
  cbv zeta in S1, S2. fold full_key in Hfresh, S1, S2. fold out1 in R1, S1.
  fold out2 in R2, S2. rewrite Hfresh in S1.
  destruct (stored_confidence_lookup _ _ _ S1) as (p1 & L1 & C1).
  rewrite L1, C1 in S2.
  assert (S2' : stored_confidence full_key (state_of out2) = Some 1.0%float)
    by (rewrite S2; reflexivity).
  repeat split; try assumption.
  - rewrite S2'. intros E.
    apply (ltb_neq 1.0 1.1); [reflexivity | exact (f_equal (default 0%float) E)].
  - intros v3 e3 boost.
    pose proof (update_preference_stored category preference_key v3 e3 boost
                  (state_of out2) (clock_of out2)) as (_ & _ & _ & S3).
    cbv zeta in S3. fold full_key in S3.
    destruct (stored_confidence_lookup _ _ _ S2') as (p2 & L2 & C2).
    rewrite L2, C2 in S3. exact S3.
Qed.

Lemma C5_two_boosts_from_a_fresh_key_witness :
  user_preferences empty_memory !! ("classification" +:+ "." +:+ "sender_category_a@b.c") = None /\
  stored_confidence ("classification" +:+ "." +:+ "sender_category_a@b.c")
    (state_of (_update_preference "classification" "sender_category_a@b.c"
                 (str_value "work") "e1" 0.3 empty_memory noon)) = Some 0.8%float.
Proof.
  split; [reflexivity|].
  exact (proj1 (proj2
    (C5_two_boosts_from_a_fresh_key "classification" "sender_category_a@b.c"
       (str_value "work") (str_value "work") "e1" "e2" empty_memory noon eq_refl))).
Defined.

(** [x < y] entails [x <= y]. *)
Lemma ltb_leb (x y : float) : (x <? y)%float = true -> (x <=? y)%float = true.
Proof.
  rewrite ltb_spec, leb_spec. unfold SFltb, SFleb.
  destruct (SFcompare (Prim2SF x) (Prim2SF y)) as [[| |]|]; congruence.
Qed.

(** The clamp of the update branch bounds the stored confidence from
    above, whatever the boost. *)
Lemma update_branch_at_most_one (x boost : float) :
  (Py.min 1.0 (x + boost) <=? 1.0)%float = true.
Proof.
  unfold Py.min. destruct (x + boost <? 1.0)%float eqn:H.
  - now apply ltb_leb.
  - reflexivity.
Qed.

(** The clamp of the create branch bounds it from below. *)
Lemma create_branch_at_least_zero (boost : float) :
  (0.0 <=? Py.max 0.0 (0.5 + boost))%float = true.
Proof.
  unfold Py.max. destruct (0.0 <? 0.5 + boost)%float eqn:H.
  - now apply ltb_leb.
  - reflexivity.
Qed.

(** The same two boosts through the feedback path: two classification
    corrections for an event with a sender store 0.8, then 1.0, for the
    sender's preference. *)
Example two_classification_corrections :
  let feedback :=
    add_user_feedback "classified_20240101_120000_0" "classification_correction"
      correction in
  let out1 := (add_event "classified" classified_data 0.5 [] ;; feedback)
                empty_memory noon in
  let out2 := feedback (state_of out1) (clock_of out1) in
  stored_confidence "classification.sender_category_ana@example.org" (state_of out1)
    = Some 0.8%float /\
  stored_confidence "classification.sender_category_ana@example.org" (state_of out2)
    = Some 1.0%float.
Proof. vm_compute. split; reflexivity. Qed.

(** [get_event] reads the cache and the event table only. *)
Lemma get_event_same self self' event_id :
  recent_events self' = recent_events self ->
  Db.memory_events (connection self') = Db.memory_events (connection self) ->
  get_event event_id self' = get_event event_id self.
Proof. unfold get_event. intros -> ->. reflexivity. Qed.

(** C6: when the source event id resolves to no stored event (neither in
    the cache nor in the event table), [add_user_feedback] creates and
    modifies no preference, in the in-memory store and in the preference
    table alike, and leaves the events as they were; and if the feedback id
    it draws from the clock is new to the feedback table, the call returns
    normally with the feedback row persisted under that id. *)
Theorem C6_unknown_source_event_updates_no_preference
    (event_id feedback_type : string) (feedback_value : FeedbackValue)
    (self : PersistentMemory) (c : Clock) :
  get_event event_id self = None ->
  let out := add_user_feedback event_id feedback_type feedback_value self c in
  let feedback_id := "feedback_" +:+ reading c (ticks c) in
  user_preferences (state_of out) = user_preferences self /\
  Db.user_preferences (connection (state_of out)) = Db.user_preferences (connection self) /\
  recent_events (state_of out) = recent_events self /\
  Db.memory_events (connection (state_of out)) = Db.memory_events (connection self) /\
  (Db.user_feedback (connection self) !! feedback_id = None ->
   result_of out = Return tt /\
   Db.user_feedback (connection (state_of out)) =
     <[feedback_id := FeedbackRow.mk feedback_id event_id feedback_type feedback_value
                        (reading c (S (ticks c)))]> (Db.user_feedback (connection self))).
Proof.
  intros Hnone out feedback_id. subst out.
  unfold add_user_feedback, insert_feedback, _learn_from_feedback.
  run_unfold. simpl. fold feedback_id.
  destruct (Db.user_feedback (connection self) !! feedback_id) eqn:Hid; simpl.
  - repeat split; try reflexivity; discriminate.
  - rewrite (get_event_same self (with_connection _ self) event_id) by reflexivity.
    rewrite Hnone. simpl.
    repeat split; reflexivity.
Qed.

Lemma C6_unknown_source_event_updates_no_preference_witness :
  get_event "missing_event" empty_memory = None /\
  user_preferences
    (state_of (add_user_feedback "missing_event" "classification_correction"
                 rejection empty_memory noon)) = user_preferences empty_memory.
Proof.
  split; [reflexivity|].
  exact (proj1
    (C6_unknown_source_event_updates_no_preference "missing_event"
       "classification_correction" rejection empty_memory noon eq_refl)).
Defined.

End MemoryFacts.

(** ** Performance monitor *)

Section DequeFacts.
Context {A : Type}.
Implicit Types (d l : list A) (x : A) (n : nat).

Lemma deque_append_length n x d :
  length d <= n -> length (Py.deque_append n x d) <= n.
Proof.
  intros H. unfold Py.deque_append.
  destruct (Nat.ltb_spec n (length (d ++ [x]))) as [Hlt|Hge]; [|exact Hge].
  rewrite length_app in Hlt. simpl in Hlt.
  destruct d as [|y d]; simpl in *; [lia|]. rewrite length_app. simpl. lia.
Qed.

(** Within capacity, an append keeps the last [n] of the extended list. *)
Lemma deque_append_last_n n x d :
  length d <= n -> Py.deque_append n x d = Py.last_n n (d ++ [x]).
Proof.
  intros H. unfold Py.deque_append, Py.last_n. rewrite length_app. simpl.
  destruct (Nat.ltb_spec n (length d + 1)) as [Hlt|Hge].
  - replace (length d + 1 - n) with 1 by lia.
    destruct d; reflexivity.
  - replace (length d + 1 - n) with 0 by lia. reflexivity.
Qed.

Lemma last_n_length n l : length (Py.last_n n l) = Nat.min n (length l).
Proof. unfold Py.last_n. rewrite length_skipn. lia. Qed.

Lemma skipn_snoc k l x :
  k < length l -> skipn k l ++ [x] = skipn k (l ++ [x]).
Proof.
  revert k. induction l as [|y l IH]; intros k Hlt; simpl in *; [lia|].
  destruct k as [|k]; simpl; [reflexivity|]. apply IH. lia.
Qed.

Lemma last_n_snoc n l x :
  Py.last_n n (Py.last_n n l ++ [x]) = Py.last_n n (l ++ [x]).
Proof.
  unfold Py.last_n. rewrite !length_app, length_skipn. simpl.
  destruct (Nat.le_gt_cases (length l) n) as [Hle|Hgt].
  - replace (length l - n) with 0 by lia. simpl.
    f_equal. lia.
  - replace (length l - (length l - n) + 1 - n) with 1 by lia.
    destruct n as [|n].
    + rewrite Nat.sub_0_r, skipn_all. simpl.
      symmetry. apply skipn_all2. rewrite length_app. simpl. lia.
    + rewrite skipn_snoc by lia. rewrite skipn_skipn.
      f_equal. lia.
Qed.

Lemma deque_extend_last_n n l d :
  length d <= n -> deque_extend n l d = Py.last_n n (d ++ l).
Proof.
  revert d. induction l as [|x l IH]; intros d H; simpl.
  - rewrite app_nil_r. unfold Py.last_n.
    replace (length d - n) with 0 by lia. reflexivity.
  - unfold deque_extend in *. simpl. rewrite IH by (now apply deque_append_length).
    rewrite deque_append_last_n by exact H.
    replace (d ++ x :: l) with ((d ++ [x]) ++ l) by (now rewrite <- app_assoc).
    generalize (d ++ [x]). clear. intros d.
    induction l as [|y l IH] using rev_ind.
    + rewrite !app_nil_r. unfold Py.last_n at 1. rewrite last_n_length.
      replace (Nat.min n (length d) - n) with 0 by lia. reflexivity.
    + rewrite !app_assoc. rewrite <- last_n_snoc, IH, last_n_snoc. reflexivity.
Qed.

End DequeFacts.

Section MonitorFacts.
Import Monitor.

Lemma stats_of_frame agent_name self :
  let self' := snd (stats_of agent_name self) in
  buffer_size self' = buffer_size self /\
  metrics_buffer self' = metrics_buffer self /\
  active_operations self' = active_operations self /\
  thresholds self' = thresholds self.
Proof.
  unfold stats_of. destruct (agent_stats self !! agent_name); simpl; auto.
Qed.

Lemma stats_of_value agent_name self :
  fst (stats_of agent_name self) = default new_stats (agent_stats self !! agent_name).
Proof. unfold stats_of. destruct (agent_stats self !! agent_name); reflexivity. Qed.

Lemma check_thresholds_frame agent_name execution_time success self :
  let self' := fst (_check_performance_thresholds agent_name execution_time success self) in
  buffer_size self' = buffer_size self /\
  metrics_buffer self' = metrics_buffer self /\
  active_operations self' = active_operations self.
Proof.
  unfold _check_performance_thresholds.
  pose proof (stats_of_frame agent_name self) as H. cbv zeta in H.
  destruct (stats_of agent_name self) as [stats self1]. simpl in *. tauto.
Qed.

(** What [end_operation] does to the buffer for an operation in flight. *)
Lemma end_operation_buffer operation_id success result_data error_info
    now_time now self operation :
  active_operations self !! operation_id = Some operation ->
  let self' := fst (end_operation operation_id success result_data error_info
                      now_time now self) in
  buffer_size self' = buffer_size self /\
  metrics_buffer self' =
    Py.deque_append (buffer_size self)
      {| metric_name := "operation_execution_time";
         value := float_number (now_time - Operation.start_time operation)%float;
         timestamp := now;
         agent_name := Operation.agent_name operation;
         context := operation_context (Operation.operation_type operation) success
                      (default [] result_data) error_info |}
      (metrics_buffer self) /\
  active_operations self' = delete operation_id (active_operations self).
Proof.
  intros Hop. unfold end_operation. rewrite Hop.
  match goal with |- context [stats_of ?a ?m] =>
    pose proof (stats_of_frame a m) as Hs; cbv zeta in Hs;
    destruct (stats_of a m) as [stats self1] end.
  match goal with |- context [_check_performance_thresholds ?a ?t ?s ?m] =>
    pose proof (check_thresholds_frame a t s m) as Hc; cbv zeta in Hc;
    destruct (_check_performance_thresholds a t s m) as [self2 alerts] end.
  simpl in *. destruct Hs as (Hs1 & Hs2 & Hs3 & _). destruct Hc as (Hc1 & Hc2 & Hc3).
  rewrite Hc1, Hc2, Hc3. unfold append_metric. simpl.
  rewrite Hs1, Hs2, Hs3. auto.
Qed.

Lemma call_buffer_size c self : buffer_size (fst (call c self)) = buffer_size self.
Proof.
  destruct c as [oid an ot ctx nt | oid ok rd ei nt nw | an tn et ok nw | an ms nw]; simpl.
  - reflexivity.
  - destruct (active_operations self !! oid) as [operation|] eqn:Hop.
    + now apply (end_operation_buffer _ _ _ _ _ _ _ operation).
    + unfold end_operation. now rewrite Hop.
  - unfold record_tool_usage.
    pose proof (stats_of_frame an self) as Hs. cbv zeta in Hs.
    destruct (stats_of an self) as [stats self1]. simpl in *. tauto.
  - reflexivity.
Qed.

Lemma call_within_capacity c self :
  within_capacity self -> within_capacity (fst (call c self)).
Proof.
  unfold within_capacity. intros H.
  destruct c as [oid an ot ctx nt | oid ok rd ei nt nw | an tn et ok nw | an ms nw]; simpl.
  - exact H.
  - destruct (active_operations self !! oid) as [operation|] eqn:Hop.
    + destruct (end_operation_buffer oid ok rd ei nt nw self operation Hop)
        as (-> & -> & _).
      now apply deque_append_length.
    + unfold end_operation. now rewrite Hop.
  - unfold record_tool_usage.
    pose proof (stats_of_frame an self) as Hs. cbv zeta in Hs.
    destruct (stats_of an self) as [stats self1]. simpl in *.
    destruct Hs as (-> & -> & _). now apply deque_append_length.
  - now apply deque_append_length.
Qed.

Lemma calls_app cs1 cs2 self :
  fst (calls (cs1 ++ cs2) self) = fst (calls cs2 (fst (calls cs1 self))).
Proof.
  revert self. induction cs1 as [|c cs1 IH]; intros self; simpl; [reflexivity|].
  destruct (call c self) as [self1 log1]. rewrite (surjective_pairing (calls (cs1 ++ cs2) self1)).
  rewrite (surjective_pairing (calls cs1 self1)). simpl. apply IH.
Qed.

Lemma calls_within_capacity cs self :
  within_capacity self ->
  within_capacity (fst (calls cs self)) /\
  buffer_size (fst (calls cs self)) = buffer_size self.
Proof.
  revert self. induction cs as [|c cs IH]; intros self H; simpl; [auto|].
  pose proof (call_within_capacity c self H) as Hc.
  pose proof (call_buffer_size c self) as Hb.
  destruct (call c self) as [self1 log1]. simpl in *.
  destruct (IH self1 Hc) as [H1 H2].
  destruct (calls cs self1) as [self2 log2]. simpl in *. split; [exact H1|congruence].
Qed.

(** A tracked operation, from start to end, appends its metric. *)
Lemma track_buffer t self :
  let self' := fst (calls (track t) self) in
  buffer_size self' = buffer_size self /\
  metrics_buffer self' =
    Py.deque_append (buffer_size self) (metric_of t) (metrics_buffer self).
Proof.
  unfold track. cbn [calls call].
  destruct (start_operation (tracked_id t) (tracked_agent t) (tracked_type t)
              (tracked_context t) (tracked_start t) self) as [self1 log1] eqn:Hstart.
  unfold start_operation in Hstart. injection Hstart as <- _.
  match goal with |- context [end_operation ?i ?s ?r ?e ?nt ?n ?m] =>
    pose proof (end_operation_buffer i s r e nt n m
                  (Operation.mk (tracked_agent t) (tracked_type t) (tracked_start t)
                     (default [] (tracked_context t)))) as He;
    destruct (end_operation i s r e nt n m) as [self2 log2] end.
  simpl in *. destruct He as (He1 & He2 & _); [apply lookup_insert_eq|].
  split; [exact He1|exact He2].
Qed.

Lemma tracks_buffer ts self :
  let self' := fst (calls (concat (map track ts)) self) in
  buffer_size self' = buffer_size self /\
  metrics_buffer self' =
    deque_extend (buffer_size self) (map metric_of ts) (metrics_buffer self).
Proof.
  revert self. induction ts as [|t ts IH]; intros self; [split; reflexivity|].
  cbn [map concat]. cbv zeta. rewrite calls_app.
  destruct (track_buffer t self) as [Hb Hm].
  destruct (IH (fst (calls (track t) self))) as [Hb' Hm'].
  split; [congruence|].
  rewrite Hm', Hb, Hm. reflexivity.
Qed.

(** C8: the metrics buffer of the default monitor has capacity 1000 and
    evicts oldest-first. After 1001 tracked operations (each started, then
    ended) on a new monitor, the buffer holds exactly 1000 metrics: those
    of the operations 2 to 1001 in insertion order, so its oldest entry is
    the metric of the second operation and the first one was evicted. And
    after any sequence of calls to the monitor, from the new monitor or
    from there on, the buffer never holds more than 1000 metrics. *)
Theorem C8_metrics_buffer_is_a_fifo_of_capacity_1000
    (ts : list Tracked) (cs : list Call) :
  length ts = 1001 ->
  let after := fst (calls (concat (map track ts)) default_monitor) in
  length (metrics_buffer after) = 1000 /\
  metrics_buffer after = map metric_of (tail ts) /\
  head (metrics_buffer after) = metric_of <$> ts !! 1 /\
  length (metrics_buffer (fst (calls cs default_monitor))) <= 1000 /\
  length (metrics_buffer (fst (calls cs after))) <= 1000.
Proof.
  intros Hlen after.
  destruct (tracks_buffer ts default_monitor) as [Hb Hm]. fold after in Hb, Hm.
  change (buffer_size default_monitor) with 1000 in Hb, Hm.
  change (metrics_buffer default_monitor) with (@nil PerformanceMetric) in Hm.
  rewrite deque_extend_last_n in Hm by (simpl; lia). simpl app in Hm.
  unfold Py.last_n in Hm. rewrite length_map, Hlen in Hm.
  replace (1001 - 1000) with 1 in Hm by lia.
  assert (Htl : metrics_buffer after = map metric_of (tail ts)).
  { rewrite Hm. destruct ts; reflexivity. }
  assert (Hcap : within_capacity after).
  { unfold within_capacity. rewrite Hb, Htl, length_map.
    destruct ts; simpl in *; lia. }
  repeat split.
  - rewrite Htl, length_map. destruct ts; simpl in *; lia.
  - exact Htl.
  - rewrite Htl. destruct ts as [|t0 [|t1 ts]]; simpl in *; try lia. reflexivity.
  - assert (H0 : within_capacity default_monitor) by (unfold within_capacity; simpl; lia).
    destruct (calls_within_capacity cs default_monitor H0) as [H1 H2].
    unfold within_capacity in H1. rewrite H2 in H1. exact H1.
  - destruct (calls_within_capacity cs after Hcap) as [H1 H2].
    unfold within_capacity in H1. rewrite H2, Hb in H1. exact H1.
Qed.

(** C10: [end_operation] on an id with no in-flight record returns the
    monitor unchanged (the metrics buffer, every agent's statistics and
    every in-flight record included) and logs exactly one record, the
    warning that the operation was not found. *)
Theorem C10_end_of_unknown_operation_changes_nothing
    (operation_id : string) (success : bool) (result_data : option Json)
    (error_info : option string) (now_time : float) (now : datetime)
    (self : PerformanceMonitor) :
  active_operations self !! operation_id = None ->
  end_operation operation_id success result_data error_info now_time now self
  = (self, [ {| level := WARNING; message := operation_not_found operation_id |} ]).
Proof. intros H. unfold end_operation. rewrite H. reflexivity. Qed.

(** C9: [end_operation] on an operation in flight, with duration
    [now_time - start_time]: the metric is appended to the buffer and the
    agent's operation count grows by one whatever the duration; the
    warnings logged are exactly a slow-operation warning when the duration
    is greater than [max_execution_time] (none when it is not), followed by
    a low-success-rate warning when the agent's count, this operation
    included, is at least 10 and its success rate is below
    [min_success_rate]; with fewer than 10 operations the rate is not
    looked at. *)
Theorem C9_alerts_of_end_operation
    (operation_id : string) (success : bool) (result_data : option Json)
    (error_info : option string) (now_time : float) (now : datetime)
    (self : PerformanceMonitor) (operation : Operation.t) :
  active_operations self !! operation_id = Some operation ->
  let execution_time := (now_time - Operation.start_time operation)%float in
  let agent_name := Operation.agent_name operation in
  let before := default new_stats (agent_stats self !! agent_name) in
  let total_ops := (total_operations before + 1)%Z in
  let successes :=
    (if success then successful_operations before + 1
     else successful_operations before)%Z in
  let out := end_operation operation_id success result_data error_info
               now_time now self in
  metrics_buffer (fst out) =
    Py.deque_append (buffer_size self)
      {| metric_name := "operation_execution_time";
         value := float_number execution_time;
         timestamp := now;
         agent_name := agent_name;
         context := operation_context (Operation.operation_type operation) success
                      (default [] result_data) error_info |}
      (metrics_buffer self) /\
  total_operations <$> agent_stats (fst out) !! agent_name = Some total_ops /\
  successful_operations <$> agent_stats (fst out) !! agent_name = Some successes /\
  warnings (snd out) =
    (if Py.gt execution_time (max_execution_time (thresholds self))
     then [slow_operation agent_name execution_time] else []) ++
    (if (10 <=? total_ops)%Z then
       if (Py.truediv successes total_ops <? min_success_rate (thresholds self))%float
       then [low_success_rate agent_name (Py.truediv successes total_ops)] else []
     else []).
Proof.
  intros Hop execution_time agent_name before total_ops successes out.
  split.
  { exact (proj1 (proj2 (end_operation_buffer operation_id success result_data
                           error_info now_time now self operation Hop))). }
  subst out. unfold end_operation. rewrite Hop. fold execution_time agent_name.
  pose proof (stats_of_value agent_name
                (set_active_operations (delete operation_id (active_operations self)) self))
    as Hv.
  pose proof (stats_of_frame agent_name
                (set_active_operations (delete operation_id (active_operations self)) self))
    as Hf. cbv zeta in Hf.
  destruct (stats_of agent_name
              (set_active_operations (delete operation_id (active_operations self)) self))
    as [stats self1]. simpl in Hv, Hf. fold before in Hv. subst stats.
  destruct Hf as (_ & _ & _ & Hth).
  unfold _check_performance_thresholds, stats_of, append_metric. simpl.
  rewrite lookup_insert_eq. simpl. rewrite lookup_insert_eq. simpl.
  fold total_ops successes. rewrite Hth.
  repeat split.
  unfold warnings.
  destruct (Py.gt execution_time (max_execution_time (thresholds self)));
    destruct (10 <=? total_ops)%Z;
    try destruct (Py.truediv successes total_ops <? min_success_rate (thresholds self))%float;
    reflexivity.
Qed.

Lemma C8_metrics_buffer_is_a_fifo_of_capacity_1000_witness :
  length (repeat (classify_run 0 1 "20240101_120000_000000") 1001) = 1001 /\
  length (metrics_buffer
            (fst (calls (concat (map track (repeat (classify_run 0 1 "20240101_120000_000000") 1001)))
                    default_monitor))) = 1000.
Proof.
  split; [apply repeat_length|].
  exact (proj1 (C8_metrics_buffer_is_a_fifo_of_capacity_1000
                  (repeat (classify_run 0 1 "20240101_120000_000000") 1001) [] (repeat_length _ _))).
Defined.

Lemma C10_end_of_unknown_operation_changes_nothing_witness :
  active_operations one_in_flight !! "op-2" = None /\
  fst (end_operation "op-2" true None None 112 "20240101_120000_000000" one_in_flight)
  = one_in_flight.
Proof.
  split; [reflexivity|].
  exact (f_equal fst
    (C10_end_of_unknown_operation_changes_nothing "op-2" true None None 112
       "20240101_120000_000000" one_in_flight eq_refl)).
Defined.

(** With the default thresholds: an operation that took 35 s logs the
    slow-operation warning and its metric is in the buffer. *)
Lemma C9_alerts_of_end_operation_witness :
  active_operations one_in_flight !! "op-1"
    = Some (Operation.mk "EmailClassifier" "classify" 100 []) /\
  warnings (snd (end_operation "op-1" true None None 135 "20240101_120035_000000"
                   one_in_flight))
    = [slow_operation "EmailClassifier" 35] /\
  metrics_buffer (fst (end_operation "op-1" true None None 135 "20240101_120035_000000"
                         one_in_flight))
    = [ metric_of (classify_run 100 135 "20240101_120035_000000") ].
Proof.
  pose proof (C9_alerts_of_end_operation "op-1" true None None 135
                "20240101_120035_000000" one_in_flight
                (Operation.mk "EmailClassifier" "classify" 100 []) eq_refl) as H.
  cbv zeta in H. destruct H as (Hm & _ & _ & Hw).
  split; [reflexivity|]. split.
  - rewrite Hw. reflexivity.
  - rewrite Hm. vm_compute. reflexivity.
Defined.

(** With the default thresholds: an operation that took 12 s logs no
    warning, and its metric is in the buffer. *)
Example twelve_seconds_no_warning :
  let out := end_operation "op-1" true None None 112 "20240101_120012_000000"
               one_in_flight in
  warnings (snd out) = [] /\
  metrics_buffer (fst out) = [ metric_of (classify_run 100 112 "20240101_120012_000000") ].
Proof. vm_compute. split; reflexivity. Qed.

(** Nine failures out of nine operations stay silent; the tenth operation
    of the agent is the first to have its success rate checked. *)
Example success_rate_checked_from_the_tenth_operation :
  warnings (snd (calls (concat (map track (repeat failed_run 9))) default_monitor)) = [] /\
  warnings (snd (calls (concat (map track (repeat failed_run 10))) default_monitor))
    = [low_success_rate "EmailClassifier" 0].
Proof. vm_compute. split; reflexivity. Qed.

End MonitorFacts.

(** ** Float order *)

Lemma SFcompare_antisym (f1 f2 : spec_float) :
  SFcompare f2 f1 = option_map CompOpp (SFcompare f1 f2).
Proof.
  destruct f1 as [s1|s1| |s1 m1 e1], f2 as [s2|s2| |s2 m2 e2]; simpl;
    try reflexivity; try (destruct s1; reflexivity); try (destruct s2; reflexivity);
    try (destruct s1, s2; reflexivity).
  destruct s1, s2; simpl; try reflexivity.
  - rewrite (Z.compare_antisym e1 e2).
    destruct (e1 ?= e2)%Z; simpl; try reflexivity.
    rewrite (Pos.compare_cont_antisym m1 m2 Eq). simpl.
    now destruct (Pos.compare_cont Eq m1 m2).
  - rewrite (Z.compare_antisym e1 e2).
    destruct (e1 ?= e2)%Z; simpl; try reflexivity.
    rewrite (Pos.compare_cont_antisym m1 m2 Eq). reflexivity.
Qed.

(** [x < y] excludes [y < x]. *)
Lemma ltb_asym (x y : float) : (x <? y)%float = true -> (y <? x)%float = false.
Proof.
  rewrite !ltb_spec. unfold SFltb. rewrite (SFcompare_antisym (Prim2SF x) (Prim2SF y)).
  destruct (SFcompare (Prim2SF x) (Prim2SF y)) as [[| |]|]; simpl; congruence.
Qed.

(** ** Planning: threshold gating *)

Section PlanningFacts.
Import Agent.

(** A loop whose body always returns is a left fold of its effect. *)
Lemma for_each_fold {St A : Type} (l : list A) (body : A -> Run St unit)
    (effect : A -> St -> St) :
  Forall (fun x => forall s c, body x s c = (Return tt, effect x s, c)) l ->
  forall s c, for_each l body s c = (Return tt, fold_left (fun s x => effect x s) l s, c).
Proof.
  induction 1 as [|x l Hx _ IH]; intros s c; simpl; [reflexivity|].
  unfold bind. rewrite Hx. apply IH.
Qed.

Lemma extend_extend i1 a1 i2 a2 plan :
  extend i2 a2 (extend i1 a1 plan) = extend (i1 ++ i2) (a1 ++ a2) plan.
Proof. unfold extend. simpl. now rewrite <- !app_assoc. Qed.

Lemma extend_nil plan : extend [] [] plan = plan.
Proof. destruct plan. unfold extend. simpl. now rewrite !app_nil_r. Qed.

Lemma fold_extend {A : Type} (imm app : A -> list Action) (l : list A) plan :
  fold_left (fun p x => extend (imm x) (app x) p) l plan
  = extend (flat_map imm l) (flat_map app l) plan.
Proof.
  revert plan. induction l as [|x l IH]; intros plan; simpl.
  - now rewrite extend_nil.
  - rewrite IH, extend_extend. reflexivity.
Qed.

Lemma plan_classification_effect c plan clk :
  complete_classification c = true ->
  plan_classification c plan clk
  = (Return tt, extend (classification_immediate c) (classification_approval c) plan, clk).
Proof.
  destruct c as [[e|] [k|] [x|]]; try discriminate. intros _.
  unfold plan_classification, classification_immediate, classification_approval.
  simpl. destruct (Py.gt x 0.7); run_unfold; simpl; unfold extend; simpl;
    now rewrite ?app_nil_r.
Qed.

Lemma plan_organization_effect s plan clk :
  complete_suggestion s = true ->
  plan_organization s plan clk
  = (Return tt, extend (suggestion_immediate s) [] plan, clk).
Proof.
  destruct s as [[a|] [t|] v x]; try discriminate. intros _.
  unfold plan_organization, suggestion_immediate. run_unfold. simpl.
  unfold extend. simpl. now rewrite app_nil_r.
Qed.

Lemma plan_response_effect settings r plan clk :
  complete_response r = true ->
  plan_response settings r plan clk
  = (Return tt, extend (response_immediate settings r) (response_approval settings r) plan, clk).
Proof.
  destruct r as [[e|] [t|] i x]; try discriminate. intros _.
  unfold plan_response, response_immediate, response_approval. simpl.
  destruct (auto_send_responses settings && Py.gt (Py.get x 0%float) 0.8);
    run_unfold; simpl; unfold extend; simpl; now rewrite ?app_nil_r.
Qed.

(** The plan built from complete entries, bucket by bucket. *)
Lemma coordinate_complete {St : Type} settings n cs os rs (s : St) clk :
  Forall (fun c => complete_classification c = true) cs ->
  Forall (fun o => complete_suggestion o = true) os ->
  Forall (fun r => complete_response r = true) rs ->
  coordinate_workflow_execution settings
    {| total_emails := n; classification_results := items cs;
       organization_suggestions := items os; response_candidates := items rs |} s clk
  = (Return
       {| immediate_actions :=
            (if auto_classify settings then flat_map classification_immediate cs else [])
            ++ (if auto_organize settings then flat_map suggestion_immediate os else [])
            ++ flat_map (response_immediate settings) rs;
          user_approval_needed :=
            (if auto_classify settings then flat_map classification_approval cs else [])
            ++ flat_map (response_approval settings) rs;
          scheduled_actions := [];
          completed_actions := [] |}, s, clk).
Proof.
  intros Hc Ho Hr.
  unfold coordinate_workflow_execution, returning, coordinate, for_entries. simpl.
  assert (Ec : forall p k, for_each cs plan_classification p k
             = (Return tt, extend (flat_map classification_immediate cs)
                             (flat_map classification_approval cs) p, k)).
  { intros p k. rewrite <- fold_extend. apply for_each_fold.
    eapply Forall_impl; [exact Hc|]. intros c H p' k'. now apply plan_classification_effect. }
  assert (Eo : forall p k, for_each os plan_organization p k
             = (Return tt, extend (flat_map suggestion_immediate os) [] p, k)).
  { intros p k.
    assert (E : flat_map (fun _ : Suggestion.t => @nil Action) os = [])
      by (clear; induction os; simpl; auto).
    rewrite <- E, <- fold_extend. apply for_each_fold.
    eapply Forall_impl; [exact Ho|]. intros o H p' k'. now apply plan_organization_effect. }
  assert (Er : forall p k, for_each rs (plan_response settings) p k
             = (Return tt, extend (flat_map (response_immediate settings) rs)
                             (flat_map (response_approval settings) rs) p, k)).
  { intros p k. rewrite <- fold_extend. apply for_each_fold.
    eapply Forall_impl; [exact Hr|]. intros r H p' k'. now apply plan_response_effect. }
  unfold bind.
  destruct (auto_classify settings), (auto_organize settings);
    unfold ret; rewrite ?Ec, ?Eo, ?Er; unfold extend, empty_plan; simpl;
    rewrite ?app_nil_r, <- ?app_assoc; reflexivity.
Qed.

Lemma in_classification_immediate a cs :
  In a (flat_map classification_immediate cs) <->
  exists e k x, a = apply_classification e k x /\
    In (Classification.mk (Some e) (Some k) (Some x)) cs /\ Py.gt x 0.7 = true.
Proof.
  rewrite in_flat_map. split.
  - intros ([[e|] [k|] [x|]] & Hin & Ha); simpl in Ha; try contradiction.
    destruct (Py.gt x 0.7) eqn:Hx; simpl in Ha; [|contradiction].
    destruct Ha as [<-|[]]. now exists e, k, x.
  - intros (e & k & x & -> & Hin & Hx). eexists. split; [exact Hin|].
    simpl. rewrite Hx. now left.
Qed.

Lemma in_classification_approval a cs :
  In a (flat_map classification_approval cs) <->
  exists e k x, a = review_classification e k x /\
    In (Classification.mk (Some e) (Some k) (Some x)) cs /\ Py.gt x 0.7 = false.
Proof.
  rewrite in_flat_map. split.
  - intros ([[e|] [k|] [x|]] & Hin & Ha); simpl in Ha; try contradiction.
    destruct (Py.gt x 0.7) eqn:Hx; simpl in Ha; [contradiction|].
    destruct Ha as [<-|[]]. now exists e, k, x.
  - intros (e & k & x & -> & Hin & Hx). eexists. split; [exact Hin|].
    simpl. rewrite Hx. now left.
Qed.

Lemma in_suggestion_immediate a os :
  In a (flat_map suggestion_immediate os) ->
  exists o t x, a = apply_organization o t x.
Proof.
  rewrite in_flat_map.
  intros ([[o|] [t|] v x] & Hin & Ha); simpl in Ha; try contradiction.
  destruct Ha as [<-|[]]. eauto.
Qed.

Lemma in_response_immediate settings a rs :
  In a (flat_map (response_immediate settings) rs) <->
  exists e t i x, a = send_response e t /\
    In (Response.mk (Some e) (Some t) i x) rs /\
    auto_send_responses settings = true /\ Py.gt (Py.get x 0%float) 0.8 = true.
Proof.
  rewrite in_flat_map. split.
  - intros ([[e|] [t|] i x] & Hin & Ha); simpl in Ha; try contradiction.
    destruct (auto_send_responses settings) eqn:Hs; simpl in Ha; [|contradiction].
    destruct (Py.gt (Py.get x 0%float) 0.8) eqn:Hx; simpl in Ha; [|contradiction].
    destruct Ha as [<-|[]]. exists e, t, i, x. auto.
  - intros (e & t & i & x & -> & Hin & Hs & Hx). eexists. split; [exact Hin|].
    simpl. rewrite Hs, Hx. now left.
Qed.

Lemma in_response_approval settings a rs :
  In a (flat_map (response_approval settings) rs) <->
  exists e t i x, a = review_response e t (Py.get x 0%float) /\
    In (Response.mk (Some e) (Some t) i x) rs /\
    (auto_send_responses settings = false \/ Py.gt (Py.get x 0%float) 0.8 = false).
Proof.
  rewrite in_flat_map. split.
  - intros ([[e|] [t|] i x] & Hin & Ha); simpl in Ha; try contradiction.
    destruct (auto_send_responses settings) eqn:Hs; simpl in Ha.
    + destruct (Py.gt (Py.get x 0%float) 0.8) eqn:Hx; simpl in Ha; [contradiction|].
      destruct Ha as [<-|[]]. exists e, t, i, x. auto.
    + destruct Ha as [<-|[]]. exists e, t, i, x. auto.
  - intros (e & t & i & x & -> & Hin & Hor). eexists. split; [exact Hin|].
    simpl. destruct (auto_send_responses settings); simpl.
    + destruct Hor as [Hor|Hor]; [discriminate|]. rewrite Hor. now left.
    + now left.
Qed.

Lemma in_immediate_bucket settings cs os rs a :
  In a ((if auto_classify settings then flat_map classification_immediate cs else [])
        ++ (if auto_organize settings then flat_map suggestion_immediate os else [])
        ++ flat_map (response_immediate settings) rs) <->
  (auto_classify settings = true /\ In a (flat_map classification_immediate cs)) \/
  (auto_organize settings = true /\ In a (flat_map suggestion_immediate os)) \/
  In a (flat_map (response_immediate settings) rs).
Proof.
  rewrite !in_app_iff.
  destruct (auto_classify settings), (auto_organize settings); simpl;
    intuition discriminate.
Qed.

Lemma in_approval_bucket settings cs rs a :
  In a ((if auto_classify settings then flat_map classification_approval cs else [])
        ++ flat_map (response_approval settings) rs) <->
  (auto_classify settings = true /\ In a (flat_map classification_approval cs)) \/
  In a (flat_map (response_approval settings) rs).
Proof.
  rewrite in_app_iff. destruct (auto_classify settings); simpl; intuition discriminate.
Qed.

(** C3 (as amended): planning over analysis results whose entries carry the
    keys the planner indexes returns a plan in which, with auto-classify
    on, a classification with confidence strictly greater than 0.7 is an
    [apply_classification] action of the immediate bucket and any other one
    (confidence below 0.7, or exactly 0.7) is a [review_classification]
    action of the approval bucket; a response with confidence strictly
    greater than 0.8, with auto-send on, is a [send_response] action of the
    immediate bucket, and any other one (auto-send off, confidence below
    0.8 or exactly 0.8) is a [review_response] action of the approval
    bucket. Nothing else is in these two buckets: every immediate action
    passed its gate and every action awaiting approval failed it, and the
    gate decides alone: a classification action is in the immediate bucket
    exactly when its entry is above 0.7 and in the approval bucket exactly
    when it is not; a response is sent at once exactly when auto-send is on
    and some candidate with that email and text is above 0.8, so that a
    response at or below 0.8 (or any response with auto-send off) is never
    in the immediate bucket, and it awaits approval exactly otherwise. *)
Theorem C3_actions_are_gated_strictly_above_the_threshold {St : Type}
    (settings : WorkflowSettings) (n : nat) (cs : list Classification.t)
    (os : list Suggestion.t) (rs : list Response.t) (s : St) (clk : Clock) :
  Forall (fun c => complete_classification c = true) cs ->
  Forall (fun o => complete_suggestion o = true) os ->
  Forall (fun r => complete_response r = true) rs ->
  exists plan : ExecutionPlan,
    coordinate_workflow_execution settings
      {| total_emails := n; classification_results := items cs;
         organization_suggestions := items os; response_candidates := items rs |} s clk
    = (Return plan, s, clk) /\
    (auto_classify settings = true ->
     forall e k x, In (Classification.mk (Some e) (Some k) (Some x)) cs ->
       (Py.gt x 0.7 = true -> In (apply_classification e k x) (immediate_actions plan)) /\
       ((x <? 0.7)%float = true \/ x = 0.7%float \/ Py.gt x 0.7 = false ->
        In (review_classification e k x) (user_approval_needed plan))) /\
    (forall e t i x, In (Response.mk (Some e) (Some t) i (Some x)) rs ->
       (auto_send_responses settings = true -> Py.gt x 0.8 = true ->
        In (send_response e t) (immediate_actions plan)) /\
       (auto_send_responses settings = false \/ (x <? 0.8)%float = true \/
        x = 0.8%float \/ Py.gt x 0.8 = false ->
        In (review_response e t x) (user_approval_needed plan))) /\
    (forall a, In a (immediate_actions plan) -> passed_gate settings a) /\
    (forall a, In a (user_approval_needed plan) -> held_back settings a) /\
    (forall e k x,
       In (apply_classification e k x) (immediate_actions plan) <->
       auto_classify settings = true /\
       In (Classification.mk (Some e) (Some k) (Some x)) cs /\ Py.gt x 0.7 = true) /\
    (forall e k x,
       In (review_classification e k x) (user_approval_needed plan) <->
       auto_classify settings = true /\
       In (Classification.mk (Some e) (Some k) (Some x)) cs /\ Py.gt x 0.7 = false) /\
    (forall e t,
       In (send_response e t) (immediate_actions plan) <->
       auto_send_responses settings = true /\
       exists i x, In (Response.mk (Some e) (Some t) i x) rs /\
                   Py.gt (Py.get x 0%float) 0.8 = true) /\
    (forall e t x,
       In (review_response e t x) (user_approval_needed plan) <->
       exists i x', In (Response.mk (Some e) (Some t) i x') rs /\
                    x = Py.get x' 0%float /\
                    (auto_send_responses settings = false \/ Py.gt x 0.8 = false)) /\
    (forall e t,
       (forall i x, In (Response.mk (Some e) (Some t) i x) rs ->
          auto_send_responses settings = false \/
          Py.gt (Py.get x 0%float) 0.8 = false) ->
       ~ In (send_response e t) (immediate_actions plan)).
Proof.
  intros Hc Ho Hr. eexists. split; [now apply coordinate_complete|].
  cbn [immediate_actions user_approval_needed].
  assert (Hsend : forall e t,
    In (send_response e t)
      ((if auto_classify settings then flat_map classification_immediate cs else [])
       ++ (if auto_organize settings then flat_map suggestion_immediate os else [])
       ++ flat_map (response_immediate settings) rs) <->
    auto_send_responses settings = true /\
    exists i x, In (Response.mk (Some e) (Some t) i x) rs /\
                Py.gt (Py.get x 0%float) 0.8 = true).
  { intros e t. rewrite in_immediate_bucket. split.
    - intros [[_ Ha]|[[_ Ha]|Ha]].
      + apply in_classification_immediate in Ha.
        destruct Ha as (? & ? & ? & Ha & _). discriminate.
      + apply in_suggestion_immediate in Ha. destruct Ha as (? & ? & ? & Ha). discriminate.
      + apply in_response_immediate in Ha.
        destruct Ha as (e' & t' & i & x & Heq & Hin & Hs & Hx).
        injection Heq as -> ->. split; [exact Hs|]. now exists i, x.
    - intros (Hs & i & x & Hin & Hx). right. right.
      apply in_response_immediate. exists e, t, i, x. auto. }
  split; [|split; [|split; [|split; [|split; [|split; [|split; [|split]]]]]]].
  - intros Hauto e k x Hin. split.
    + intros Hx. rewrite Hauto. apply in_or_app. left.
      apply in_classification_immediate. now exists e, k, x.
    + intros Hx. rewrite Hauto. apply in_or_app. left.
      apply in_classification_approval. exists e, k, x. repeat split; [assumption|].
      destruct Hx as [Hx|[->|Hx]]; [now apply ltb_asym | reflexivity | exact Hx].
  - intros e t i x Hin. split.
    + intros Hs Hx. apply in_or_app. right. apply in_or_app. right.
      apply in_response_immediate. exists e, t, i, (Some x). auto.
    + intros Hx. apply in_or_app. right.
      apply in_response_approval. exists e, t, i, (Some x). repeat split; [assumption|].
      destruct Hx as [Hx|[Hx|[->|Hx]]]; auto. right. now apply ltb_asym.
  - intros a Ha. apply in_app_or in Ha. destruct Ha as [Ha|Ha].
    + destruct (auto_classify settings); [|contradiction].
      apply in_classification_immediate in Ha. destruct Ha as (e & k & x & -> & _ & Hx).
      exact Hx.
    + apply in_app_or in Ha. destruct Ha as [Ha|Ha].
      * destruct (auto_organize settings) eqn:Hao; [|contradiction].
        apply in_suggestion_immediate in Ha. destruct Ha as (o & t & x & ->). exact Hao.
      * apply in_response_immediate in Ha.
        destruct Ha as (e & t & i & x & -> & _ & Hs & _). exact Hs.
  - intros a Ha. apply in_app_or in Ha. destruct Ha as [Ha|Ha].
    + destruct (auto_classify settings); [|contradiction].
      apply in_classification_approval in Ha. destruct Ha as (e & k & x & -> & _ & Hx).
      exact Hx.
    + apply in_response_approval in Ha.
      destruct Ha as (e & t & i & x & -> & _ & Hor). exact Hor.
  - intros e k x. rewrite in_immediate_bucket. split.
    + intros [[Hauto Ha]|[[_ Ha]|Ha]].
      * apply in_classification_immediate in Ha.
        destruct Ha as (e' & k' & x' & Heq & Hin & Hx). injection Heq as -> -> ->. auto.
      * apply in_suggestion_immediate in Ha. destruct Ha as (? & ? & ? & Ha). discriminate.
      * apply in_response_immediate in Ha.
        destruct Ha as (? & ? & ? & ? & Ha & _). discriminate.
    + intros (Hauto & Hin & Hx). left. split; [exact Hauto|].
      apply in_classification_immediate. now exists e, k, x.
  - intros e k x. rewrite in_approval_bucket. split.
    + intros [[Hauto Ha]|Ha].
      * apply in_classification_approval in Ha.
        destruct Ha as (e' & k' & x' & Heq & Hin & Hx). injection Heq as -> -> ->. auto.
      * apply in_response_approval in Ha.
        destruct Ha as (? & ? & ? & ? & Ha & _). discriminate.
    + intros (Hauto & Hin & Hx). left. split; [exact Hauto|].
      apply in_classification_approval. now exists e, k, x.
  - exact Hsend.
  - intros e t x. rewrite in_approval_bucket. split.
    + intros [[_ Ha]|Ha].
      * apply in_classification_approval in Ha.
        destruct Ha as (? & ? & ? & Ha & _). discriminate.
      * apply in_response_approval in Ha.
        destruct Ha as (e' & t' & i & x' & Heq & Hin & Hor).
        injection Heq as -> -> ->. exists i, x'. auto.
    + intros (i & x' & Hin & -> & Hor). right.
      apply in_response_approval. exists e, t, i, x'. auto.
  - intros e t Hall Ha. apply Hsend in Ha. destruct Ha as (Hs & i & x & Hin & Hx).
    destruct (Hall i x Hin) as [H|H]; congruence.
Qed.

Lemma C3_actions_are_gated_strictly_above_the_threshold_witness :
  Forall (fun c => complete_classification c = true) three_classified /\
  Forall (fun r => complete_response r = true) two_responses /\
  exists plan : ExecutionPlan,
    coordinate_workflow_execution auto_send_settings
      {| total_emails := 3; classification_results := items three_classified;
         organization_suggestions := items []; response_candidates := items two_responses |}
      tt (mkClock (fun _ => "20240101_120000_000000") 0)
    = (Return plan, tt, mkClock (fun _ => "20240101_120000_000000") 0) /\
    In (apply_classification "A" "work" 0.9) (immediate_actions plan) /\
    In (review_classification "B" "personal" 0.6) (user_approval_needed plan) /\
    In (apply_classification "C" "work" 0.75) (immediate_actions plan) /\
    In (send_response "A" "On my way.") (immediate_actions plan) /\
    In (review_response "B" "Let me check." 0.5) (user_approval_needed plan) /\
    ~ In (send_response "B" "Let me check.") (immediate_actions plan).
Proof.
  assert (Hc : Forall (fun c => complete_classification c = true) three_classified)
    by (repeat constructor).
  assert (Hr : Forall (fun r => complete_response r = true) two_responses)
    by (repeat constructor).
  split; [exact Hc|]. split; [exact Hr|].
  destruct (C3_actions_are_gated_strictly_above_the_threshold auto_send_settings 3
              three_classified [] two_responses tt
              (mkClock (fun _ => "20240101_120000_000000") 0)
              Hc (List.Forall_nil _) Hr)
    as (plan & Hplan & Hgate & Hresp & _ & _ & _ & _ & _ & _ & Hnever).
  exists plan. split; [exact Hplan|].
  specialize (Hgate eq_refl).
  split; [|split; [|split; [|split; [|split]]]].
  - apply (Hgate "A" "work" 0.9%float); [simpl; auto | reflexivity].
  - apply (Hgate "B" "personal" 0.6%float); [simpl; auto | left; reflexivity].
  - apply (Hgate "C" "work" 0.75%float); [simpl; auto | reflexivity].
  - apply (Hresp "A" "On my way." (Some "question") 0.9%float);
      [simpl; auto | reflexivity | reflexivity].
  - apply (Hresp "B" "Let me check." (Some "question") 0.5%float);
      [simpl; auto | right; left; reflexivity].
  - apply Hnever. intros i x [H|[H|[]]]; [discriminate H|].
    inversion H. right. reflexivity.
Defined.

(** C3 (as stated, refuted): a classification whose confidence is exactly
    0.7, hence at the threshold, and a response whose confidence is exactly
    0.8 with auto-send enabled are both placed in the approval bucket, and
    the immediate bucket stays empty: the code compares with [>]. *)
Lemma C3_at_the_threshold_goes_to_approval :
  (0.7 <=? 0.7)%float = true /\ (0.8 <=? 0.8)%float = true /\
  result_of
    (coordinate_workflow_execution auto_send_settings
       {| total_emails := 1;
          classification_results :=
            items [Classification.mk (Some "m1") (Some "work") (Some 0.7%float)];
          organization_suggestions := items [];
          response_candidates :=
            items [Response.mk (Some "m1") (Some "Thank you.") (Some "question")
                     (Some 0.8%float)] |}
       tt (mkClock (fun _ => "20240101_120000_000000") 0))
  = Return {| immediate_actions := [];
              user_approval_needed :=
                [ review_classification "m1" "work" 0.7;
                  review_response "m1" "Thank you." 0.8 ];
              scheduled_actions := [];
              completed_actions := [] |}.
Proof. repeat split. Qed.

End PlanningFacts.

(** ** Execution: per-action fault isolation *)

Section ExecutionFacts.
Import Agent.
Context `{env : Environment}.

(** Whatever the executor does with an action (returns [True], returns
    [False], or raises), the iteration returns normally. *)
Lemma execute_action_run a r c :
  execute_action a r c
  = (Return tt, tallied a (reading c (ticks c)) r, mkClock (reading c) (S (ticks c))).
Proof.
  unfold execute_action, tallied, succeeded, result_text, tally. run_unfold.
  destruct (_execute_single_action a) as [[|]|e]; reflexivity.
Qed.

Lemma execute_loop_run (l : list Action) r c :
  exists r',
    for_each l execute_action r c
    = (Return tt, r', mkClock (reading c) (ticks c + length l)) /\
    map detail_action (action_details r') = map detail_action (action_details r) ++ l /\
    map detail_result (action_details r')
      = map detail_result (action_details r) ++ map result_text l /\
    successful_actions r'
      = (successful_actions r + Z.of_nat (length (List.filter succeeded l)))%Z /\
    failed_actions r'
      = (failed_actions r
         + Z.of_nat (length (List.filter (fun a => negb (succeeded a)) l)))%Z.
Proof.
  revert r c. induction l as [|a l IH]; intros r c.
  - exists r. simpl. rewrite Nat.add_0_r, !app_nil_r, !Z.add_0_r.
    destruct c. repeat split; reflexivity.
  - destruct (IH (tallied a (reading c (ticks c)) r) (mkClock (reading c) (S (ticks c))))
      as (r' & Hrun & Ha & Hr & Hs & Hf).
    exists r'. simpl for_each. unfold bind. rewrite execute_action_run, Hrun.
    simpl in *. rewrite Ha, Hr, Hs, Hf, !map_app, <- !app_assoc. simpl.
    repeat split.
    + do 3 f_equal. lia.
    + destruct (succeeded a); simpl; lia.
    + destruct (succeeded a); simpl; lia.
Qed.

Lemma execute_workflow_actions_run {St : Type} plan (s : St) c :
  exists res,
    execute_workflow_actions plan s c
    = (Return res, s, mkClock (reading c) (ticks c + length (immediate_actions plan))) /\
    tallies plan res.
Proof.
  destruct (execute_loop_run (immediate_actions plan) empty_results c)
    as (res & Hrun & Ha & Hr & Hs & Hf).
  exists res. unfold execute_workflow_actions, returning. rewrite Hrun.
  split; [reflexivity|]. simpl in *. unfold tallies. repeat split; try assumption.
  rewrite Hs, Hf. simpl.
  clear. induction (immediate_actions plan) as [|a l IH]; simpl; [reflexivity|].
  destruct (succeeded a); simpl length; lia.
Qed.

(** *** Planning does not read the clock *)

Lemma clock_free_ret {St A : Type} (a : A) : clock_free (@ret St A a).
Proof. intros s c. reflexivity. Qed.

Lemma clock_free_raise {St A : Type} (e : Py.exn) : clock_free (@raise St A e).
Proof. intros s c. reflexivity. Qed.

Lemma clock_free_modify {St : Type} (f : St -> St) : clock_free (modify f).
Proof. intros s c. reflexivity. Qed.

Lemma clock_free_lift {St A : Type} (r : raises A) : clock_free (@lift_raises St A r).
Proof. intros s c. reflexivity. Qed.

Lemma clock_free_bind {St A B : Type} (m : Run St A) (k : A -> Run St B) :
  clock_free m -> (forall a, clock_free (k a)) -> clock_free (bind m k).
Proof.
  intros Hm Hk s c. unfold bind. specialize (Hm s c). unfold clock_of in *.
  destruct (m s c) as [[[a|e] s1] c1]; simpl in *; subst c1; [apply Hk|reflexivity].
Qed.

Lemma clock_free_for_each {St A : Type} (l : list A) (body : A -> Run St unit) :
  (forall x, clock_free (body x)) -> clock_free (for_each l body).
Proof.
  intros Hb. induction l as [|x l IH]; simpl.
  - apply clock_free_ret.
  - apply clock_free_bind; [apply Hb | intros _; exact IH].
Qed.

Create HintDb clock_free.
#[local] Hint Resolve clock_free_ret clock_free_raise clock_free_modify clock_free_lift
  : clock_free.

Ltac solve_clock_free :=
  repeat first
    [ apply clock_free_bind; [|intros ?]
    | apply clock_free_for_each; intros ?
    | solve [auto with clock_free]
    | match goal with |- clock_free (if ?b then _ else _) => destruct b end
    | match goal with |- clock_free (match ?x with items _ => _ | keyed _ _ => _ end) =>
        destruct x end ].

Lemma clock_free_coordinate settings analysis_results :
  clock_free (coordinate settings analysis_results).
Proof.
  unfold coordinate, for_entries, plan_classification, plan_organization,
    plan_response, append_immediate, append_approval.
  solve_clock_free.
Qed.

(** *** The steps of [act] *)

Lemma use_tool_run {A : Type} tool_name (body : Run World A) w c :
  use_tool tool_name body w c =
  match body w c with
  | (Return a, w1, c1) =>
      (Return {| success := true; result := Some a; error := None;
                 metadata := [("tool", tool_name); ("agent", name (agent w1))] |},
       remember "tool_usage" (Some tool_name) (reading c1 (ticks c1)) w1,
       mkClock (reading c1) (S (ticks c1)))
  | (Raise e, w1, c1) =>
      (Return {| success := false; result := None; error := Some (Py.str e);
                 metadata := [] |},
       remember "tool_error" (Some tool_name) (reading c1 (ticks c1)) w1,
       mkClock (reading c1) (S (ticks c1)))
  end.
Proof.
  unfold use_tool, add_to_short_term. run_unfold.
  destruct (body w c) as [[[a|e] w1] c1]; reflexivity.
Qed.

Lemma same_setting_refl w c : same_setting w w c c.
Proof. unfold same_setting. auto. Qed.

Lemma same_setting_trans w1 w2 w3 c1 c2 c3 :
  same_setting w1 w2 c1 c2 -> same_setting w2 w3 c2 c3 -> same_setting w1 w3 c1 c3.
Proof. unfold same_setting. intuition congruence. Qed.

Lemma same_setting_remember type tool now w c n :
  same_setting w (remember type tool now w) c (mkClock (reading c) n).
Proof. unfold same_setting, remember. simpl. auto. Qed.

(** Every step returns normally: a failing tool is reported in its
    [ToolResult] and the step leaves the locals as they were. *)
Lemma run_step_returns emails step l w c :
  exists l' w' c',
    run_step emails step l w c = (Return l', w', c') /\
    same_setting w w' c c' /\ stepped step l l'.
Proof.
  unfold run_step.
  destruct (String.eqb_spec step "run_analysis_pipeline") as [E1|_].
  { unfold bind at 1. rewrite use_tool_run. run_unfold.
    destruct (run_email_analysis_pipeline _ emails) as [r|e]; simpl;
      eexists _, _, _; (split; [reflexivity|]);
      (split; [apply same_setting_remember|]); unfold stepped; eauto 6. }
  destruct (String.eqb_spec step "coordinate_workflow") as [E2|_],
    (local_pipeline_results l) as [pr|] eqn:Hpr.
  1: { unfold bind at 1. rewrite use_tool_run. unfold bind at 1, get_state.
       unfold coordinate_workflow_execution, returning.
       pose proof (clock_free_coordinate (workflow_settings (agent w)) pr empty_plan c) as Hc.
       unfold clock_of in Hc.
       destruct (coordinate _ pr empty_plan c) as [[[[]|e] p] c1]; simpl in *; subst c1;
         unfold ret;
         eexists _, _, _; (split; [reflexivity|]);
         (split; [apply same_setting_remember|]); unfold stepped; rewrite ?Hpr; eauto 7. }
  all: destruct (String.eqb_spec step "execute_actions") as [E3|_],
         (local_execution_plan l) as [p|] eqn:Hp.
  all: try (destruct (String.eqb_spec step "monitor_performance") as [E4|_];
            [ unfold bind at 1; rewrite use_tool_run; run_unfold;
              destruct (monitor_agent_performance w) as [r|e]; simpl;
              eexists _, _, _; (split; [reflexivity|]);
              (split; [apply same_setting_remember|]); unfold stepped;
              rewrite ?Hpr, ?Hp; eauto 8
            | eexists _, _, _; (split; [reflexivity|]);
              (split; [apply same_setting_refl|]); unfold stepped; eauto ]).
  all: unfold bind at 1; rewrite use_tool_run;
       destruct (execute_workflow_actions_run p w c) as (res & -> & Ht); simpl;
       unfold ret; eexists _, _, _; (split; [reflexivity|]);
       (split; [apply same_setting_remember|]); unfold stepped;
       right; right; right; left; split; [exact E3|];
       exists p, res; rewrite ?Hpr, ?Hp; auto.
Qed.

(** The execution step on a plan: it always returns, with the tally of
    the plan's immediate actions stored in the workflow result. *)
Lemma run_step_execute emails l w c p :
  local_execution_plan l = Some p ->
  exists res w' c',
    run_step emails "execute_actions" l w c
    = (Return {| local_workflow_result :=
                   set_execution_results res (local_workflow_result l);
                 local_pipeline_results := local_pipeline_results l;
                 local_execution_plan := local_execution_plan l |}, w', c') /\
    same_setting w w' c c' /\ tallies p res.
Proof.
  intros Hp. unfold run_step. cbn [String.eqb Ascii.eqb Bool.eqb andb].
  destruct (local_pipeline_results l); rewrite Hp.
  all: unfold bind at 1; rewrite use_tool_run;
       destruct (execute_workflow_actions_run p w c) as (res & -> & Ht); simpl;
       unfold ret; exists res; eexists _, _; (split; [reflexivity|]);
       (split; [apply same_setting_remember|exact Ht]).
Qed.

Lemma run_steps_returns emails steps l w c :
  exists l' w' c',
    run_steps emails steps l w c = (Return l', w', c') /\ same_setting w w' c c'.
Proof.
  revert l w c. induction steps as [|step steps IH]; intros l w c; simpl.
  - eexists _, _, _. split; [reflexivity|apply same_setting_refl].
  - destruct (run_step_returns emails step l w c) as (l1 & w1 & c1 & H1 & S1 & _).
    destruct (IH l1 w1 c1) as (l2 & w2 & c2 & H2 & S2).
    exists l2, w2, c2. unfold bind. rewrite H1, H2.
    split; [reflexivity|]. eapply same_setting_trans; eassumption.
Qed.

Ltac stepped_cases H :=
  let E := fresh "E" in
  unfold stepped in H;
  destruct H as [->|[(E & ? & ->)|[(E & ? & ->)|[(E & ? & ? & ? & ? & ->)|(E & ? & ->)]]]];
  try discriminate E.

(** The four steps [think] plans, from the initial locals. *)
Lemma planned_steps_run emails wr0 w c :
  execution_plan wr0 = None -> execution_results wr0 = None ->
  exists l' w' c',
    run_steps emails
      [ "run_analysis_pipeline"; "coordinate_workflow";
        "execute_actions"; "monitor_performance" ]
      {| local_workflow_result := wr0; local_pipeline_results := None;
         local_execution_plan := None |} w c
    = (Return l', w', c') /\
    same_setting w w' c c' /\ tally_retained (local_workflow_result l').
Proof.
  intros Hplan Hres. cbn [run_steps].
  (* run_analysis_pipeline *)
  destruct (run_step_returns emails "run_analysis_pipeline"
              {| local_workflow_result := wr0; local_pipeline_results := None;
                 local_execution_plan := None |} w c)
    as (l1 & w1 & c1 & R1 & S1 & T1).
  assert (I1 : local_execution_plan l1 = None /\
               execution_plan (local_workflow_result l1) = None /\
               execution_results (local_workflow_result l1) = None).
  { stepped_cases T1; simpl in *; repeat split; congruence. }
  (* coordinate_workflow *)
  destruct (run_step_returns emails "coordinate_workflow" l1 w1 c1)
    as (l2 & w2 & c2 & R2 & S2 & T2).
  assert (I2 : execution_plan (local_workflow_result l2) = local_execution_plan l2 /\
               execution_results (local_workflow_result l2) = None).
  { destruct I1 as (I1a & I1b & I1c).
    stepped_cases T2; simpl in *; repeat split; congruence. }
  (* execute_actions *)
  assert (X3 : exists l3 w3 c3,
             run_step emails "execute_actions" l2 w2 c2 = (Return l3, w3, c3) /\
             same_setting w2 w3 c2 c3 /\
             tally_retained (local_workflow_result l3)).
  { destruct I2 as (I2a & I2b).
    destruct (local_execution_plan l2) as [p|] eqn:Hp.
    - destruct (run_step_execute emails l2 w2 c2 p Hp) as (res & w3 & c3 & R3 & S3 & T3).
      eexists _, w3, c3. split; [exact R3|]. split; [exact S3|].
      intros p' Hp'. simpl in *. exists res. split; [reflexivity|]. congruence.
    - destruct (run_step_returns emails "execute_actions" l2 w2 c2)
        as (l3 & w3 & c3 & R3 & S3 & T3).
      exists l3, w3, c3. split; [exact R3|]. split; [exact S3|].
      stepped_cases T3; simpl in *; intros p' Hp'; congruence. }
  destruct X3 as (l3 & w3 & c3 & R3 & S3 & T3).
  (* monitor_performance *)
  destruct (run_step_returns emails "monitor_performance" l3 w3 c3)
    as (l4 & w4 & c4 & R4 & S4 & T4).
  exists l4, w4, c4. unfold bind. rewrite R1, R2, R3, R4. split; [reflexivity|].
  split.
  - eapply same_setting_trans; [exact S1|].
    eapply same_setting_trans; [exact S2|].
    eapply same_setting_trans; [exact S3|exact S4].
  - stepped_cases T4; simpl in *; auto.
Qed.

Lemma coordinate_in_any_state {St : Type} settings a p (s : St) c :
  coordinate_workflow_execution settings a tt c = (Return p, tt, c) ->
  coordinate_workflow_execution settings a s c = (Return p, s, c).
Proof.
  unfold coordinate_workflow_execution, returning.
  destruct (coordinate settings a empty_plan c) as [[[[]|e] t] c'];
    intros H; inversion H; reflexivity.
Qed.

(** The four steps when the analysis returns and its results can be
    planned: the locals end with these results, the plan and its tally. *)
Lemma planned_steps_plan emails wr0 w c a p :
  run_email_analysis_pipeline (workflow_settings (agent w)) emails = Return a ->
  (forall c0, coordinate_workflow_execution (workflow_settings (agent w)) a tt c0
              = (Return p, tt, c0)) ->
  exists l' w' c',
    run_steps emails
      [ "run_analysis_pipeline"; "coordinate_workflow";
        "execute_actions"; "monitor_performance" ]
      {| local_workflow_result := wr0; local_pipeline_results := None;
         local_execution_plan := None |} w c
    = (Return l', w', c') /\
    analysis_results (local_workflow_result l') = Some a /\
    execution_plan (local_workflow_result l') = Some p /\
    exists res, execution_results (local_workflow_result l') = Some res /\
                tallies p res.
Proof.
  intros Ha Hp. cbn [run_steps].
  (* run_analysis_pipeline *)
  assert (R1 : run_step emails "run_analysis_pipeline"
                 {| local_workflow_result := wr0; local_pipeline_results := None;
                    local_execution_plan := None |} w c
               = (Return {| local_workflow_result := set_analysis_results a wr0;
                            local_pipeline_results := Some a;
                            local_execution_plan := None |},
                  remember "tool_usage" (Some "run_analysis_pipeline")
                    (reading c (ticks c)) w,
                  mkClock (reading c) (S (ticks c)))).
  { unfold run_step. cbn [String.eqb Ascii.eqb Bool.eqb andb].
    unfold bind at 1. rewrite use_tool_run. run_unfold. rewrite Ha. reflexivity. }
  set (w1 := remember "tool_usage" (Some "run_analysis_pipeline")
               (reading c (ticks c)) w) in *.
  set (c1 := mkClock (reading c) (S (ticks c))) in *.
  (* coordinate_workflow *)
  assert (R2 : run_step emails "coordinate_workflow"
                 {| local_workflow_result := set_analysis_results a wr0;
                    local_pipeline_results := Some a;
                    local_execution_plan := None |} w1 c1
               = (Return {| local_workflow_result :=
                              set_execution_plan p (set_analysis_results a wr0);
                            local_pipeline_results := Some a;
                            local_execution_plan := Some p |},
                  remember "tool_usage" (Some "coordinate_workflow")
                    (reading c1 (ticks c1)) w1,
                  mkClock (reading c1) (S (ticks c1)))).
  { unfold run_step. cbn [String.eqb Ascii.eqb Bool.eqb andb local_pipeline_results].
    unfold bind at 1. rewrite use_tool_run. unfold bind at 1, get_state.
    change (workflow_settings (agent w1)) with (workflow_settings (agent w)).
    rewrite (coordinate_in_any_state _ a p w1 c1 (Hp c1)). reflexivity. }
  set (w2 := remember "tool_usage" (Some "coordinate_workflow")
               (reading c1 (ticks c1)) w1) in *.
  set (c2 := mkClock (reading c1) (S (ticks c1))) in *.
  (* execute_actions *)
  destruct (run_step_execute emails
              {| local_workflow_result :=
                   set_execution_plan p (set_analysis_results a wr0);
                 local_pipeline_results := Some a;
                 local_execution_plan := Some p |} w2 c2 p eq_refl)
    as (res & w3 & c3 & R3 & _ & T3).
  cbn [local_workflow_result local_pipeline_results local_execution_plan] in R3.
  (* monitor_performance *)
  destruct (run_step_returns emails "monitor_performance"
              {| local_workflow_result :=
                   set_execution_results res
                     (set_execution_plan p (set_analysis_results a wr0));
                 local_pipeline_results := Some a;
                 local_execution_plan := Some p |} w3 c3)
    as (l4 & w4 & c4 & R4 & _ & T4).
  exists l4, w4, c4. unfold bind. rewrite R1, R2, R3, R4. split; [reflexivity|].
  stepped_cases T4; cbn; (split; [reflexivity|]); (split; [reflexivity|]);
    exists res; (split; [reflexivity|exact T3]).
Qed.

(** The four steps, with what they retain. *)
Lemma planned_steps_retained emails wr0 w c :
  execution_plan wr0 = None -> execution_results wr0 = None ->
  exists l' w' c',
    run_steps emails
      [ "run_analysis_pipeline"; "coordinate_workflow";
        "execute_actions"; "monitor_performance" ]
      {| local_workflow_result := wr0; local_pipeline_results := None;
         local_execution_plan := None |} w c
    = (Return l', w', c') /\
    same_setting w w' c c' /\
    tally_retained (local_workflow_result l') /\
    plan_retained (workflow_settings (agent w)) emails (local_workflow_result l').
Proof.
  intros Hplan Hres.
  destruct (planned_steps_run emails wr0 w c Hplan Hres)
    as (l' & w' & c' & Hrun & Hsame & Htally).
  exists l', w', c'. split; [exact Hrun|]. split; [exact Hsame|].
  split; [exact Htally|]. intros a p Ha Hp.
  destruct (planned_steps_plan emails wr0 w c a p Ha Hp)
    as (l2 & w2 & c2 & Hrun2 & Hfacts).
  rewrite Hrun in Hrun2. inversion Hrun2. subst. exact Hfacts.
Qed.

(** *** Recording the workflow and closing the cycle *)

Lemma add_event_run event_type data importance tags self c :
  let event :=
    {| Memory.id := event_type +:+ "_" +:+ reading c (ticks c);
       Memory.timestamp := reading c (S (ticks c));
       Memory.event_type := event_type; Memory.data := data;
       Memory.importance := importance; Memory.tags := tags |} in
  Memory.add_event event_type data importance tags self c =
  match Memory.Db.memory_events (Memory.connection self) !! Memory.id event with
  | Some _ =>
      (Raise (Py.IntegrityError "memory_events.id"), cached event self,
       mkClock (reading c) (S (S (ticks c))))
  | None =>
      (Return (Memory.id event), stored event self,
       mkClock (reading c) (S (S (ticks c))))
  end.
Proof.
  unfold Memory.add_event, Memory.insert_event, stored, cached. run_unfold. simpl.
  destruct (Memory.Db.memory_events (Memory.connection self) !! _); reflexivity.
Qed.

(** [act] on the planned action: the steps always complete; the call
    raises only if the event id drawn from the clock is already a key of
    the event table, and otherwise the workflow event is stored. *)
Lemma act_on_run emails results w c :
  exists (wr : WorkflowResult) (n : nat) (w' : World) (c' : Clock),
    (tally_retained wr /\ plan_retained (workflow_settings (agent w)) emails wr) /\
    reading c' = reading c /\
    name (agent w') = name (agent w) /\
    act_on (comprehensive emails) results w c =
    match Memory.Db.memory_events (Memory.connection (memory w))
            !! Memory.id (workflow_event wr c n) with
    | Some _ =>
        (Raise (Py.IntegrityError "memory_events.id"), w', c')
    | None =>
        (Return (results ++ [workflow_tool_result (name (agent w)) wr]), w', c')
    end /\
    memory w' =
      match Memory.Db.memory_events (Memory.connection (memory w))
              !! Memory.id (workflow_event wr c n) with
      | Some _ => cached (workflow_event wr c n) (memory w)
      | None => stored (workflow_event wr c n) (memory w)
      end.
Proof.
  unfold act_on, comprehensive. cbn [type Agent.emails steps String.eqb Ascii.eqb Bool.eqb andb].
  unfold bind at 1, datetime_now at 1. unfold bind at 1.
  match goal with |- context [run_steps emails ?st ?l0 w ?c0] =>
    destruct (planned_steps_retained emails (local_workflow_result l0) w c0
                eq_refl eq_refl)
      as (l & w1 & c1 & Hrun & (Sm & Sn & Ss & Sp & Sr) & Htally & Hplan) end.
  cbn [local_workflow_result] in Hrun. rewrite Hrun.
  unfold bind at 1, datetime_now at 1.
  unfold bind at 1, on_memory, zoom.
  rewrite add_event_run. cbn [reading ticks] in *.
  exists (set_end_time (reading c1 (ticks c1)) (local_workflow_result l)), (S (ticks c1)).
  unfold workflow_event. rewrite Sm, Sr. cbn [Memory.id].
  destruct (Memory.Db.memory_events (Memory.connection (memory w)) !! _) eqn:Hid.
  - eexists _, _.
    split; [split; [intros p Hp; apply Htally; exact Hp
                   |intros a p Ha Hp; exact (Hplan a p Ha Hp)]|].
    split; [|split; [|split; [reflexivity|]]]; simpl; auto.
  - eexists _, _.
    split; [split; [intros p Hp; apply Htally; exact Hp
                   |intros a p Ha Hp; exact (Hplan a p Ha Hp)]|].
    split; [|split; [|split; [unfold add_emails_processed; run_unfold; cbn;
                              rewrite Sn; reflexivity|]]]; simpl; auto.
Qed.

(** One cycle, by case on the batch that [perceive] fetched and, for a
    non-empty batch, on whether the workflow event id is already taken. *)
Lemma run_cycle_run w c :
  let batch := fetch_recent_emails (batch_size (workflow_settings (agent w))) in
  exists (r : CycleResult) (w' : World) (c' : Clock),
    run_cycle w c = (Return r, w', c') /\ reading c' = reading c /\
    match batch with
    | [] =>
        cycle_planned_actions r = Some [] /\ cycle_results r = Some [] /\
        cycle_error r = None /\ cycle_success r = true /\
        w' = remember "planning" None (reading c (S (S (ticks c))))
               (remember "perception" None (reading c (S (ticks c))) w) /\
        ticks c' = 4 + ticks c
    | _ :: _ =>
        exists (wr : WorkflowResult) (n : nat),
          (tally_retained wr /\
           plan_retained (workflow_settings (agent w)) batch wr) /\
          match Memory.Db.memory_events (Memory.connection (memory w))
                  !! Memory.id (workflow_event wr c n) with
          | Some _ =>
              cycle_results r = None /\ cycle_success r = false /\
              cycle_error r =
                Some ("Agent " +:+ name (agent w) +:+ " cycle failed: "
                      +:+ Py.str (Py.IntegrityError "memory_events.id")) /\
              memory w' = cached (workflow_event wr c n) (memory w)
          | None =>
              cycle_planned_actions r = Some [comprehensive batch] /\
              cycle_results r = Some [workflow_tool_result (name (agent w)) wr] /\
              cycle_error r = None /\ cycle_success r = true /\
              memory w' = stored (workflow_event wr c n) (memory w)
          end
    end.
Proof.
  intros batch. unfold run_cycle, try_except.
  unfold bind at 1, perceive at 1. unfold bind at 1, get_state at 1.
  unfold bind at 1, datetime_now at 1, ret at 1. fold batch.
  cbn [new_emails total_new_emails].
  unfold bind at 1, add_to_short_term at 1. unfold bind at 1, datetime_now at 1, modify at 1.
  unfold think. cbn [new_emails total_new_emails reading ticks].
  unfold bind at 1, add_to_short_term at 1. unfold bind at 1, datetime_now at 1, modify at 1.
  cbn [reading ticks].
  destruct batch as [|mail batch'] eqn:Hbatch.
  - cbn. eexists _, _, _. split; [reflexivity|]. cbn. repeat split.
  - cbn [length Nat.eqb]. fold (comprehensive (mail :: batch')).
    unfold act. cbn [act_loop]. unfold bind at 1. unfold bind at 1.
    match goal with |- context [act_on ?a ?rs ?w0 ?c0] =>
      destruct (act_on_run (mail :: batch') rs w0 c0)
        as (wr & n & w1 & c1 & Htally & Hr & Hn & Hact & Hmem) end.
    cbn [memory agent remember with_agent name reading ticks] in Hact, Hmem, Hr, Hn.
    rewrite Hact.
    destruct (Memory.Db.memory_events (Memory.connection (memory w)) !! _) eqn:Hid.
    + run_unfold. cbn. eexists _, _, _. split; [reflexivity|]. split; [exact Hr|].
      exists wr, n. split; [exact Htally|].
      unfold workflow_event in *. cbn [Memory.id reading] in *. rewrite Hid.
      cbn. rewrite Hn. repeat split. exact Hmem.
    + run_unfold. cbn. eexists _, _, _. split; [reflexivity|]. split; [exact Hr|].
      exists wr, n. split; [exact Htally|].
      unfold workflow_event in *. cbn [Memory.id reading] in *. rewrite Hid.
      cbn. repeat split. exact Hmem.
Qed.

(** C7 (as amended): executing a plan never aborts. Whatever each
    immediate action's executor call does (returns [True], returns [False]
    or raises), [execute_workflow_actions] returns normally with one detail
    record per immediate action, in plan order, carrying that action's own
    outcome ("success", "failed" or "error: ..."), and with the numbers of
    successful and failed actions, which add up to the number of immediate
    actions. The execution step of [act] stores this tally in the workflow
    result. The cycle result retains it when the workflow event id drawn
    from the clock is not yet a key of the event table: its only result is
    then the workflow result of the batch, which carries the tally of the
    plan it holds, and holds the plan (with the analysis results and the
    tally) whenever the analysis of the batch returns and its results can
    be planned. When the id is taken, [add_event] raises after the actions
    ran and the cycle result carries no result at all, hence no tally. *)
Theorem C7_each_immediate_action_is_tallied_on_its_own
    (plan : ExecutionPlan) (emails : list Tools.EmailMessage)
    (wr : WorkflowResult) (pr : option AnalysisResults) (w : World) (c : Clock) :
  (exists res,
     execute_workflow_actions plan w c
     = (Return res, w, mkClock (reading c) (ticks c + length (immediate_actions plan))) /\
     tallies plan res) /\
  (exists res w' c',
     run_step emails "execute_actions"
       {| local_workflow_result := wr; local_pipeline_results := pr;
          local_execution_plan := Some plan |} w c
     = (Return {| local_workflow_result := set_execution_results res wr;
                  local_pipeline_results := pr;
                  local_execution_plan := Some plan |}, w', c') /\
     tallies plan res) /\
  (exists r w' c',
     run_cycle w c = (Return r, w', c') /\
     let batch := fetch_recent_emails (batch_size (workflow_settings (agent w))) in
     match batch with
     | [] => cycle_results r = Some []
     | _ :: _ =>
         exists (wr' : WorkflowResult) (n : nat),
           tally_retained wr' /\
           plan_retained (workflow_settings (agent w)) batch wr' /\
           match Memory.Db.memory_events (Memory.connection (memory w))
                   !! Memory.id (workflow_event wr' c n) with
           | None =>
               cycle_results r = Some [workflow_tool_result (name (agent w)) wr'] /\
               cycle_success r = true
           | Some _ =>
               cycle_results r = None /\ cycle_success r = false
           end
     end).
Proof.
  split; [apply execute_workflow_actions_run|]. split.
  - destruct (run_step_execute emails
                {| local_workflow_result := wr; local_pipeline_results := pr;
                   local_execution_plan := Some plan |} w c plan eq_refl)
      as (res & w' & c' & Hrun & _ & Ht).
    exists res, w', c'. split; [exact Hrun|exact Ht].
  - destruct (run_cycle_run w c) as (r & w' & c' & Hrun & _ & Hcase).
    exists r, w', c'. split; [exact Hrun|]. cbv zeta.
    destruct (fetch_recent_emails _) as [|mail batch].
    + destruct Hcase as (_ & Hr & _). exact Hr.
    + destruct Hcase as (wr1 & n & (Ht & Hp) & Hcase).
      exists wr1, n. split; [exact Ht|]. split; [exact Hp|].
      destruct (Memory.Db.memory_events _ !! _).
      * destruct Hcase as (Hr & Hs & _). auto.
      * destruct Hcase as (_ & Hr & _ & Hs & _). auto.
Qed.

(** C4 (as amended): when the batch [perceive] fetched is empty, the cycle returns
    normally with no planned action, an empty list of results, no error and
    [success = True]. It ends at once: only the perception and the planning
    were noted in the agent's short-term memory, no tool ran, the clock was
    read four times, and the persistent memory is as it was (no workflow
    event is written on this path). *)
Theorem C4_an_empty_batch_ends_the_cycle_successfully (w : World) (c : Clock) :
  fetch_recent_emails (batch_size (workflow_settings (agent w))) = [] ->
  exists (r : CycleResult) (w' : World) (c' : Clock),
    run_cycle w c = (Return r, w', c') /\
    think {| new_emails := []; total_new_emails := 0;
             perceived_at := reading c (ticks c) |} = [] /\
    cycle_planned_actions r = Some [] /\
    cycle_results r = Some [] /\
    cycle_error r = None /\
    cycle_success r = true /\
    w' = remember "planning" None (reading c (S (S (ticks c))))
           (remember "perception" None (reading c (S (ticks c))) w) /\
    memory w' = memory w /\
    ticks c' = 4 + ticks c.
Proof.
  intros Hempty.
  destruct (run_cycle_run w c) as (r & w' & c' & Hrun & _ & Hcase).
  rewrite Hempty in Hcase. destruct Hcase as (Hp & Hr & He & Hs & Hw & Ht).
  exists r, w', c'. repeat split; try assumption. subst w'. reflexivity.
Qed.

(** C2 (as amended): on a non-empty batch the cycle returns, whatever the
    three analysis branches do (return or raise, all three raising
    included), and what it reports depends only on the one workflow event
    id it draws from the clock. When that id is not yet a key of the event
    table, the result has [success = True] and no error, its only result
    is the successful workflow result, and the workflow event carrying
    that result is stored in the event table (and cached) under the id.
    When the id is already taken, [add_event] raises: the result has
    [success = False] and the error, and the event is in the cache only. *)
Theorem C2_the_cycle_succeeds_whatever_the_branches_do (w : World) (c : Clock) :
  fetch_recent_emails (batch_size (workflow_settings (agent w))) <> [] ->
  exists (r : CycleResult) (w' : World) (c' : Clock) (wr : WorkflowResult) (n : nat),
    run_cycle w c = (Return r, w', c') /\
    Memory.id (workflow_event wr c n) = "workflow_execution" +:+ "_" +:+ reading c n /\
    Memory.event_type (workflow_event wr c n) = "workflow_execution" /\
    Memory.workflow_result (Memory.data (workflow_event wr c n)) = Some wr /\
    match Memory.Db.memory_events (Memory.connection (memory w))
            !! Memory.id (workflow_event wr c n) with
    | None =>
        cycle_success r = true /\
        cycle_error r = None /\
        cycle_results r = Some [workflow_tool_result (name (agent w)) wr] /\
        memory w' = stored (workflow_event wr c n) (memory w) /\
        Memory.Db.memory_events (Memory.connection (memory w'))
          !! Memory.id (workflow_event wr c n) = Some (workflow_event wr c n)
    | Some _ =>
        cycle_success r = false /\
        cycle_results r = None /\
        cycle_error r =
          Some ("Agent " +:+ name (agent w) +:+ " cycle failed: "
                +:+ Py.str (Py.IntegrityError "memory_events.id")) /\
        memory w' = cached (workflow_event wr c n) (memory w)
    end.
Proof.
  intros Hbatch.
  destruct (run_cycle_run w c) as (r & w' & c' & Hrun & _ & Hcase).
  destruct (fetch_recent_emails _) as [|mail batch]; [contradiction|].
  destruct Hcase as (wr & n & _ & Hcase).
  exists r, w', c', wr, n.
  split; [exact Hrun|]. split; [reflexivity|]. split; [reflexivity|].
  split; [reflexivity|].
  destruct (Memory.Db.memory_events (Memory.connection (memory w))
              !! Memory.id (workflow_event wr c n)) as [taken|].
  - destruct Hcase as (Hr & Hs & He & Hm). auto.
  - destruct Hcase as (_ & Hr & He & Hs & Hm). repeat split; try assumption.
    rewrite Hm. unfold stored, Memory.with_connection. cbn. apply lookup_insert_eq.
Qed.

End ExecutionFacts.

(** ** Concrete cycles *)

Section ConcreteCycles.
Import Agent.

(** C2 (as stated, refuted): with all three analysis branches raising, the
    cycle still returns [success = True] (not [False]); the workflow event
    is stored. *)
Lemma C2_all_branches_fail_and_the_cycle_reports_success :
  @_run_classification_batch all_branches_fail [one_mail] = Raise (unreachable "classifier") /\
  @_run_organization_analysis all_branches_fail [one_mail] = Raise (unreachable "organizer") /\
  @_run_response_generation all_branches_fail [one_mail] = Raise (unreachable "responder") /\
  exists r w' c',
    @run_cycle all_branches_fail new_world noon = (Return r, w', c') /\
    cycle_success r = true /\ cycle_success r <> false /\
    Memory.event_type
      <$> Memory.Db.memory_events (Memory.connection (memory w'))
            !! "workflow_execution_20240101_120000_9"
    = Some "workflow_execution".
Proof.
  repeat split.
  eexists _, _, _. split; [vm_compute; reflexivity|].
  repeat split. discriminate.
Qed.

Lemma C2_the_cycle_succeeds_whatever_the_branches_do_witness :
  @fetch_recent_emails all_branches_fail
    (batch_size (workflow_settings (agent new_world))) <> [] /\
  exists r w' c',
    @run_cycle all_branches_fail new_world noon = (Return r, w', c') /\
    cycle_success r = true.
Proof.
  assert (H1 : @fetch_recent_emails all_branches_fail
                 (batch_size (workflow_settings (agent new_world))) <> [])
    by discriminate.
  split; [exact H1|].
  destruct (@C2_the_cycle_succeeds_whatever_the_branches_do all_branches_fail
              new_world noon H1) as (r & w' & c' & wr & n & Hrun & _ & _ & _ & Hcase).
  change (Memory.Db.memory_events (Memory.connection (memory new_world)))
    with (∅ : gmap string Memory.MemoryEvent) in Hcase.
  rewrite lookup_empty in Hcase. destruct Hcase as (Hs & _).
  exists r, w', c'. split; [exact Hrun|exact Hs].
Defined.

(** The next cycle, from the state and the clock the first one left: it
    draws another id, and succeeds too; both workflow events are stored. *)
Example two_cycles_in_a_row_both_succeed :
  let first := @run_cycle all_branches_fail new_world noon in
  let second := @run_cycle all_branches_fail (state_of first) (clock_of first) in
  exists r1 r2,
    result_of first = Return r1 /\ cycle_success r1 = true /\
    result_of second = Return r2 /\ cycle_success r2 = true /\
    map Memory.id (Memory.recent_events (memory (state_of second)))
    = [ "workflow_execution_20240101_120000_9";
        "workflow_execution_20240101_120000_21" ].
Proof. eexists _, _. vm_compute. repeat split. Qed.

Lemma C4_an_empty_batch_ends_the_cycle_successfully_witness :
  @fetch_recent_emails empty_inbox
    (batch_size (workflow_settings (agent new_world))) = [] /\
  exists r w' c',
    @run_cycle empty_inbox new_world noon = (Return r, w', c') /\
    cycle_results r = Some [] /\ cycle_success r = true /\
    memory w' = memory new_world.
Proof.
  split; [reflexivity|].
  destruct (@C4_an_empty_batch_ends_the_cycle_successfully empty_inbox
              new_world noon eq_refl)
    as (r & w' & c' & Hrun & _ & _ & Hr & _ & Hs & _ & Hm & _).
  exists r, w', c'. auto.
Defined.

(** C4 (as stated, refuted): on an empty batch the cycle produces no
    WorkflowExecution, empty or not: it plans no action, its list of
    results is empty, and no workflow event is built, cached or stored. *)
Lemma C4_an_empty_batch_builds_no_workflow_execution :
  @fetch_recent_emails empty_inbox
    (batch_size (workflow_settings (agent new_world))) = [] /\
  exists r w' c',
    @run_cycle empty_inbox new_world noon = (Return r, w', c') /\
    cycle_success r = true /\
    cycle_planned_actions r = Some [] /\
    cycle_results r = Some [] /\
    Memory.recent_events (memory w') = [] /\
    Memory.Db.memory_events (Memory.connection (memory w')) = ∅.
Proof.
  split; [reflexivity|]. eexists _, _, _. split; [vm_compute; reflexivity|].
  repeat split.
Qed.

(** C7 (as stated, refuted): the tally is not always retained in the cycle
    result. Two actions ran, one succeeded and one failed, and they were
    tallied (the tally is in the workflow event left in the cache); but the
    id drawn for that event was taken, [add_event] raised, and the cycle
    result carries the error and no result, hence no tally. *)
Lemma C7_a_taken_id_loses_the_tally :
  exists r w' c',
    @run_cycle two_actions id_taken_world noon = (Return r, w', c') /\
    cycle_results r = None /\
    cycle_success r = false /\
    cycle_error r
    = Some ("Agent EmailMasterAgent cycle failed: "
            +:+ "UNIQUE constraint failed: memory_events.id") /\
    map short_tool (short_term (agent w'))
    = [ None; None; Some "run_analysis_pipeline"; Some "coordinate_workflow";
        Some "execute_actions"; Some "monitor_performance" ] /\
    exists event wr res,
      last (Memory.recent_events (memory w')) = Some event /\
      Memory.id event = "workflow_execution_20240101_120000_11" /\
      Memory.workflow_result (Memory.data event) = Some wr /\
      execution_results wr = Some res /\
      successful_actions res = 1%Z /\ failed_actions res = 1%Z.
Proof.
  eexists _, _, _. split; [vm_compute; reflexivity|].
  repeat split. eexists _, _, _. repeat split.
Qed.

(** From a new world, where no id is taken, the cycle over two actions
    returns the workflow result with their plan and its tally: one action
    succeeded, one failed. *)
Lemma C7_each_immediate_action_is_tallied_on_its_own_witness :
  exists r w' c' wr res,
    @run_cycle two_actions new_world noon = (Return r, w', c') /\
    cycle_results r = Some [workflow_tool_result "EmailMasterAgent" wr] /\
    execution_plan wr
    = Some {| immediate_actions :=
                [ apply_classification "m1" "work" 0.9;
                  apply_organization "apply_label" "m1" 0.7 ];
              user_approval_needed := [];
              scheduled_actions := [];
              completed_actions := [] |} /\
    execution_results wr = Some res /\
    successful_actions res = 1%Z /\ failed_actions res = 1%Z.
Proof.
  destruct (@C7_each_immediate_action_is_tallied_on_its_own two_actions
              empty_plan []
              {| workflow_type := "comprehensive_email_processing";
                 emails_processed := 0; start_time := "20240101_120000_0";
                 analysis_results := None; execution_plan := None;
                 execution_results := None; performance_report := None;
                 end_time := None |}
              None new_world noon)
    as (_ & _ & (r & w' & c' & Hrun & Hcase)).
  cbv zeta in Hcase.
  change (@fetch_recent_emails two_actions
            (batch_size (workflow_settings (agent new_world))))
    with [one_mail] in Hcase.
  destruct Hcase as (wr & n & _ & Hplan & Hcase).
  change (Memory.Db.memory_events (Memory.connection (memory new_world)))
    with (∅ : gmap string Memory.MemoryEvent) in Hcase.
  rewrite lookup_empty in Hcase. destruct Hcase as (Hres & _).
  destruct (Hplan
              {| total_emails := 1;
                 classification_results :=
                   items [Classification.mk (Some "m1") (Some "work") (Some 0.9%float)];
                 organization_suggestions :=
                   items [Suggestion.mk (Some "apply_label") (Some "m1") (Some "work")
                            (Some 0.7%float)];
                 response_candidates := items [] |}
              {| immediate_actions :=
                   [ apply_classification "m1" "work" 0.9;
                     apply_organization "apply_label" "m1" 0.7 ];
                 user_approval_needed := [];
                 scheduled_actions := [];
                 completed_actions := [] |}
              eq_refl (fun c0 => eq_refl))
    as (_ & Hp & res & Hr & _ & _ & Hs & Hf & _).
  exists r, w', c', wr, res.
  split; [exact Hrun|]. split; [exact Hres|]. split; [exact Hp|].
  split; [exact Hr|]. split; [exact Hs|exact Hf].
Defined.

(** The same cycle, evaluated: the tally of the two actions is in the cycle
    result. *)
Example two_actions_tally_in_the_cycle_result :
  exists r w' c' tr wr res,
    @run_cycle two_actions new_world noon = (Return r, w', c') /\
    cycle_success r = true /\
    cycle_results r = Some [tr] /\
    result tr = Some wr /\
    execution_results wr = Some res /\
    successful_actions res = 1%Z /\ failed_actions res = 1%Z /\
    map detail_result (action_details res) = ["success"; "error: 'value'"].
Proof.
  eexists _, _, _, _, _, _. split; [vm_compute; reflexivity|].
  repeat split.
Qed.

(** Four immediate actions against the mailbox tools of the source: the
    label of a classification is applied, an ["apply_label"] organization
    action raises [KeyError('value')], an unknown organization action
    returns [False], a response is "sent"; all four are tallied. *)
Example four_actions_two_failures :
  result_of
    (@execute_workflow_actions all_branches_fail unit
       {| immediate_actions :=
            [ apply_classification "m1" "work" 0.9;
              apply_organization "apply_label" "m1" 0.7;
              apply_organization "move" "m1" 0.7;
              send_response "m1" "Thank you." ];
          user_approval_needed := []; scheduled_actions := [];
          completed_actions := [] |} tt noon)
  = Return
      {| successful_actions := 2;
         failed_actions := 2;
         action_details :=
           [ {| detail_action := apply_classification "m1" "work" 0.9;
                detail_result := "success";
                detail_timestamp := "20240101_120000_0" |};
             {| detail_action := apply_organization "apply_label" "m1" 0.7;
                detail_result := "error: 'value'";
                detail_timestamp := "20240101_120000_1" |};
             {| detail_action := apply_organization "move" "m1" 0.7;
                detail_result := "failed";
                detail_timestamp := "20240101_120000_2" |};
             {| detail_action := send_response "m1" "Thank you.";
                detail_result := "success";
                detail_timestamp := "20240101_120000_3" |} ] |}.
Proof. vm_compute. reflexivity. Qed.

End ConcreteCycles.

(** * Further properties *)

(** ** Relations kept by a method *)

Section KeepsFacts.
Context {St : Type} (R : St -> St -> Prop).
Hypothesis R_refl : forall s, R s s.
Hypothesis R_trans : forall s1 s2 s3, R s1 s2 -> R s2 s3 -> R s1 s3.

Lemma keeps_ret {A : Type} (a : A) : keeps R (@ret St A a).
Proof. intros s c. apply R_refl. Qed.

Lemma keeps_raise {A : Type} (e : Py.exn) : keeps R (@raise St A e).
Proof. intros s c. apply R_refl. Qed.

Lemma keeps_now : keeps R (@datetime_now St).
Proof. intros s c. apply R_refl. Qed.

Lemma keeps_get_state : keeps R (@get_state St).
Proof. intros s c. apply R_refl. Qed.

Lemma keeps_modify (f : St -> St) : (forall s, R s (f s)) -> keeps R (modify f).
Proof. intros H s c. apply H. Qed.

Lemma keeps_bind {A B : Type} (m : Run St A) (k : A -> Run St B) :
  keeps R m -> (forall a, keeps R (k a)) -> keeps R (bind m k).
Proof.
  intros Hm Hk s c. unfold bind, state_of. specialize (Hm s c). unfold state_of in Hm.
  destruct (m s c) as [[[a|e] s1] c1]; simpl in *; [|exact Hm].
  eapply R_trans; [exact Hm|]. apply (Hk a s1 c1).
Qed.

Lemma keeps_for_each {A : Type} (l : list A) (body : A -> Run St unit) :
  (forall x, keeps R (body x)) -> keeps R (for_each l body).
Proof.
  intros Hb. induction l as [|x l IH]; simpl.
  - apply keeps_ret.
  - apply keeps_bind; [apply Hb | intros _; exact IH].
Qed.

End KeepsFacts.

(** ** More on the preference store *)

Section LearningFacts.
Import Memory.

(** The state [_update_preference] leaves, in full. *)
Lemma update_preference_run category preference_key value event boost self c :
  let pref := merged category preference_key value event boost
                (reading c (ticks c)) self in
  _update_preference category preference_key value event boost self c =
  (Return tt,
   {| connection :=
        Db.mk (Db.memory_events (connection self))
          (<[(category, preference_key) :=
               {| category := category; preference_key := preference_key;
                  preference_value := value; confidence := confidence pref;
                  learned_from := learned_from pref;
                  last_updated := last_updated pref |}]>
             (Db.user_preferences (connection self)))
          (Db.user_feedback (connection self));
      recent_events := recent_events self;
      user_preferences :=
        <[category +:+ "." +:+ preference_key := pref]> (user_preferences self) |},
   mkClock (reading c) (S (ticks c))).
Proof. reflexivity. Qed.

Lemma entry_grows_refl p : entry_grows p p.
Proof. unfold entry_grows. repeat split. exists []. now rewrite app_nil_r. Qed.

Lemma only_learns_refl self : only_learns self self.
Proof.
  unfold only_learns. repeat split. intros k p H. exists p.
  split; [exact H|apply entry_grows_refl].
Qed.

Lemma only_learns_trans s1 s2 s3 :
  only_learns s1 s2 -> only_learns s2 s3 -> only_learns s1 s3.
Proof.
  unfold only_learns, entry_grows.
  intros (E1 & D1 & P1) (E2 & D2 & P2). repeat split; try congruence.
  intros k p H. destruct (P1 k p H) as (p' & H' & C1 & K1 & m1 & L1).
  destruct (P2 k p' H') as (p'' & H'' & C2 & K2 & m2 & L2).
  exists p''. repeat split; try congruence.
  exists (m1 ++ m2). rewrite L2, L1. now rewrite app_assoc.
Qed.

Lemma update_preference_only_learns category preference_key value event boost :
  keeps only_learns (_update_preference category preference_key value event boost).
Proof.
  intros self c. rewrite update_preference_run. unfold state_of. cbn.
  unfold only_learns. cbn. repeat split.
  intros k p H.
  destruct (decide (k = category +:+ "." +:+ preference_key)) as [->|Hne].
  - rewrite lookup_insert_eq. eexists. split; [reflexivity|].
    unfold merged. rewrite H. unfold entry_grows, updated. cbn.
    repeat split. now exists [event].
  - rewrite lookup_insert_ne by congruence. exists p.
    split; [exact H|apply entry_grows_refl].
Qed.

(** X1: reading back what an update stored: [get_preference] on the updated
    key returns the new value (not a blend with the old one) and the
    clamped confidence, and on every other key it returns what it returned
    before. *)
Theorem get_preference_after_update
    (category preference_key : string) (value : PreferenceValue) (event : string)
    (boost : float) (dflt : option PreferenceValue)
    (self : PersistentMemory) (c : Clock) :
  let after := state_of (_update_preference category preference_key value event
                           boost self c) in
  get_preference category preference_key dflt after
  = (Some value,
     match user_preferences self !! (category +:+ "." +:+ preference_key) with
     | Some pref => Py.min 1.0 (confidence pref + boost)
     | None => Py.max 0.0 (0.5 + boost)
     end) /\
  forall category' preference_key',
    category' +:+ "." +:+ preference_key' <> category +:+ "." +:+ preference_key ->
    get_preference category' preference_key' dflt after
    = get_preference category' preference_key' dflt self.
Proof.
  cbv zeta. rewrite update_preference_run. unfold state_of, get_preference. cbn.
  split.
  - rewrite lookup_insert_eq. unfold merged.
    destruct (user_preferences self !! _); reflexivity.
  - intros category' preference_key' Hne. rewrite lookup_insert_ne by congruence.
    reflexivity.
Qed.

(** X2: the row an update writes to the preference table carries the value,
    confidence, provenance and time of the in-memory entry, and the
    provenance of that entry is the old one with the event id appended (or
    just the event id, for a new key). *)
Theorem update_writes_its_entry_to_the_table
    (category preference_key : string) (value : PreferenceValue) (event : string)
    (boost : float) (self : PersistentMemory) (c : Clock) :
  let after := state_of (_update_preference category preference_key value event
                           boost self c) in
  exists entry row,
    user_preferences after !! (category +:+ "." +:+ preference_key) = Some entry /\
    Db.user_preferences (connection after) !! (category, preference_key) = Some row /\
    preference_value row = preference_value entry /\
    confidence row = confidence entry /\
    learned_from row = learned_from entry /\
    last_updated row = last_updated entry /\
    learned_from entry
    = default [] (learned_from <$> user_preferences self
                                     !! (category +:+ "." +:+ preference_key))
      ++ [event].
Proof.
  cbv zeta. rewrite update_preference_run. unfold state_of. cbn.
  eexists _, _. rewrite !lookup_insert_eq. split; [reflexivity|]. split; [reflexivity|].
  cbn. unfold merged.
  destruct (user_preferences self !! _); cbn; repeat split; reflexivity.
Qed.

Lemma add_user_feedback_run event_id feedback_type feedback_value self c :
  add_user_feedback event_id feedback_type feedback_value self c =
  match Db.user_feedback (connection self)
          !! FeedbackRow.feedback_id (new_feedback event_id feedback_type feedback_value c)
  with
  | Some _ =>
      (Raise (Py.IntegrityError "user_feedback.feedback_id"), self,
       mkClock (reading c) (S (S (ticks c))))
  | None =>
      _learn_from_feedback event_id feedback_type feedback_value
        (recorded (new_feedback event_id feedback_type feedback_value c) self)
        (mkClock (reading c) (S (S (ticks c))))
  end.
Proof.
  unfold add_user_feedback, insert_feedback, new_feedback, recorded. run_unfold. cbn.
  destruct (Db.user_feedback (connection self) !! _); reflexivity.
Qed.

Lemma recorded_only_learns row self : only_learns self (recorded row self).
Proof.
  unfold only_learns, recorded. cbn. repeat split.
  intros k p H. exists p. split; [exact H|apply entry_grows_refl].
Qed.

Ltac keeps_only_learns :=
  repeat first
    [ apply update_preference_only_learns
    | apply (keeps_for_each only_learns only_learns_refl only_learns_trans); intros ?
    | apply (keeps_bind only_learns only_learns_trans); [|intros ?]
    | apply (keeps_ret only_learns only_learns_refl)
    | apply (keeps_get_state only_learns only_learns_refl)
    | match goal with |- keeps _ (if ?b then _ else _) => destruct b end
    | match goal with |- keeps _ (match ?o with Some _ => _ | None => _ end) =>
        destruct o end ].

Lemma learn_from_feedback_only_learns event_id feedback_type feedback_value :
  keeps only_learns (_learn_from_feedback event_id feedback_type feedback_value).
Proof.
  unfold _learn_from_feedback.
  apply (keeps_bind only_learns only_learns_trans);
    [apply (keeps_get_state only_learns only_learns_refl)|]. intros self.
  destruct (get_event event_id self) as [event|];
    [|apply (keeps_ret only_learns only_learns_refl)].
  unfold _update_classification_preference, _update_response_preference,
    _update_organization_preference, _update_priority_preference.
  keeps_only_learns.
Qed.

(** X3: feedback only adds to what was learned: whatever the feedback and
    whether or not the call raises, no preference entry is deleted, an
    entry keeps its category and key, its provenance is only appended to,
    and the cached and stored events are untouched. *)
Theorem feedback_never_forgets
    (event_id feedback_type : string) (feedback_value : FeedbackValue)
    (self : PersistentMemory) (c : Clock) :
  only_learns self
    (state_of (add_user_feedback event_id feedback_type feedback_value self c)).
Proof.
  rewrite add_user_feedback_run.
  destruct (Db.user_feedback (connection self) !! _).
  - apply only_learns_refl.
  - eapply only_learns_trans; [apply recorded_only_learns|].
    apply learn_from_feedback_only_learns.
Qed.

Lemma always_returns_ret {St : Type} : always_returns (@ret St unit tt).
Proof. intros s c. reflexivity. Qed.

Lemma always_returns_bind {St : Type} (m k : Run St unit) :
  always_returns m -> always_returns k -> always_returns (bind m (fun _ => k)).
Proof.
  intros Hm Hk s c. unfold bind, result_of. specialize (Hm s c). unfold result_of in Hm.
  destruct (m s c) as [[[[]|e] s1] c1]; simpl in *; [apply Hk|discriminate].
Qed.

Lemma always_returns_for_each {St A : Type} (l : list A) (body : A -> Run St unit) :
  (forall x, always_returns (body x)) -> always_returns (for_each l body).
Proof.
  intros Hb. induction l as [|x l IH]; simpl.
  - apply always_returns_ret.
  - apply always_returns_bind; [apply Hb|exact IH].
Qed.

Lemma update_preference_returns category preference_key value event boost :
  always_returns (_update_preference category preference_key value event boost).
Proof. intros s c. reflexivity. Qed.

(** X4: feedback of a kind other than the four the learner knows is accepted
    and stored like any other, and teaches nothing: the preferences, in
    memory and in the table, are as before. *)
Theorem unknown_feedback_kind_teaches_nothing
    (event_id feedback_type : string) (feedback_value : FeedbackValue)
    (self : PersistentMemory) (c : Clock) :
  feedback_type <> "classification_correction" ->
  feedback_type <> "response_approval" ->
  feedback_type <> "organization_preference" ->
  feedback_type <> "priority_adjustment" ->
  let out := add_user_feedback event_id feedback_type feedback_value self c in
  let row := new_feedback event_id feedback_type feedback_value c in
  user_preferences (state_of out) = user_preferences self /\
  Db.user_preferences (connection (state_of out))
  = Db.user_preferences (connection self) /\
  (Db.user_feedback (connection self) !! FeedbackRow.feedback_id row = None ->
   result_of out = Return tt /\ state_of out = recorded row self).
Proof.
  intros H1 H2 H3 H4. cbv zeta. rewrite add_user_feedback_run.
  destruct (Db.user_feedback (connection self) !! _) eqn:Hid.
  - repeat split; discriminate.
  - unfold _learn_from_feedback. run_unfold.
    destruct (get_event event_id _); [|repeat split].
    destruct (String.eqb_spec feedback_type "classification_correction"); [contradiction|].
    destruct (String.eqb_spec feedback_type "response_approval"); [contradiction|].
    destruct (String.eqb_spec feedback_type "organization_preference"); [contradiction|].
    destruct (String.eqb_spec feedback_type "priority_adjustment"); [contradiction|].
    repeat split.
Qed.

(** On a known event, with a payload that a classification correction
    would learn from: under the kind ["thumbs_up"] nothing is learnt. *)
Lemma unknown_feedback_kind_teaches_nothing_witness :
  "thumbs_up" <> "classification_correction" /\
  "thumbs_up" <> "response_approval" /\
  "thumbs_up" <> "organization_preference" /\
  "thumbs_up" <> "priority_adjustment" /\
  get_event "e1" one_event_memory = Some invoice_event /\
  user_preferences
    (state_of (add_user_feedback "e1" "thumbs_up" correction one_event_memory noon))
  = user_preferences one_event_memory /\
  result_of (add_user_feedback "e1" "thumbs_up" correction one_event_memory noon)
  = Return tt.
Proof.
  assert (H1 : "thumbs_up" <> "classification_correction") by discriminate.
  assert (H2 : "thumbs_up" <> "response_approval") by discriminate.
  assert (H3 : "thumbs_up" <> "organization_preference") by discriminate.
  assert (H4 : "thumbs_up" <> "priority_adjustment") by discriminate.
  split; [exact H1|]. split; [exact H2|]. split; [exact H3|]. split; [exact H4|].
  split; [reflexivity|].
  destruct (unknown_feedback_kind_teaches_nothing "e1" "thumbs_up" correction
              one_event_memory noon H1 H2 H3 H4) as (Hprefs & _ & Hrow).
  split; [exact Hprefs|]. exact (proj1 (Hrow eq_refl)).
Defined.

(** X5: a priority adjustment that moves the priority by at most 1 teaches
    nothing: the feedback is stored, the preferences are as before. *)
Theorem small_priority_adjustment_teaches_nothing
    (event_id : string) (feedback_value : FeedbackValue) (event : MemoryEvent)
    (self : PersistentMemory) (c : Clock) :
  get_event event_id self = Some event ->
  (Z.abs (Py.get (calculated_priority (data event)) 0
          - Py.get (correct_priority feedback_value) 0) <= 1)%Z ->
  let out := add_user_feedback event_id "priority_adjustment" feedback_value self c in
  user_preferences (state_of out) = user_preferences self /\
  Db.user_preferences (connection (state_of out))
  = Db.user_preferences (connection self).
Proof.
  intros Hev Habs. cbv zeta. rewrite add_user_feedback_run.
  destruct (Db.user_feedback (connection self) !! _) eqn:Hid; [split; reflexivity|].
  unfold _learn_from_feedback. run_unfold.
  rewrite (get_event_same self (recorded _ self) event_id) by reflexivity.
  rewrite Hev. cbn [String.eqb Ascii.eqb Bool.eqb andb].
  unfold _update_priority_preference.
  replace (1 <? Z.abs _)%Z with false by (symmetry; apply Z.ltb_ge; exact Habs).
  rewrite andb_false_r. split; reflexivity.
Qed.

Lemma small_priority_adjustment_teaches_nothing_witness :
  get_event "e1" one_event_memory = Some invoice_event /\
  user_preferences
    (state_of (add_user_feedback "e1" "priority_adjustment" priority_six
                 one_event_memory noon))
  = user_preferences one_event_memory.
Proof.
  split; [reflexivity|].
  exact (proj1 (small_priority_adjustment_teaches_nothing "e1" priority_six
                  invoice_event one_event_memory noon eq_refl
                  ltac:(vm_compute; discriminate))).
Defined.

Lemma update_preference_learned category preference_key value event boost self c :
  learned (category +:+ "." +:+ preference_key) value event
    (state_of (_update_preference category preference_key value event boost self c)).
Proof.
  rewrite update_preference_run. unfold state_of, learned. cbn.
  rewrite lookup_insert_eq. eexists. split; [reflexivity|]. unfold merged.
  destruct (user_preferences self !! _) as [p|]; cbn.
  - split; [reflexivity|]. now exists (learned_from p).
  - split; [reflexivity|]. now exists [].
Qed.

(** A later update with the same value and event does not undo it. *)
Lemma update_preference_keeps_learned full_key category preference_key value event boost :
  keeps (fun s s' => learned full_key value event s -> learned full_key value event s')
    (_update_preference category preference_key value event boost).
Proof.
  intros self c H.
  destruct (decide (full_key = category +:+ "." +:+ preference_key)) as [->|Hne].
  - apply update_preference_learned.
  - rewrite update_preference_run. unfold state_of, learned in *. cbn.
    rewrite lookup_insert_ne by congruence. exact H.
Qed.

Lemma keyword_loop_learns (keywords : list string) value event keyword self c :
  In keyword keywords ->
  learned ("classification" +:+ "." +:+ "keyword_category_" +:+ keyword) value event
    (state_of
       (for_each keywords (fun keyword =>
          _update_preference "classification" ("keyword_category_" +:+ keyword)
            value event 0.2) self c)).
Proof.
  revert self c. induction keywords as [|k ks IH]; intros self c Hin; [contradiction|].
  cbn [for_each]. unfold bind.
  pose proof (update_preference_returns "classification" ("keyword_category_" +:+ k)
                value event 0.2 self c) as Hret.
  pose proof (update_preference_learned "classification" ("keyword_category_" +:+ k)
                value event 0.2 self c) as Hl.
  unfold result_of, state_of in Hret, Hl.
  destruct (_update_preference _ _ _ _ _ self c) as [[r s1] c1]. cbn in *. subst r.
  destruct (in_dec string_dec keyword ks) as [Hks|Hks].
  - apply IH. exact Hks.
  - destruct Hin as [->|Hin]; [|contradiction].
    refine (keeps_for_each
              (fun s s' => learned _ value event s -> learned _ value event s')
              _ _ ks _ _ s1 c1 Hl); auto.
    intros x. apply update_preference_keeps_learned.
Qed.

(** X6: a classification correction reaches every keyword of the source event:
    when the event carries a classification and the feedback a corrected
    category, the call returns and, for each keyword of the event (and for
    its sender, if it has one), the preference of that keyword holds the
    corrected category with the event as the last id of its provenance. *)
Theorem correction_teaches_every_keyword
    (event_id corrected : string) (feedback_value : FeedbackValue)
    (event : MemoryEvent) (self : PersistentMemory) (c : Clock) :
  get_event event_id self = Some event ->
  Py.truthy_opt (classification_result (data event)) = true ->
  correct_category feedback_value = Some corrected ->
  Py.truthy corrected = true ->
  Db.user_feedback (connection self) !! ("feedback_" +:+ reading c (ticks c)) = None ->
  let out := add_user_feedback event_id "classification_correction"
               feedback_value self c in
  result_of out = Return tt /\
  (forall keyword, In keyword (Py.get (email_keywords (data event)) []) ->
     learned ("classification" +:+ "." +:+ "keyword_category_" +:+ keyword)
       (str_value corrected) (id event) (state_of out)) /\
  (forall sender, email_sender (data event) = Some sender -> Py.truthy sender = true ->
     learned ("classification" +:+ "." +:+ "sender_category_" +:+ sender)
       (str_value corrected) (id event) (state_of out)).
Proof.
  intros Hev Horig Hcorr Htruthy Hfresh.
  set (s0 := recorded (new_feedback event_id "classification_correction"
                         feedback_value c) self).
  set (c0 := mkClock (reading c) (S (S (ticks c)))).
  set (keywords := Py.get (email_keywords (data event)) []).
  set (sender := Py.get (email_sender (data event)) "").
  set (first_update :=
         if Py.truthy sender then
           _update_preference "classification" ("sender_category_" +:+ sender)
             (str_value corrected) (id event) 0.3
         else ret tt).
  set (loop := for_each keywords (fun keyword =>
         _update_preference "classification" ("keyword_category_" +:+ keyword)
           (str_value corrected) (id event) 0.2)).
  assert (Hrun : add_user_feedback event_id "classification_correction"
                   feedback_value self c
                 = bind first_update (fun _ => loop) s0 c0).
  { rewrite add_user_feedback_run.
    unfold new_feedback at 1. cbn [FeedbackRow.feedback_id]. rewrite Hfresh.
    unfold _learn_from_feedback. unfold bind at 1, get_state at 1.
    rewrite (get_event_same self (recorded _ self) event_id) by reflexivity.
    rewrite Hev. cbn [String.eqb Ascii.eqb Bool.eqb andb].
    unfold _update_classification_preference. rewrite Hcorr, Horig, Htruthy.
    reflexivity. }
  cbv zeta. rewrite Hrun. clear Hrun.
  assert (Hfirst : always_returns first_update).
  { unfold first_update. destruct (Py.truthy sender);
      [apply update_preference_returns|apply always_returns_ret]. }
  assert (Hloop : always_returns loop).
  { apply always_returns_for_each. intros x. apply update_preference_returns. }
  split; [|split].
  - apply always_returns_bind; assumption.
  - intros keyword Hin. unfold bind.
    specialize (Hfirst s0 c0). unfold result_of in Hfirst.
    destruct (first_update s0 c0) as [[r1 s1] c1]. cbn in Hfirst. subst r1.
    now apply keyword_loop_learns.
  - intros sender' Hsender Hs.
    assert (Es : sender = sender') by (unfold sender; now rewrite Hsender).
    unfold bind, first_update. rewrite Es, Hs.
    pose proof (update_preference_learned "classification"
                  ("sender_category_" +:+ sender')
                  (str_value corrected) (id event) 0.3 s0 c0) as Hl.
    pose proof (update_preference_returns "classification"
                  ("sender_category_" +:+ sender')
                  (str_value corrected) (id event) 0.3 s0 c0) as Hr.
    unfold state_of, result_of in Hl, Hr.
    destruct (_update_preference _ _ _ _ _ s0 c0) as [[r1 s1] c1]. cbn in *. subst r1.
    refine (keeps_for_each
              (fun s s' => learned _ (str_value corrected) (id event) s ->
                           learned _ (str_value corrected) (id event) s')
              _ _ keywords _ _ s1 c1 Hl); auto.
    intros x. apply update_preference_keeps_learned.
Qed.

Lemma correction_teaches_every_keyword_witness :
  get_event "e1" one_event_memory = Some invoice_event /\
  learned ("classification" +:+ "." +:+ "keyword_category_" +:+ "payment")
    (str_value "work") (id invoice_event)
    (state_of (add_user_feedback "e1" "classification_correction" correction
                 one_event_memory noon)).
Proof.
  split; [reflexivity|].
  refine (proj1 (proj2 (correction_teaches_every_keyword "e1" "work" correction
                          invoice_event one_event_memory noon
                          eq_refl eq_refl eq_refl eq_refl eq_refl)) "payment" _).
  cbn. auto.
Defined.

Lemma find_snoc_fresh {A : Type} (f : A -> bool) (l : list A) (x : A) :
  (forall y, In y l -> f y = false) -> f x = true -> find f (l ++ [x]) = Some x.
Proof.
  intros Hl Hx. induction l as [|y l IH]; simpl.
  - now rewrite Hx.
  - rewrite (Hl y) by (now left). apply IH. intros z Hz. apply Hl. now right.
Qed.

(** The cache after one more event: the event is its last element, the
    others were cached before, and it holds at most 1000 events. *)
Lemma in_skipn {A : Type} (k : nat) (l : list A) (x : A) :
  In x (skipn k l) -> In x l.
Proof.
  revert k. induction l as [|y l IH]; intros [|k]; simpl; auto.
  intros H. right. exact (IH k H).
Qed.

Lemma cached_recent_events event self :
  exists kept,
    recent_events (cached event self) = kept ++ [event] /\
    (forall e, In e kept -> In e (recent_events self)) /\
    length (recent_events (cached event self)) <= 1000.
Proof.
  unfold cached. cbv zeta. cbn [recent_events].
  set (old := recent_events self).
  destruct (Nat.ltb_spec 1000 (length (old ++ [event]))) as [Hlt|Hge].
  - rewrite length_app in Hlt. change (length [event]) with 1 in Hlt.
    exists (skipn (length old - 999) old). unfold Py.last_n.
    rewrite length_app. change (length [event]) with 1.
    replace (length old + 1 - 1000) with (length old - 999) by lia.
    rewrite skipn_app. replace (length old - 999 - length old) with 0 by lia.
    change (skipn 0 [event]) with [event].
    split; [reflexivity|]. split.
    + intros e He. apply (in_skipn _ _ _ He).
    + rewrite length_app, length_skipn. change (length [event]) with 1. lia.
  - exists old. repeat split; auto.
Qed.

(** X7: storing an event and reading it back: when the cache is backed by the
    event table and the id drawn from the clock is new to the table,
    [add_event] returns that id, [get_event] on it returns the event just
    built, the cache stays backed by the table and holds at most 1000
    events, and no preference is touched. *)
Theorem add_event_then_get_event
    (event_type : string) (data : EventData) (importance : float)
    (tags : list string) (self : PersistentMemory) (c : Clock) :
  cache_backed self ->
  Db.memory_events (connection self) !! (event_type +:+ "_" +:+ reading c (ticks c))
  = None ->
  let out := add_event event_type data importance tags self c in
  let event := new_event event_type data importance tags c in
  result_of out = Return (id event) /\
  get_event (id event) (state_of out) = Some event /\
  cache_backed (state_of out) /\
  length (recent_events (state_of out)) <= 1000 /\
  user_preferences (state_of out) = user_preferences self.
Proof.
  intros Hbacked Hfresh. cbv zeta. rewrite add_event_run. cbn [id]. rewrite Hfresh.
  unfold result_of, state_of. cbn [fst snd].
  fold (new_event event_type data importance tags c).
  set (event := new_event event_type data importance tags c).
  destruct (cached_recent_events event self) as (kept & Hcache & Hkept & Hlen).
  assert (Hid : id event = event_type +:+ "_" +:+ reading c (ticks c)) by reflexivity.
  split; [reflexivity|]. split; [|split; [|split]].
  - unfold get_event, stored, with_connection. cbn [recent_events connection].
    rewrite Hcache. rewrite find_snoc_fresh; [reflexivity| |apply String.eqb_refl].
    intros e He. apply String.eqb_neq. intros Heq.
    destruct (Hbacked e (Hkept e He)) as [x Hx]. rewrite Heq, Hid in Hx. congruence.
  - intros e He. unfold stored, with_connection in *.
    cbn [recent_events connection Db.memory_events] in *. rewrite Hcache in He.
    destruct (decide (id e = id event)) as [->|Hne].
    + rewrite lookup_insert_eq. eauto.
    + rewrite lookup_insert_ne by congruence.
      apply in_app_or in He. destruct He as [He|[<-|[]]]; [|congruence].
      apply Hbacked, Hkept, He.
  - exact Hlen.
  - reflexivity.
Qed.

Lemma add_event_then_get_event_witness :
  cache_backed one_event_memory /\
  get_event "email_classification_20240101_120000_0"
    (state_of (add_event "email_classification" question_data 0.5 ["email"]
                 one_event_memory noon))
  = Some (new_event "email_classification" question_data 0.5 ["email"] noon).
Proof.
  assert (H : cache_backed one_event_memory).
  { intros e [<-|[]]. cbn. eexists. reflexivity. }
  split; [exact H|].
  exact (proj1 (proj2 (add_event_then_get_event "email_classification" question_data
                         0.5 ["email"] one_event_memory noon H eq_refl))).
Defined.

(** X8: a second event under an id the table already holds: [add_event] raises
    [IntegrityError] and the table and the preferences are as before, but
    the event that was not stored is already the newest entry of the
    cache. *)
Theorem add_event_under_a_taken_id
    (event_type : string) (data : EventData) (importance : float)
    (tags : list string) (self : PersistentMemory) (c : Clock)
    (stored_event : MemoryEvent) :
  Db.memory_events (connection self) !! (event_type +:+ "_" +:+ reading c (ticks c))
  = Some stored_event ->
  let out := add_event event_type data importance tags self c in
  result_of out = Raise (Py.IntegrityError "memory_events.id") /\
  connection (state_of out) = connection self /\
  user_preferences (state_of out) = user_preferences self /\
  last (recent_events (state_of out)) = Some (new_event event_type data importance tags c) /\
  length (recent_events (state_of out)) <= 1000.
Proof.
  intros Htaken. cbv zeta. rewrite add_event_run. cbn [id]. rewrite Htaken.
  unfold result_of, state_of. cbn [fst snd].
  fold (new_event event_type data importance tags c).
  destruct (cached_recent_events (new_event event_type data importance tags c) self)
    as (kept & Hcache & _ & Hlen).
  repeat split; try assumption.
  rewrite Hcache. apply last_snoc.
Qed.

Lemma add_event_under_a_taken_id_witness :
  Db.memory_events (connection noted_memory)
    !! ("email_classification" +:+ "_" +:+ reading stopped (ticks stopped))
  = Some invoice_event /\
  result_of (add_event "email_classification" question_data 0.5 [] noted_memory stopped)
  = Raise (Py.IntegrityError "memory_events.id").
Proof.
  split; [reflexivity|].
  exact (proj1 (add_event_under_a_taken_id "email_classification" question_data 0.5 []
                  noted_memory stopped invoice_event eq_refl)).
Defined.

End LearningFacts.

(** ** The monitor's accounting *)

Section AccountingFacts.
Import Monitor.

Lemma stats_of_agent_stats agent_name self :
  agent_stats (snd (stats_of agent_name self)) !! agent_name
    = Some (stats_for agent_name self) /\
  forall other, other <> agent_name ->
    agent_stats (snd (stats_of agent_name self)) !! other = agent_stats self !! other.
Proof.
  unfold stats_of, stats_for. destruct (agent_stats self !! agent_name) eqn:H; simpl.
  - auto.
  - split; [apply lookup_insert_eq|]. intros other Hne. now apply lookup_insert_ne.
Qed.

(** What [end_operation] does to the statistics for an operation in flight. *)
Lemma end_operation_stats operation_id success result_data error_info
    now_time now self operation :
  active_operations self !! operation_id = Some operation ->
  let after := fst (end_operation operation_id success result_data error_info
                      now_time now self) in
  let before := stats_for (Operation.agent_name operation) self in
  (forall other, other <> Operation.agent_name operation ->
     agent_stats after !! other = agent_stats self !! other) /\
  exists stats, agent_stats after !! Operation.agent_name operation = Some stats /\
    total_operations stats = (total_operations before + 1)%Z /\
    successful_operations stats =
      (if success then successful_operations before + 1
       else successful_operations before)%Z /\
    failed_operations stats =
      (if success then failed_operations before
       else failed_operations before + 1)%Z.
Proof.
  intros Hop after before. subst after. unfold end_operation. rewrite Hop.
  set (self0 := set_active_operations (delete operation_id (active_operations self)) self).
  pose proof (stats_of_value (Operation.agent_name operation) self0) as Hv.
  pose proof (stats_of_agent_stats (Operation.agent_name operation) self0) as [_ Ho].
  destruct (stats_of (Operation.agent_name operation) self0) as [stats self1].
  simpl in Hv, Ho. change (agent_stats self0) with (agent_stats self) in Hv, Ho.
  fold (stats_for (Operation.agent_name operation) self) in Hv. fold before in Hv.
  subst stats.
  unfold _check_performance_thresholds, stats_of, append_metric. simpl.
  rewrite lookup_insert_eq. simpl. split.
  - intros other Hne. rewrite lookup_insert_ne by congruence. now apply Ho.
  - eexists. split; [apply lookup_insert_eq|]. simpl. auto.
Qed.

(** [record_tool_usage] leaves the three counters of every agent alone. *)
Lemma record_tool_usage_stats agent_name tool_name execution_time success now self other :
  let after := fst (record_tool_usage agent_name tool_name execution_time success
                      now self) in
  total_operations (stats_for other after) = total_operations (stats_for other self) /\
  successful_operations (stats_for other after)
    = successful_operations (stats_for other self) /\
  failed_operations (stats_for other after) = failed_operations (stats_for other self).
Proof.
  cbv zeta. unfold record_tool_usage.
  pose proof (stats_of_value agent_name self) as Hv.
  pose proof (stats_of_agent_stats agent_name self) as [_ Ho].
  destruct (stats_of agent_name self) as [stats self1]. simpl in Hv, Ho.
  fold (stats_for agent_name self) in Hv. subst stats.
  unfold stats_for, append_metric. simpl.
  destruct (decide (other = agent_name)) as [->|Hne].
  - rewrite lookup_insert_eq. simpl. auto.
  - rewrite lookup_insert_ne by congruence. rewrite (Ho other Hne). auto.
Qed.

Lemma balanced_new_stats : balanced new_stats.
Proof. unfold balanced. simpl. lia. Qed.

Lemma stats_for_balanced agent_name self :
  map_Forall (fun _ stats => balanced stats) (agent_stats self) ->
  balanced (stats_for agent_name self).
Proof.
  intros H. unfold stats_for.
  destruct (agent_stats self !! agent_name) as [stats|] eqn:Hs; simpl.
  - exact (H _ _ Hs).
  - exact balanced_new_stats.
Qed.

Lemma stats_for_lookup agent_name self stats :
  agent_stats self !! agent_name = Some stats -> stats_for agent_name self = stats.
Proof. intros H. unfold stats_for. now rewrite H. Qed.

Lemma call_balanced c self :
  map_Forall (fun _ stats => balanced stats) (agent_stats self) ->
  map_Forall (fun _ stats => balanced stats) (agent_stats (fst (call c self))).
Proof.
  intros H.
  destruct c as [oid an ot ctx nt | oid ok rd ei nt nw | an tn et ok nw | an ms nw]; simpl.
  - exact H.
  - destruct (active_operations self !! oid) as [operation|] eqn:Hop.
    + destruct (end_operation_stats oid ok rd ei nt nw self operation Hop)
        as (Ho & stats & Hs & Ht & Hsu & Hfa).
      pose proof (stats_for_balanced (Operation.agent_name operation) self H)
        as (Hb1 & Hb2 & Hb3).
      intros k x Hk. destruct (decide (k = Operation.agent_name operation)) as [->|Hne].
      * rewrite Hs in Hk. injection Hk as <-. unfold balanced.
        rewrite Ht, Hsu, Hfa. destruct ok; lia.
      * rewrite (Ho k Hne) in Hk. exact (H _ _ Hk).
    + unfold end_operation. rewrite Hop. exact H.
  - intros k x Hk.
    destruct (record_tool_usage_stats an tn et ok nw self k) as (Ht & Hsu & Hfa).
    rewrite (stats_for_lookup _ _ _ Hk) in Ht, Hsu, Hfa.
    pose proof (stats_for_balanced k self H) as Hb. unfold balanced in *.
    rewrite Ht, Hsu, Hfa. exact Hb.
  - exact H.
Qed.

(** X9: whatever is called on a monitor, in whatever order, the counters of
    every agent it has statistics for add up: the operations counted are
    the successful ones plus the failed ones, and no counter is negative. *)
Theorem counters_add_up_after_any_calls (buffer_size : nat) (cs : list Call) :
  map_Forall (fun _ stats => balanced stats)
    (agent_stats (fst (calls cs (init buffer_size)))).
Proof.
  assert (H : forall self,
    map_Forall (fun _ stats => balanced stats) (agent_stats self) ->
    map_Forall (fun _ stats => balanced stats) (agent_stats (fst (calls cs self)))).
  { induction cs as [|c cs IH]; intros self Hself; simpl; [exact Hself|].
    pose proof (call_balanced c self Hself) as Hc.
    destruct (call c self) as [self1 log1]. simpl in Hc.
    specialize (IH self1 Hc). destruct (calls cs self1) as [self2 log2]. exact IH. }
  apply H. simpl. apply map_Forall_empty.
Qed.

(** One tracked operation: what it leaves in the statistics and among the
    operations in flight. *)
Lemma track_stats t self agent_name :
  let after := fst (calls (track t) self) in
  let mine := String.eqb (tracked_agent t) agent_name in
  total_operations (stats_for agent_name after) =
    (total_operations (stats_for agent_name self) + (if mine then 1 else 0))%Z /\
  successful_operations (stats_for agent_name after) =
    (successful_operations (stats_for agent_name self)
     + (if mine && tracked_success t then 1 else 0))%Z /\
  failed_operations (stats_for agent_name after) =
    (failed_operations (stats_for agent_name self)
     + (if mine && negb (tracked_success t) then 1 else 0))%Z /\
  active_operations after = delete (tracked_id t) (active_operations self) /\
  (agent_stats after !! agent_name = None <->
   agent_stats self !! agent_name = None /\ mine = false).
Proof.
  unfold track. cbn [calls call].
  destruct (start_operation (tracked_id t) (tracked_agent t) (tracked_type t)
              (tracked_context t) (tracked_start t) self) as [self1 log1] eqn:Hstart.
  unfold start_operation in Hstart. injection Hstart as <- _.
  set (operation := Operation.mk (tracked_agent t) (tracked_type t) (tracked_start t)
                      (default [] (tracked_context t))).
  set (self1 := set_active_operations
                  (<[tracked_id t := operation]> (active_operations self)) self).
  assert (Hop : active_operations self1 !! tracked_id t = Some operation)
    by apply lookup_insert_eq.
  pose proof (end_operation_stats (tracked_id t) (tracked_success t) (tracked_result t)
                (tracked_error t) (tracked_end t) (tracked_now t) self1 operation Hop)
    as Hs.
  pose proof (end_operation_buffer (tracked_id t) (tracked_success t) (tracked_result t)
                (tracked_error t) (tracked_end t) (tracked_now t) self1 operation Hop)
    as Hb.
  destruct (end_operation (tracked_id t) (tracked_success t) (tracked_result t)
              (tracked_error t) (tracked_end t) (tracked_now t) self1) as [self2 log2].
  cbv zeta in Hs, Hb. simpl in Hs, Hb |- *.
  destruct Hs as (Ho & stats & Hs & Ht & Hsu & Hfa). destruct Hb as (_ & _ & Ha).
  change (stats_for (tracked_agent t) self1) with (stats_for (tracked_agent t) self)
    in Ht, Hsu, Hfa.
  assert (Hdel : active_operations self2 = delete (tracked_id t) (active_operations self))
    by (rewrite Ha; apply delete_insert_eq).
  destruct (String.eqb_spec (tracked_agent t) agent_name) as [<-|Hne].
  - rewrite (stats_for_lookup _ _ _ Hs), Ht, Hsu, Hfa, Hs.
    destruct (tracked_success t); simpl; repeat split; try lia; try exact Hdel;
      try discriminate; intros [_ H]; discriminate.
  - unfold stats_for. rewrite (Ho agent_name) by congruence. simpl.
    repeat split; try lia; try exact Hdel; tauto.
Qed.

Lemma tracks_stats ts self agent_name :
  let after := fst (calls (concat (map track ts)) self) in
  total_operations (stats_for agent_name after) =
    (total_operations (stats_for agent_name self)
     + Z.of_nat (length (run_by agent_name ts)))%Z /\
  successful_operations (stats_for agent_name after) =
    (successful_operations (stats_for agent_name self)
     + Z.of_nat (length (List.filter tracked_success (run_by agent_name ts))))%Z /\
  failed_operations (stats_for agent_name after) =
    (failed_operations (stats_for agent_name self)
     + Z.of_nat (length (List.filter (fun t => negb (tracked_success t))
                           (run_by agent_name ts))))%Z /\
  (active_operations self = ∅ -> active_operations after = ∅) /\
  (agent_stats after !! agent_name = None <->
   agent_stats self !! agent_name = None /\ run_by agent_name ts = []).
Proof.
  revert self. induction ts as [|t ts IH]; intros self.
  - simpl. repeat split; auto; try lia. tauto.
  - cbn [map concat]. cbv zeta. rewrite calls_app.
    destruct (track_stats t self agent_name) as (Ht & Hsu & Hfa & Ha & Hp).
    destruct (IH (fst (calls (track t) self))) as (Ht' & Hsu' & Hfa' & Ha' & Hp').
    set (self1 := fst (calls (track t) self)) in *.
    rewrite Ht', Hsu', Hfa', Ht, Hsu, Hfa, Hp', Hp. unfold run_by.
    assert (Hempty : active_operations self = ∅ ->
                     active_operations (fst (calls (concat (map track ts)) self1)) = ∅).
    { intros He. apply Ha'. rewrite Ha, He. apply delete_empty. }
    cbn [List.filter].
    destruct (String.eqb (tracked_agent t) agent_name); cbn [List.filter andb].
    + destruct (tracked_success t); cbn [List.filter negb length];
        (split; [lia|split; [lia|split; [lia|split; [exact Hempty|]]]]);
        intuition discriminate.
    + split; [lia|split; [lia|split; [lia|split; [exact Hempty|]]]]. tauto.
Qed.

(** X10: every tracked operation is counted once, under its agent. After any
    list of operations, each started and then ended, on a new monitor of
    any capacity: [get_real_time_stats] reports no operation in flight, as
    many metrics as operations up to the capacity, and for every agent the
    number of its operations (an agent that ran none is not listed); the
    agent's successes and failures are those of its operations. *)
Theorem every_tracked_operation_is_counted_once
    (buffer_size : nat) (ts : list Tracked) (agent_name : string) :
  let after := fst (calls (concat (map track ts)) (init buffer_size)) in
  let report := get_real_time_stats after in
  RealTimeStats.active_operations report = 0 /\
  RealTimeStats.total_metrics_collected report = Nat.min buffer_size (length ts) /\
  RealTimeStats.recent_operations report !! agent_name =
    (if decide (run_by agent_name ts = []) then None
     else Some (Z.of_nat (length (run_by agent_name ts)))) /\
  successful_operations (stats_for agent_name after) =
    Z.of_nat (length (List.filter tracked_success (run_by agent_name ts))) /\
  failed_operations (stats_for agent_name after) =
    Z.of_nat (length (List.filter (fun t => negb (tracked_success t))
                        (run_by agent_name ts))).
Proof.
  intros after report.
  destruct (tracks_stats ts (init buffer_size) agent_name) as (Ht & Hsu & Hfa & Ha & Hp).
  destruct (tracks_buffer ts (init buffer_size)) as [_ Hm].
  fold after in Ht, Hsu, Hfa, Ha, Hm, Hp.
  change (stats_for agent_name (init buffer_size)) with new_stats in Ht, Hsu, Hfa.
  simpl in Ht, Hsu, Hfa, Hm.
  subst report. unfold get_real_time_stats. simpl.
  split; [|split; [|split; [|split]]].
  - rewrite Ha by reflexivity. apply map_size_empty.
  - rewrite Hm, deque_extend_last_n by (simpl; lia). simpl.
    rewrite last_n_length, length_map. reflexivity.
  - rewrite lookup_fmap.
    destruct (agent_stats after !! agent_name) as [stats|] eqn:Hs; simpl.
    + rewrite (stats_for_lookup _ _ _ Hs) in Ht. rewrite Ht.
      destruct (decide (run_by agent_name ts = [])) as [He|Hne]; [|reflexivity].
      pose proof (proj2 Hp (conj (lookup_empty _) He)) as Hnone. congruence.
    + destruct (proj1 Hp eq_refl) as [_ He].
      destruct (decide (run_by agent_name ts = [])) as [_|Hne]; [reflexivity|].
      contradiction.
  - exact Hsu.
  - exact Hfa.
Qed.

End AccountingFacts.

(** ** Operations in flight and the newest metrics *)

Section InFlightFacts.
Import Monitor.

Lemma deque_append_ends {A : Type} (n : nat) (x : A) (d : list A) :
  1 <= n -> exists d', Py.deque_append n x d = d' ++ [x].
Proof.
  intros Hn. unfold Py.deque_append.
  destruct (Nat.ltb_spec n (length (d ++ [x]))) as [Hlt|Hge].
  - destruct d as [|y d]; simpl in *; [lia|]. now exists d.
  - now exists d.
Qed.

Lemma calls_cons c cs self :
  fst (calls (c :: cs) self) = fst (calls cs (fst (call c self))).
Proof.
  simpl. destruct (call c self) as [self1 log1]. simpl.
  now destruct (calls cs self1) as [self2 log2].
Qed.

(** X11: the buffer of a monitor of any capacity holds the metrics of the
    newest operations, oldest first: after any list of operations, each
    started and then ended, on a new monitor, all but the last
    [buffer_size] metrics are gone (all of them when the capacity is 0). *)
Theorem buffer_keeps_the_newest_metrics (buffer_size : nat) (ts : list Tracked) :
  metrics_buffer (fst (calls (concat (map track ts)) (init buffer_size)))
  = skipn (length ts - buffer_size) (map metric_of ts).
Proof.
  destruct (tracks_buffer ts (init buffer_size)) as [_ Hm]. rewrite Hm.
  change (Monitor.buffer_size (init buffer_size)) with buffer_size.
  change (metrics_buffer (init buffer_size)) with (@nil PerformanceMetric).
  rewrite deque_extend_last_n by (simpl; lia). simpl app.
  unfold Py.last_n. now rewrite length_map.
Qed.

(** X12: starting an operation under an id that is already in flight silently
    replaces the first start: the monitor ends up exactly as if only the
    second operation had been started and ended, so the first one is never
    counted and leaves no metric. *)
Theorem restart_under_the_same_id_forgets_the_first (first second : Tracked)
    (self : PerformanceMonitor) :
  fst (calls (restarted first second) self) = fst (calls (track second) self).
Proof.
  unfold restarted, track. rewrite !calls_cons. f_equal. f_equal.
  cbn [call]. unfold start_operation, set_active_operations.
  cbn [fst active_operations Monitor.buffer_size metrics_buffer snapshots_buffer
       agent_stats thresholds].
  now rewrite insert_insert_eq.
Qed.

(** X13: an operation ends only once: after [end_operation] on an operation in
    flight, a second [end_operation] on the same id changes nothing and
    logs that the operation was not found. *)
Theorem an_operation_ends_only_once
    (operation_id : string) (success success' : bool)
    (result_data result_data' : option Json) (error_info error_info' : option string)
    (now_time now_time' : float) (now now' : datetime)
    (self : PerformanceMonitor) (operation : Operation.t) :
  active_operations self !! operation_id = Some operation ->
  let ended := fst (end_operation operation_id success result_data error_info
                      now_time now self) in
  end_operation operation_id success' result_data' error_info' now_time' now' ended
  = (ended, [ {| level := WARNING; message := operation_not_found operation_id |} ]).
Proof.
  intros Hop ended.
  destruct (end_operation_buffer operation_id success result_data error_info
              now_time now self operation Hop) as (_ & _ & Ha).
  fold ended in Ha. unfold end_operation at 1. rewrite Ha, lookup_delete_eq.
  reflexivity.
Qed.

Lemma an_operation_ends_only_once_witness :
  active_operations one_in_flight !! "op-1"
    = Some (Operation.mk "EmailClassifier" "classify" 100 []) /\
  snd (end_operation "op-1" true None None 113 "20240101_120013_000000"
         (fst (end_operation "op-1" true None None 112 "20240101_120012_000000"
                 one_in_flight)))
  = [ {| level := WARNING; message := operation_not_found "op-1" |} ].
Proof.
  split; [reflexivity|].
  exact (f_equal snd
    (an_operation_ends_only_once "op-1" true true None None None None 112 113
       "20240101_120012_000000" "20240101_120013_000000" one_in_flight
       (Operation.mk "EmailClassifier" "classify" 100 []) eq_refl)).
Defined.

(** X14: what [record_memory_usage] stores is what [_get_recent_memory_usage]
    reads: on a monitor whose buffer has room for at least one metric, the
    reading just recorded for an agent is the one reported for it. *)
Theorem newest_memory_reading_is_reported
    (agent_name : string) (memory_stats : gmap string Z) (now : datetime)
    (self : PerformanceMonitor) :
  1 <= buffer_size self ->
  _get_recent_memory_usage agent_name
    (fst (record_memory_usage agent_name memory_stats now self))
  = memory_context memory_stats.
Proof.
  intros Hn. unfold record_memory_usage, append_metric, _get_recent_memory_usage.
  cbn [fst metrics_buffer set_metrics_buffer].
  match goal with |- context [Py.deque_append ?n ?x ?d] =>
    destruct (deque_append_ends n x d Hn) as [d' ->] end.
  rewrite rev_app_distr. cbn [rev app List.filter Monitor.agent_name metric_name].
  rewrite String.eqb_refl. cbn [andb String.eqb]. reflexivity.
Qed.

Lemma newest_memory_reading_is_reported_witness :
  1 <= buffer_size default_monitor /\
  _get_recent_memory_usage "EmailClassifier"
    (fst (record_memory_usage "EmailClassifier" classifier_memory
            "20240101_120000_000000" default_monitor))
  = memory_context classifier_memory.
Proof.
  assert (H : 1 <= buffer_size default_monitor) by (cbn; lia).
  split; [exact H|].
  exact (newest_memory_reading_is_reported "EmailClassifier" classifier_memory
           "20240101_120000_000000" default_monitor H).
Defined.

End InFlightFacts.

(** ** The analysis pipeline and the planner *)

Section PipelineFacts.
Import Agent.
Context `{env : Environment}.

Lemma submitted_orders (l : list Branch) :
  Permutation l submitted ->
  l = [classification_future; organization_future; response_future] \/
  l = [classification_future; response_future; organization_future] \/
  l = [organization_future; classification_future; response_future] \/
  l = [organization_future; response_future; classification_future] \/
  l = [response_future; classification_future; organization_future] \/
  l = [response_future; organization_future; classification_future].
Proof.
  intros Hp.
  assert (Hlen : length l = 3) by (rewrite (Permutation_length Hp); reflexivity).
  assert (Hnd : List.NoDup l).
  { apply (Permutation_NoDup (Permutation_sym Hp)).
    unfold submitted. repeat constructor; simpl; intuition discriminate. }
  destruct l as [|x [|y [|z [|? ?]]]]; try discriminate.
  inversion Hnd as [|? ? Hx Hnd']; subst. inversion Hnd' as [|? ? Hy _]; subst.
  simpl in Hx, Hy.
  destruct x, y, z; try (exfalso; tauto); tauto.
Qed.

(** X15: in parallel mode the pipeline never raises, and its result does not
    depend on the order in which the three futures complete: each section
    holds the list its own branch returned, and is left empty when that
    branch raised, whatever the other two branches do. *)
Theorem parallel_pipeline_isolates_each_branch
    (settings : WorkflowSettings) (emails : list Tools.EmailMessage) :
  parallel_processing settings = true ->
  Permutation (as_completed submitted) submitted ->
  run_email_analysis_pipeline settings emails =
  Return {| total_emails := length emails;
            classification_results := items (or_empty (_run_classification_batch emails));
            organization_suggestions :=
              items (or_empty (_run_organization_analysis emails));
            response_candidates := items (or_empty (_run_response_generation emails)) |}.
Proof.
  intros Hpar Hperm. unfold run_email_analysis_pipeline. rewrite Hpar.
  fold submitted.
  destruct (submitted_orders _ Hperm) as [ -> | [ -> | [ -> | [ -> | [ -> | -> ]]]]];
    unfold collect, future_result, or_empty; simpl;
    destruct (_run_classification_batch emails), (_run_organization_analysis emails),
             (_run_response_generation emails); reflexivity.
Qed.

(** X16: in sequential mode no branch is isolated and no plan is made: the
    pipeline returns only when all three branches return, and what it
    returns cannot be planned, because each section then holds the dict of
    its branch and not a list: the planner raises on the first section it
    reads, whatever the settings. *)
Theorem sequential_results_cannot_be_planned {St : Type}
    (settings : WorkflowSettings) (emails : list Tools.EmailMessage)
    (s : St) (c : Clock) :
  parallel_processing settings = false ->
  ((exists results, run_email_analysis_pipeline settings emails = Return results) <->
   (exists cs os rs, _run_classification_batch emails = Return cs /\
                     _run_organization_analysis emails = Return os /\
                     _run_response_generation emails = Return rs)) /\
  forall results, run_email_analysis_pipeline settings emails = Return results ->
    exists e, coordinate_workflow_execution settings results s c = (Raise e, s, c).
Proof.
  intros Hseq. unfold run_email_analysis_pipeline. rewrite Hseq.
  destruct (_run_classification_batch emails) as [cs|e1].
  2: { split; [split|]; [intros [r H]; discriminate
                        | intros (? & ? & ? & H & _); discriminate
                        | intros r H; discriminate]. }
  destruct (_run_organization_analysis emails) as [os|e2].
  2: { split; [split|]; [intros [r H]; discriminate
                        | intros (? & ? & ? & _ & H & _); discriminate
                        | intros r H; discriminate]. }
  destruct (_run_response_generation emails) as [rs|e3].
  2: { split; [split|]; [intros [r H]; discriminate
                        | intros (? & ? & ? & _ & _ & H); discriminate
                        | intros r H; discriminate]. }
  split; [split; [intros _; exists cs, os, rs; auto | intros _; eexists; reflexivity]|].
  intros results [= <-].
  unfold coordinate_workflow_execution, returning, coordinate, for_entries. simpl.
  run_unfold.
  destruct (auto_classify settings); [eexists; reflexivity|].
  destruct (auto_organize settings); eexists; reflexivity.
Qed.

Lemma complete_classification_one c :
  complete_classification c = true ->
  length (classification_immediate c) + length (classification_approval c) = 1.
Proof.
  destruct c as [[e|] [k|] [x|]]; try discriminate. intros _. simpl.
  destruct (Py.gt x 0.7); reflexivity.
Qed.

Lemma complete_suggestion_one o :
  complete_suggestion o = true -> length (suggestion_immediate o) = 1.
Proof. destruct o as [[a|] [t|] v x]; try discriminate. reflexivity. Qed.

Lemma complete_response_one settings r :
  complete_response r = true ->
  length (response_immediate settings r) + length (response_approval settings r) = 1.
Proof.
  destruct r as [[e|] [t|] i x]; try discriminate. intros _. simpl.
  destruct (auto_send_responses settings && Py.gt (Py.get x 0%float) 0.8); reflexivity.
Qed.

Lemma flat_map_length_two {A B : Type} (f g : A -> list B) (l : list A) :
  Forall (fun x => length (f x) + length (g x) = 1) l ->
  length (flat_map f l) + length (flat_map g l) = length l.
Proof.
  induction 1 as [|x l Hx _ IH]; simpl; [reflexivity|].
  rewrite !length_app. lia.
Qed.

Lemma flat_map_length_one {A B : Type} (f : A -> list B) (l : list A) :
  Forall (fun x => length (f x) = 1) l -> length (flat_map f l) = length l.
Proof.
  induction 1 as [|x l Hx _ IH]; simpl; [reflexivity|].
  rewrite length_app. lia.
Qed.

(** X17: the planner neither drops nor duplicates an entry: from complete
    entries it plans exactly one action for every classification (when
    [auto_classify] is on), one for every suggestion (when [auto_organize]
    is on) and one for every response candidate, each in one of the first
    two buckets; the other two buckets are never used. *)
Theorem every_entry_is_planned_once {St : Type}
    (settings : WorkflowSettings) (n : nat) (cs : list Classification.t)
    (os : list Suggestion.t) (rs : list Response.t) (s : St) (clk : Clock) :
  Forall (fun c => complete_classification c = true) cs ->
  Forall (fun o => complete_suggestion o = true) os ->
  Forall (fun r => complete_response r = true) rs ->
  exists plan : ExecutionPlan,
    coordinate_workflow_execution settings
      {| total_emails := n; classification_results := items cs;
         organization_suggestions := items os; response_candidates := items rs |} s clk
    = (Return plan, s, clk) /\
    length (immediate_actions plan) + length (user_approval_needed plan)
    = (if auto_classify settings then length cs else 0)
      + (if auto_organize settings then length os else 0)
      + length rs /\
    scheduled_actions plan = [] /\
    completed_actions plan = [].
Proof.
  intros Hc Ho Hr. eexists. split; [now apply coordinate_complete|].
  cbn [immediate_actions user_approval_needed scheduled_actions completed_actions].
  split; [|split; reflexivity].
  assert (Ec : length (flat_map classification_immediate cs)
               + length (flat_map classification_approval cs) = length cs).
  { apply flat_map_length_two. eapply Forall_impl; [exact Hc|].
    intros c. apply complete_classification_one. }
  assert (Eo : length (flat_map suggestion_immediate os) = length os).
  { apply flat_map_length_one. eapply Forall_impl; [exact Ho|].
    intros o. apply complete_suggestion_one. }
  assert (Er : length (flat_map (response_immediate settings) rs)
               + length (flat_map (response_approval settings) rs) = length rs).
  { apply flat_map_length_two. eapply Forall_impl; [exact Hr|].
    intros r. apply complete_response_one. }
  rewrite !length_app.
  destruct (auto_classify settings), (auto_organize settings); simpl; lia.
Qed.

Lemma plan_classification_incomplete c plan clk :
  complete_classification c = false ->
  exists key, plan_classification c plan clk = (Raise (Py.KeyError key), plan, clk) /\
              In key ["email_id"; "category"; "confidence"].
Proof.
  intros Hc. unfold plan_classification.
  destruct c as [[e|] [k|] [x|]]; try discriminate; simpl;
    match goal with
    | |- context [if ?b then _ else _] => destruct b
    | _ => idtac
    end; run_unfold; simpl; eexists; (split; [reflexivity|simpl; auto]).
Qed.

Lemma classification_loop_incomplete cs plan clk :
  Exists (fun c => complete_classification c = false) cs ->
  exists key plan',
    for_each cs plan_classification plan clk = (Raise (Py.KeyError key), plan', clk) /\
    In key ["email_id"; "category"; "confidence"].
Proof.
  intros Hex. revert plan. induction cs as [|c cs IH]; intros plan.
  - inversion Hex.
  - simpl. unfold bind.
    destruct (complete_classification c) eqn:Hc.
    + rewrite plan_classification_effect by exact Hc.
      apply IH. inversion Hex as [? ? H|? ? H]; subst; [congruence|exact H].
    + destruct (plan_classification_incomplete c plan clk Hc) as (key & -> & Hin).
      now exists key, plan.
Qed.

(** X18: one malformed entry voids the whole plan: when a classification lacks
    one of the keys the planner indexes, the planner raises the [KeyError]
    of that key and returns no plan at all, however many well-formed
    entries came before it or are in the other sections. *)
Theorem an_incomplete_classification_voids_the_plan {St : Type}
    (settings : WorkflowSettings) (n : nat) (cs : list Classification.t)
    (os : list Suggestion.t) (rs : list Response.t) (s : St) (clk : Clock) :
  auto_classify settings = true ->
  Exists (fun c => complete_classification c = false) cs ->
  exists key,
    coordinate_workflow_execution settings
      {| total_emails := n; classification_results := items cs;
         organization_suggestions := items os; response_candidates := items rs |} s clk
    = (Raise (Py.KeyError key), s, clk) /\
    In key ["email_id"; "category"; "confidence"].
Proof.
  intros Hauto Hex.
  destruct (classification_loop_incomplete cs empty_plan clk Hex)
    as (key & plan' & Hrun & Hin).
  exists key. split; [|exact Hin].
  unfold coordinate_workflow_execution, returning, coordinate, for_entries.
  rewrite Hauto. cbn [classification_results]. unfold bind at 1. rewrite Hrun.
  reflexivity.
Qed.

Lemma label_suggestion_immediate o :
  is_label_suggestion o ->
  complete_suggestion o = true /\
  exists target confidence,
    suggestion_immediate o = [apply_organization "apply_label" target confidence].
Proof.
  destruct o as [a t v x]. intros [Ha [target Ht]]. simpl in Ha, Ht. subst.
  split; [reflexivity|]. simpl. eauto.
Qed.

Lemma label_actions os :
  Forall is_label_suggestion os ->
  Forall (fun a => exists target confidence,
            a = apply_organization "apply_label" target confidence)
    (flat_map suggestion_immediate os) /\
  length (flat_map suggestion_immediate os) = length os.
Proof.
  induction 1 as [|o os Ho _ [IH1 IH2]]; simpl; [split; [constructor|reflexivity]|].
  destruct (label_suggestion_immediate o Ho) as (_ & target & confidence & ->).
  simpl. split; [constructor; eauto|]. now rewrite IH2.
Qed.

(** X19: planning drops the label of a label suggestion, so executing it always
    fails: every [apply_label] suggestion becomes an immediate action,
    and every one of these actions is tallied as failed with the result
    [error: 'value'], the [KeyError] of the key the plan did not copy. *)
Theorem label_suggestions_always_fail {St St' : Type}
    (settings : WorkflowSettings) (n : nat) (os : list Suggestion.t)
    (s : St) (c : Clock) (s' : St') (c' : Clock) :
  auto_organize settings = true ->
  Forall is_label_suggestion os ->
  exists plan res,
    coordinate_workflow_execution settings (only_suggestions n os) s c
    = (Return plan, s, c) /\
    length (immediate_actions plan) = length os /\
    result_of (execute_workflow_actions plan s' c') = Return res /\
    successful_actions res = 0%Z /\
    failed_actions res = Z.of_nat (length os) /\
    Forall (fun d => detail_result d = "error: 'value'") (action_details res).
Proof.
  intros Hauto Hos.
  destruct (label_actions os Hos) as [Hacts Hlen].
  assert (Hcomplete : Forall (fun o => complete_suggestion o = true) os).
  { eapply Forall_impl; [exact Hos|]. intros o Ho.
    exact (proj1 (label_suggestion_immediate o Ho)). }
  assert (Hplan :
    coordinate_workflow_execution settings (only_suggestions n os) s c
    = (Return (extend (flat_map suggestion_immediate os) [] empty_plan), s, c)).
  { unfold only_suggestions.
    rewrite (coordinate_complete settings n [] os [] s c (List.Forall_nil _) Hcomplete
               (List.Forall_nil _)).
    rewrite Hauto. unfold extend, empty_plan.
    destruct (auto_classify settings); simpl; rewrite app_nil_r; reflexivity. }
  destruct (execute_workflow_actions_run
              (extend (flat_map suggestion_immediate os) [] empty_plan) s' c')
    as (res & Hrun & Ha & Hr & Hs & Hf & _).
  exists (extend (flat_map suggestion_immediate os) [] empty_plan), res.
  cbn [immediate_actions extend empty_plan app] in *.
  assert (Hfail : forall l,
    Forall (fun a => exists target confidence,
              a = apply_organization "apply_label" target confidence) l ->
    List.filter succeeded l = [] /\
    List.filter (fun a => negb (succeeded a)) l = l /\
    Forall (fun t => t = "error: 'value'") (map result_text l)).
  { clear. induction 1 as [|a l (target & confidence & ->) _ (IH1 & IH2 & IH3)];
      [repeat split; constructor|].
    simpl. rewrite IH1, IH2. repeat split. constructor; [reflexivity|exact IH3]. }
  destruct (Hfail _ Hacts) as (H1 & H2 & H3).
  rewrite H1 in Hs. rewrite H2, Hlen in Hf.
  split; [exact Hplan|]. split; [exact Hlen|].
  split; [rewrite Hrun; reflexivity|].
  split; [exact Hs|]. split; [exact Hf|].
  rewrite <- Hr in H3. apply Forall_map in H3. exact H3.
Qed.

End PipelineFacts.

Section ConcretePipelines.
Import Agent.

Lemma parallel_pipeline_isolates_each_branch_witness :
  parallel_processing default_settings = true /\
  Permutation (@as_completed all_branches_fail submitted) submitted /\
  @run_email_analysis_pipeline all_branches_fail default_settings [one_mail] =
  Return {| total_emails := 1; classification_results := items [];
            organization_suggestions := items []; response_candidates := items [] |}.
Proof.
  assert (Hp : Permutation (@as_completed all_branches_fail submitted) submitted)
    by apply Permutation_refl.
  split; [reflexivity|]. split; [exact Hp|].
  exact (@parallel_pipeline_isolates_each_branch all_branches_fail default_settings
           [one_mail] eq_refl Hp).
Defined.

Lemma sequential_results_cannot_be_planned_witness :
  parallel_processing sequential_settings = false /\
  exists e,
    coordinate_workflow_execution sequential_settings
      {| total_emails := 0;
         classification_results := keyed "classifications" [];
         organization_suggestions := keyed "organization" [];
         response_candidates := keyed "responses" [] |} tt noon
    = (Raise e, tt, noon).
Proof.
  split; [reflexivity|].
  destruct (proj2 (@sequential_results_cannot_be_planned empty_inbox unit
                     sequential_settings [] tt noon eq_refl)
              {| total_emails := 0;
                 classification_results := keyed "classifications" [];
                 organization_suggestions := keyed "organization" [];
                 response_candidates := keyed "responses" [] |} eq_refl)
    as (e & He).
  exists e. exact He.
Defined.

Lemma every_entry_is_planned_once_witness :
  Forall (fun c => complete_classification c = true) three_classified /\
  exists plan : ExecutionPlan,
    coordinate_workflow_execution default_settings
      {| total_emails := 3; classification_results := items three_classified;
         organization_suggestions := items []; response_candidates := items [] |}
      tt noon
    = (Return plan, tt, noon) /\
    length (immediate_actions plan) + length (user_approval_needed plan) = 3.
Proof.
  assert (Hc : Forall (fun c => complete_classification c = true) three_classified)
    by (repeat constructor).
  split; [exact Hc|].
  destruct (every_entry_is_planned_once default_settings 3 three_classified [] [] tt noon
              Hc (List.Forall_nil _) (List.Forall_nil _)) as (plan & Hplan & Hlen & _).
  exists plan. split; [exact Hplan|exact Hlen].
Defined.

Lemma an_incomplete_classification_voids_the_plan_witness :
  auto_classify default_settings = true /\
  Exists (fun c => complete_classification c = false) [without_category] /\
  exists key,
    coordinate_workflow_execution default_settings
      {| total_emails := 1; classification_results := items [without_category];
         organization_suggestions := items []; response_candidates := items [] |}
      tt noon
    = (Raise (Py.KeyError key), tt, noon).
Proof.
  assert (He : Exists (fun c => complete_classification c = false) [without_category])
    by (constructor; reflexivity).
  split; [reflexivity|]. split; [exact He|].
  destruct (an_incomplete_classification_voids_the_plan default_settings 1
              [without_category] [] [] tt noon eq_refl He) as (key & Hrun & _).
  exists key. exact Hrun.
Defined.

Lemma label_suggestions_always_fail_witness :
  auto_organize default_settings = true /\
  Forall is_label_suggestion [label_m1] /\
  exists plan res,
    coordinate_workflow_execution default_settings (only_suggestions 1 [label_m1]) tt noon
    = (Return plan, tt, noon) /\
    result_of (@execute_workflow_actions empty_inbox unit plan tt noon) = Return res /\
    failed_actions res = 1%Z.
Proof.
  assert (Hl : Forall is_label_suggestion [label_m1]).
  { constructor; [|constructor]. split; [reflexivity|]. simpl. eauto. }
  split; [reflexivity|]. split; [exact Hl|].
  destruct (@label_suggestions_always_fail empty_inbox unit unit default_settings 1
              [label_m1] tt noon tt noon eq_refl Hl)
    as (plan & res & Hplan & _ & Hrun & _ & Hf & _).
  exists plan, res. split; [exact Hplan|]. split; [exact Hrun|exact Hf].
Defined.

End ConcretePipelines.

(** ** Short-term memory, feedback and the cycle as a whole *)

Section AgentFacts.
Import Agent.
Context `{env : Environment}.

(** Appending to a list capped at [n] items. *)
Lemma capped_snoc {A : Type} (n : nat) (l : list A) (x : A) :
  1 <= n ->
  let appended := l ++ [x] in
  let kept := if (n <? length appended)%nat then Py.last_n n appended else appended in
  length kept <= n /\
  exists dropped, kept = skipn dropped l ++ [x] /\ (length l < n -> dropped = 0).
Proof.
  intros Hn. cbv zeta.
  destruct (Nat.ltb_spec n (length (l ++ [x]))) as [Hlt|Hge];
    rewrite length_app in Hlt || rewrite length_app in Hge;
    change (length [x]) with 1 in *.
  - unfold Py.last_n. rewrite length_app. change (length [x]) with 1.
    split.
    + rewrite length_skipn, length_app. change (length [x]) with 1. lia.
    + exists (length l + 1 - n). split; [|lia].
      rewrite skipn_app. replace (length l + 1 - n - length l) with 0 by lia.
      reflexivity.
  - split; [rewrite length_app; change (length [x]) with 1; lia|].
    exists 0. split; reflexivity.
Qed.

(** X20: short-term memory keeps the last 100 events: whatever it held before,
    after [add_to_short_term] it holds at most 100 events, the new event,
    stamped with the clock reading, is the newest, and the others are the
    most recent ones of before, in their order (all of them when fewer
    than 100 were held). *)
Theorem short_term_keeps_the_last_100
    (type : string) (tool : option string) (w : World) (c : Clock) :
  let out := add_to_short_term type tool w c in
  let event := {| short_type := type; short_tool := tool;
                  short_timestamp := reading c (ticks c) |} in
  result_of out = Return tt /\
  length (short_term (agent (state_of out))) <= 100 /\
  exists dropped,
    short_term (agent (state_of out)) = skipn dropped (short_term (agent w)) ++ [event] /\
    (length (short_term (agent w)) < 100 -> dropped = 0).
Proof.
  cbv zeta. unfold add_to_short_term, remember. run_unfold.
  cbn [fst snd agent with_agent short_term].
  split; [reflexivity|].
  apply (capped_snoc 100). lia.
Qed.

Ltac returns_unit :=
  repeat first
    [ apply update_preference_returns
    | apply always_returns_for_each; intros ?
    | apply always_returns_bind
    | apply always_returns_ret
    | match goal with |- always_returns (if ?b then _ else _) => destruct b end
    | match goal with |- always_returns (match ?o with Some _ => _ | None => _ end) =>
        destruct o end ].

Lemma learn_from_feedback_returns event_id feedback_type feedback_value :
  always_returns (Memory._learn_from_feedback event_id feedback_type feedback_value).
Proof.
  intros s c. unfold Memory._learn_from_feedback. unfold bind at 1, get_state at 1.
  destruct (Memory.get_event event_id s) as [event|]; [|reflexivity].
  revert s c. change (always_returns
    (if String.eqb feedback_type "classification_correction" then
       Memory._update_classification_preference event feedback_value
     else if String.eqb feedback_type "response_approval" then
       Memory._update_response_preference event feedback_value
     else if String.eqb feedback_type "organization_preference" then
       Memory._update_organization_preference event feedback_value
     else if String.eqb feedback_type "priority_adjustment" then
       Memory._update_priority_preference event feedback_value
     else ret tt)).
  unfold Memory._update_classification_preference, Memory._update_response_preference,
    Memory._update_organization_preference, Memory._update_priority_preference.
  returns_unit.
Qed.

Lemma update_preference_feedback_table category preference_key value event boost :
  keeps (fun s s' => Memory.Db.user_feedback (Memory.connection s')
                     = Memory.Db.user_feedback (Memory.connection s))
    (Memory._update_preference category preference_key value event boost).
Proof. intros s c. now rewrite update_preference_run. Qed.

Lemma learn_from_feedback_feedback_table event_id feedback_type feedback_value :
  keeps (fun s s' => Memory.Db.user_feedback (Memory.connection s')
                     = Memory.Db.user_feedback (Memory.connection s))
    (Memory._learn_from_feedback event_id feedback_type feedback_value).
Proof.
  set (R := fun s s' : Memory.PersistentMemory =>
              Memory.Db.user_feedback (Memory.connection s')
              = Memory.Db.user_feedback (Memory.connection s)).
  assert (Hrefl : forall s, R s s) by reflexivity.
  assert (Htrans : forall s1 s2 s3, R s1 s2 -> R s2 s3 -> R s1 s3)
    by (unfold R; intros; congruence).
  unfold Memory._learn_from_feedback, Memory._update_classification_preference,
    Memory._update_response_preference, Memory._update_organization_preference,
    Memory._update_priority_preference.
  repeat first
    [ apply update_preference_feedback_table
    | apply (keeps_for_each R Hrefl Htrans); intros ?
    | apply (keeps_bind R Htrans); [|intros ?]
    | apply (keeps_ret R Hrefl)
    | apply (keeps_get_state R Hrefl)
    | match goal with |- keeps _ (if ?b then _ else _) => destruct b end
    | match goal with |- keeps _ (match ?o with Some _ => _ | None => _ end) =>
        destruct o end ].
Qed.

Lemma process_user_feedback_run {Data : Type}
    (add_user_feedback : string -> string -> Data -> Run Memory.PersistentMemory unit)
    email_id feedback_type feedback_data w c :
  process_user_feedback add_user_feedback email_id feedback_type feedback_data w c =
  match add_user_feedback email_id feedback_type feedback_data (memory w) c with
  | (Return _, m', c') => (Return true, feedback_counted (with_memory m' w), c')
  | (Raise _, m', c') => (Return false, with_memory m' w, c')
  end.
Proof.
  unfold process_user_feedback, try_except, on_memory, zoom, bind,
    count_user_feedback, modify, ret, feedback_counted.
  destruct (add_user_feedback _ _ _ _ _) as [[[[]|e] m'] c']; reflexivity.
Qed.

(** X21: [process_user_feedback] never raises and counts exactly the calls
    of [memory.add_user_feedback] that return. Whatever that method does
    with the payload, of whatever type: when it returns, the agent returns
    [True] and the counter of feedback received grows by one; when it
    raises, the agent returns [False] and is unchanged; either way the
    memory and the clock are as the method left them, so what it had
    committed before raising stays (a row recorded before a learning rule
    raised is recorded but not counted). With the method of the memory
    above, on its typed payloads: when the feedback id drawn from the clock
    is taken, the agent returns [False] and the world is as before; when it
    is new, the agent returns [True], the row is in the feedback table,
    nothing but the counter changes in the agent, and the memory only
    learnt (also when the event is unknown and nothing could be learnt). *)
Theorem process_user_feedback_counts_the_calls_that_return {Data : Type}
    (add_user_feedback : string -> string -> Data -> Run Memory.PersistentMemory unit)
    (email_id feedback_type : string) (feedback_data : Data)
    (typed_data : Memory.FeedbackValue) (w : World) (c : Clock) :
  (let done := add_user_feedback email_id feedback_type feedback_data (memory w) c in
   let out := process_user_feedback add_user_feedback email_id feedback_type
                feedback_data w c in
   memory (state_of out) = state_of done /\
   clock_of out = clock_of done /\
   match result_of done with
   | Return _ =>
       result_of out = Return true /\
       agent (state_of out) = agent (feedback_counted w)
   | Raise _ =>
       result_of out = Return false /\
       agent (state_of out) = agent w
   end) /\
  (let out := process_user_feedback Memory.add_user_feedback email_id feedback_type
                typed_data w c in
   let row := new_feedback email_id feedback_type typed_data c in
   match Memory.Db.user_feedback (Memory.connection (memory w))
           !! Memory.FeedbackRow.feedback_id row with
   | None =>
       result_of out = Return true /\
       agent (state_of out) = agent (feedback_counted w) /\
       Memory.Db.user_feedback (Memory.connection (memory (state_of out)))
       = <[Memory.FeedbackRow.feedback_id row := row]>
           (Memory.Db.user_feedback (Memory.connection (memory w))) /\
       only_learns (memory w) (memory (state_of out))
   | Some _ => result_of out = Return false /\ state_of out = w
   end).
Proof.
  split; cbv zeta; rewrite process_user_feedback_run.
  - destruct (add_user_feedback _ _ _ _ _) as [[[[]|e] m'] c'];
      unfold result_of, state_of, clock_of, feedback_counted; cbn; auto.
  - rewrite add_user_feedback_run.
    destruct (Memory.Db.user_feedback (Memory.connection (memory w)) !! _) eqn:Hrow.
    + split; [reflexivity|]. destruct w; reflexivity.
    + pose proof (learn_from_feedback_returns email_id feedback_type typed_data
                    (recorded (new_feedback email_id feedback_type typed_data c)
                       (memory w))
                    (mkClock (reading c) (S (S (ticks c))))) as Hret.
      pose proof (learn_from_feedback_only_learns email_id feedback_type typed_data
                    (recorded (new_feedback email_id feedback_type typed_data c)
                       (memory w))
                    (mkClock (reading c) (S (S (ticks c))))) as Hlearn.
      pose proof (learn_from_feedback_feedback_table email_id feedback_type typed_data
                    (recorded (new_feedback email_id feedback_type typed_data c)
                       (memory w))
                    (mkClock (reading c) (S (S (ticks c))))) as Htable.
      destruct (Memory._learn_from_feedback email_id feedback_type typed_data _ _)
        as [[r m'] c'].
      unfold result_of, state_of in *. cbn [fst snd] in *. subst r.
      cbn [fst snd]. split; [reflexivity|]. split; [reflexivity|]. split.
      * unfold feedback_counted. cbn [memory with_agent with_memory]. rewrite Htable.
        reflexivity.
      * unfold feedback_counted. cbn [memory with_agent with_memory].
        eapply only_learns_trans; [apply recorded_only_learns|exact Hlearn].
Qed.

(** A method that commits a row and then raises, as [add_user_feedback] does
    when a learning rule cannot read the payload: the agent returns
    [False] and counts nothing, and the row stays in the feedback table. *)
Example a_row_recorded_before_a_raise_is_not_counted
    (row : Memory.FeedbackRow.t) (e : Py.exn) (w : World) (c : Clock) :
  let out := process_user_feedback
               (fun _ _ (_ : unit) => modify (recorded row) ;; raise e)
               "e1" "priority_adjustment" tt w c in
  result_of out = Return false /\
  agent (state_of out) = agent w /\
  Memory.Db.user_feedback (Memory.connection (memory (state_of out)))
    !! Memory.FeedbackRow.feedback_id row = Some row.
Proof.
  cbv zeta. rewrite process_user_feedback_run. run_unfold. cbn.
  repeat split. apply lookup_insert_eq.
Qed.

(** X22: a cycle never raises: from every world, clock and environment,
    [run_cycle] returns a result. The result is a success exactly when it
    carries no error, and it carries the results of [act] exactly when it
    is a success. *)
Theorem a_cycle_never_raises (w : World) (c : Clock) :
  exists (r : CycleResult) (w' : World) (c' : Clock),
    run_cycle w c = (Return r, w', c') /\
    reading c' = reading c /\
    (cycle_success r = true <-> cycle_error r = None) /\
    (cycle_success r = true <-> is_Some (cycle_results r)).
Proof.
  destruct (run_cycle_run w c) as (r & w' & c' & Hrun & Hread & Hcase).
  exists r, w', c'. split; [exact Hrun|]. split; [exact Hread|].
  destruct (fetch_recent_emails _) as [|mail batch].
  - destruct Hcase as (_ & Hr & He & Hs & _). rewrite Hr, He, Hs.
    split; split; eauto.
  - destruct Hcase as (wr & n & _ & Hcase).
    destruct (Memory.Db.memory_events _ !! _).
    + destruct Hcase as (Hr & Hs & He & _). rewrite Hr, He, Hs.
      split; split; try discriminate. intros [x Hx]. discriminate.
    + destruct Hcase as (_ & Hr & He & Hs & _). rewrite Hr, He, Hs.
      split; split; eauto.
Qed.

End AgentFacts.

(** ** The learning summary *)

Section SummaryFacts.
Import Memory.

Lemma total_insert (counts : gmap string Z) (k : string) (n : Z) :
  total (<[k := n]> counts) = (total counts - default 0 (counts !! k) + n)%Z.
Proof.
  unfold total. destruct (counts !! k) as [old|] eqn:Hk; simpl.
  - rewrite <- insert_delete_eq.
    rewrite map_fold_insert_L; [|intros; lia|apply lookup_delete_eq].
    rewrite (map_fold_delete_L _ _ k old counts); [|intros; lia|exact Hk]. lia.
  - rewrite map_fold_insert_L; [|intros; lia|exact Hk]. lia.
Qed.

(** X23: the counts of [_group_preferences_by_category] account for every
    preference exactly once: they add up to the number of preferences the
    memory holds, every category listed holds at least one preference, and
    a category is listed exactly when some preference belongs to it. *)
Theorem category_counts_add_up (self : PersistentMemory) :
  let categories := _group_preferences_by_category self in
  total categories = Z.of_nat (size (user_preferences self)) /\
  map_Forall (fun _ n => (1 <= n)%Z) categories /\
  forall k, is_Some (categories !! k) <->
            exists key pref, user_preferences self !! key = Some pref /\
                             category pref = k.
Proof.
  cbv zeta. unfold _group_preferences_by_category.
  apply (map_fold_weak_ind
    (fun (categories : gmap string Z) (prefs : gmap string UserPreference) =>
       total categories = Z.of_nat (size prefs) /\
       map_Forall (fun _ n => (1 <= n)%Z) categories /\
       forall k, is_Some (categories !! k) <->
                 exists key pref, prefs !! key = Some pref /\ category pref = k)).
  - split; [reflexivity|]. split; [apply map_Forall_empty|].
    intros k. rewrite lookup_empty. split.
    + intros [x Hx]. discriminate.
    + intros (key & pref & Hp & _). rewrite lookup_empty in Hp. discriminate.
  - intros i pref prefs categories Hfresh (Htotal & Hpos & Hlisted).
    split; [|split].
    + rewrite total_insert, Htotal, map_size_insert_None by exact Hfresh.
      unfold Py.get. lia.
    + apply map_Forall_insert_2; [|exact Hpos].
      unfold Py.get. destruct (categories !! category pref) as [n|] eqn:Hn; simpl.
      * pose proof (Hpos _ _ Hn) as H. simpl in H. lia.
      * lia.
    + intros k. destruct (decide (k = category pref)) as [->|Hne].
      * rewrite lookup_insert_eq. split; [|eauto].
        intros _. exists i, pref. split; [apply lookup_insert_eq|reflexivity].
      * rewrite lookup_insert_ne by congruence. rewrite Hlisted. split.
        -- intros (key & p & Hp & Hc). exists key, p. split; [|exact Hc].
           rewrite lookup_insert_ne; [exact Hp|]. intros ->. congruence.
        -- intros (key & p & Hp & Hc). exists key, p. split; [|exact Hc].
           destruct (decide (key = i)) as [->|Hki].
           ++ rewrite lookup_insert_eq in Hp. congruence.
           ++ rewrite lookup_insert_ne in Hp by congruence. exact Hp.
Qed.

End SummaryFacts.
